(** * matsuni: engagement scoring, period totals and identity matching

    A shallow embedding of the three computations of the bot:

    - [MatsuniCalculator.calculate_for_post] and [_check_daily_limit]
      (bot/services/matsuni_calc.py), with the sheet operations they call,
      [GoogleSheetsDB.get_exclusions] and [save_activity];
    - [GoogleSheetsDB.calculate_totals] (bot/database/gsheets.py);
    - [ImageProcessor.find_usernames] and [_calculate_similarity]
      (bot/services/image_ocr.py).

    Around them: the roster operations [get_members], [add_member] and
    [update_member_status], [add_exclusion], the validators of
    bot/utils/validators.py, [_clean_text], the entries [top_total] and
    [top_days] of [generate_rankings], and the two handlers of bot/main.py
    that score a post and save its rows, [confirm_post] and
    [button_callback], with the [context.user_data] they share.

    Modelling conventions.

    - A Python [str] is a [string]; [len], [==], [<=] and [in] are the length,
      equality, lexicographic order and substring test on it.  [lower] folds
      the ASCII letters only.
    - A Python [int] is a [Z] (no overflow).
    - A worksheet is the list of its data rows, each row a record with one
      field per column of [_init_worksheet_structure]; the sheet [Итоги] is
      kept as raw rows of cells, header first, because [calculate_totals]
      rewrites it through [get_all_values].
    - A raised exception is [None]; the state left behind by a call that
      raises is out of the model.
    - A Python [float] produced by [_calculate_similarity] is the rational it
      denotes ([1.0], [0.9], [1.0 - distance / max_len]) and is compared as a
      rational.  The rounded average of [calculate_totals] is kept as the
      pair [round(total / days, 2)] is computed from.
    - [datetime.now()] is an argument of [save_activity]; the TTL caches are
      left out. *)

From Stdlib Require Import ZArith QArith List String Ascii Bool Arith Lia.
From Stdlib Require Import Permutation Sorted.
Import ListNotations.

Local Open Scope string_scope.
Local Open Scope Z_scope.

(** ** Exceptions *)

Definition bind {A B : Type} (m : option A) (k : A -> option B) : option B :=
  match m with
  | Some a => k a
  | None => None
  end.

Notation "'do' x <- m ; k" := (bind m (fun x => k))
  (at level 10, x name, m at level 100, k at level 200).

(** ** Python strings *)

Module PyStr.

(** [str.isspace] on the ASCII range: TAB..CR, FS..US and the blank. *)
Definition isspace (c : ascii) : bool :=
  let n := nat_of_ascii c in
  ((9 <=? n)%nat && (n <=? 13)%nat) || ((28 <=? n)%nat && (n <=? 32)%nat).

Fixpoint lstrip (s : string) : string :=
  match s with
  | String c s' => if isspace c then lstrip s' else s
  | EmptyString => EmptyString
  end.

Fixpoint first_word (s : string) : string :=
  match s with
  | String c s' => if isspace c then EmptyString else String c (first_word s')
  | EmptyString => EmptyString
  end.

(** [s.split()[0]]: the first whitespace-delimited field; [IndexError] when
    [s] is empty or blank. *)
Definition split_first (s : string) : option string :=
  match lstrip s with
  | EmptyString => None
  | w => Some (first_word w)
  end.

Definition lower_char (c : ascii) : ascii :=
  let n := nat_of_ascii c in
  if ((65 <=? n)%nat && (n <=? 90)%nat) then ascii_of_nat (n + 32) else c.

(** [s.lower()] *)
Fixpoint lower (s : string) : string :=
  match s with
  | String c s' => String (lower_char c) (lower s')
  | EmptyString => EmptyString
  end.

(** [needle in hay] *)
Fixpoint contains (needle hay : string) : bool :=
  prefix needle hay ||
  match hay with
  | String _ hay' => contains needle hay'
  | EmptyString => false
  end.

(** [x in xs] for a list or a set of strings *)
Definition mem (x : string) (xs : list string) : bool :=
  existsb (String.eqb x) xs.

(** [bool(s)] *)
Definition truthy (s : string) : bool :=
  match s with
  | EmptyString => false
  | _ => true
  end.

(** The loop of [s.split()]: [word] is the field being read, [None]
    between two fields. *)
Fixpoint split_loop (s : string) (word : option string) : list string :=
  match s with
  | EmptyString =>
      match word with
      | Some w => [w]
      | None => []
      end
  | String c s' =>
      if isspace c then
        match word with
        | Some w => w :: split_loop s' None
        | None => split_loop s' None
        end
      else
        split_loop s' (Some (match word with
                             | Some w => w ++ String c EmptyString
                             | None => String c EmptyString
                             end))
  end.

(** [s.split()] *)
Definition split (s : string) : list string := split_loop s None.

(** [s.replace(old, new)] for an [old] that is not empty, read from the
    left: [skip] counts the characters of a match still to pass. *)
Fixpoint replace_loop (old new s : string) (skip : nat) : string :=
  match s with
  | EmptyString => EmptyString
  | String c s' =>
      match skip with
      | S k => replace_loop old new s' k
      | O =>
          if prefix old s
          then new ++ replace_loop old new s' (String.length old - 1)
          else String c (replace_loop old new s' 0)
      end
  end.

Definition replace (old new s : string) : string := replace_loop old new s 0.

End PyStr.

(** ** Insertion-ordered dictionaries

    A [dict] keyed by strings: [d[k] = v] keeps the position of a key that is
    already there and appends a new one, so iteration is in the order of
    first insertion. *)

Module PyDict.

Definition dict (V : Type) : Type := list (string * V).

Fixpoint get {V : Type} (d : dict V) (k : string) : option V :=
  match d with
  | [] => None
  | (k', v) :: d' => if String.eqb k' k then Some v else get d' k
  end.

Fixpoint set {V : Type} (d : dict V) (k : string) (v : V) : dict V :=
  match d with
  | [] => [(k, v)]
  | (k', v') :: d' =>
      if String.eqb k' k then (k', v) :: d' else (k', v') :: set d' k v
  end.

Definition keys {V : Type} (d : dict V) : list string := map fst d.


End PyDict.

(** ** [list.sort(key=..., reverse=True)] and [sorted(..., reverse=True)]

    Python's sort is stable, also under [reverse=True].  The model is the
    stable insertion sort: an element moves behind the later elements whose
    key is strictly larger, and behind those only.  [below x y] reads "the
    key of [x] is strictly smaller than the key of [y]". *)

Section SortDesc.

Context {A : Type} (below : A -> A -> bool).

Fixpoint insert_desc (x : A) (l : list A) : list A :=
  match l with
  | [] => [x]
  | y :: l' => if below x y then y :: insert_desc x l' else x :: l
  end.

Fixpoint sort_desc (l : list A) : list A :=
  match l with
  | [] => []
  | x :: l' => insert_desc x (sort_desc l')
  end.

End SortDesc.

(** ** The worksheets *)

(** A row of [Активность], the ledger: ID поста, Username, Лайк, Комментарий,
    Матсуни, Время проверки. *)
Record ActivityRow : Type := mkActivityRow {
  a_post_id : string;
  a_username : string;
  a_like : string;
  a_comment : string;
  a_matsuni : Z;
  a_checked_at : string
}.

(** A row of [Исключения]: Username, Название поста, Причина, Дата, Активно. *)
Record ExclusionRow : Type := mkExclusionRow {
  e_username : string;
  e_post_name : string;
  e_reason : string;
  e_date : string;
  e_active : string
}.

(** A row of [Участники]: Username, Дата добавления, Статус, Телеграм ID. *)
Record MemberRow : Type := mkMemberRow {
  m_username : string;
  m_join_date : string;
  m_status : string;
  m_telegram_id : string
}.

(** A row of [Посты]: Номер, Название, Дата, Тип, Статус, Комментарий. *)
Record PostRow : Type := mkPostRow {
  p_number : string;
  p_title : string;
  p_day : string;
  p_type : string;
  p_status : string;
  p_comment : string
}.

(** The rounded average [round(total / days, 2)], kept as its operands;
    [AvgZero] is the literal [0] of the [days_active == 0] branch. *)
Inductive average : Type :=
  | AvgRound2 (total : Z) (days : nat)
  | AvgZero.

(** A cell of [Итоги] as [totals_ws.update(..., 'RAW')] writes it. *)
Inductive cell : Type :=
  | CStr (s : string)
  | CInt (z : Z)
  | CAvg (a : average).

Record DB : Type := mkDB {
  members_ws : list MemberRow;
  posts_ws : list PostRow;
  activity_ws : list ActivityRow;
  exclusions_ws : list ExclusionRow;
  totals_ws : list (list cell)
}.

(** ** Records exchanged with the calculator *)

(** [post_data], as [MatsuniBot.confirm_post] builds it. *)
Record Post : Type := mkPost {
  post_id : string;
  post_name : string;
  post_date : string
}.

(** An activity record.  [username] is [None] when the key is missing; a
    missing flag reads as [False], the default of [activity.get]. *)
Record Activity : Type := mkActivity {
  act_username : option string;
  act_has_like : bool;
  act_has_comment : bool
}.

(** A row of the list [calculate_for_post] returns. *)
Record Result : Type := mkResult {
  r_username : string;
  r_has_like : bool;
  r_has_comment : bool;
  r_matsuni : Z;
  r_post_name : string;
  r_post_date : string
}.

Record Rules : Type := mkRules {
  max_per_day : Z;
  like_only : Z;
  comment_only : Z;
  like_comment : Z
}.

(** ** [datetime.strptime(s, '%Y-%m-%d')] *)

Module PyDate.

Definition digit (c : ascii) : option Z :=
  let n := nat_of_ascii c in
  if ((48 <=? n)%nat && (n <=? 57)%nat) then Some (Z.of_nat n - 48) else None.

Definition is_dash (c : ascii) : bool := Ascii.eqb c "-"%char.

(** The directive [%m]: [1[0-2]|0[1-9]|[1-9]]. *)
Definition month_field (s : string) : option Z :=
  match s with
  | String a EmptyString =>
      do x <- digit a;
      if 1 <=? x then Some x else None
  | String a (String b EmptyString) =>
      do x <- digit a;
      do y <- digit b;
      if (x =? 1) && (y <=? 2) then Some (10 + y)
      else if (x =? 0) && (1 <=? y) then Some y
      else None
  | _ => None
  end.

(** The directive [%d]: [3[0-1]|[1-2]\d|0[1-9]|[1-9]| [1-9]]. *)
Definition day_field (s : string) : option Z :=
  match s with
  | String a EmptyString =>
      do x <- digit a;
      if 1 <=? x then Some x else None
  | String a (String b EmptyString) =>
      do y <- digit b;
      if Ascii.eqb a " "%char then (if 1 <=? y then Some y else None)
      else
        do x <- digit a;
        if (x =? 3) && (y <=? 1) then Some (30 + y)
        else if (1 <=? x) && (x <=? 2) then Some (10 * x + y)
        else if (x =? 0) && (1 <=? y) then Some y
        else None
  | _ => None
  end.

Definition is_leap (year : Z) : bool :=
  (year mod 4 =? 0) && (negb (year mod 100 =? 0) || (year mod 400 =? 0)).

Definition days_in_month (year month : Z) : Z :=
  if month =? 2 then (if is_leap year then 29 else 28)
  else if (month =? 4) || (month =? 6) || (month =? 9) || (month =? 11) then 30
  else 31.

Definition days_before_year (year : Z) : Z :=
  let y := year - 1 in
  y * 365 + y / 4 - y / 100 + y / 400.

Fixpoint days_before_month (year : Z) (month : nat) : Z :=
  match month with
  | O => 0
  | S O => 0
  | S m => days_before_month year m + days_in_month year (Z.of_nat m)
  end.

(** [date(year, month, day).toordinal()]; [ValueError] for a day that does
    not exist and for the year 0. *)
Definition ordinal (year month day : Z) : option Z :=
  if (1 <=? year) && (1 <=? day) && (day <=? days_in_month year month)
  then Some (days_before_year year + days_before_month year (Z.to_nat month) + day)
  else None.

(** The ordinal of the day [s] denotes; [ValueError] is [None]. *)
Definition strptime (s : string) : option Z :=
  match s with
  | String y1 (String y2 (String y3 (String y4 (String dash1 rest)))) =>
      do a <- digit y1;
      do b <- digit y2;
      do c <- digit y3;
      do d <- digit y4;
      if negb (is_dash dash1) then None else
      let year := 1000 * a + 100 * b + 10 * c + d in
      match rest with
      | String m1 (String dash2 dd) =>
          if is_dash dash2 then
            do month <- month_field (String m1 EmptyString);
            do day <- day_field dd;
            ordinal year month day
          else
            match dd with
            | String dash3 dd' =>
                if is_dash dash3 then
                  do month <- month_field (String m1 (String dash2 EmptyString));
                  do day <- day_field dd';
                  ordinal year month day
                else None
            | EmptyString => None
            end
      | _ => None
      end
  | _ => None
  end.

End PyDate.

(** bot/utils/validators.py *)
Definition validate_date (date_str : string) : bool :=
  match PyDate.strptime date_str with
  | Some _ => true
  | None => false
  end.

(** A character of the class [[a-zA-Z0-9_.]]. *)
Definition username_char (c : ascii) : bool :=
  let n := nat_of_ascii c in
  ((97 <=? n)%nat && (n <=? 122)%nat) || ((65 <=? n)%nat && (n <=? 90)%nat) ||
  ((48 <=? n)%nat && (n <=? 57)%nat) || (n =? 95)%nat || (n =? 46)%nat.

(** What may follow the first character of a match of [^[a-zA-Z0-9_.]+$]:
    more characters of the class, then the end of the string or the one
    newline before it that [$] allows. *)
Fixpoint username_tail (s : string) : bool :=
  match s with
  | EmptyString => true
  | String c s' =>
      if username_char c then username_tail s'
      else Ascii.eqb c "010"%char &&
           match s' with
           | EmptyString => true
           | _ => false
           end
  end.

(** bot/utils/validators.py: [bool(re.match(r'^[a-zA-Z0-9_.]+$', username))] *)
Definition validate_username (username : string) : bool :=
  match username with
  | EmptyString => false
  | String c s' => username_char c && username_tail s'
  end.

(** ** Records of [calculate_totals] *)

(** The per-member accumulator of the grouping loop; [g_days_active] is the
    set of dates, kept duplicate-free. *)
Record MemberGroup : Type := mkMemberGroup {
  g_username : string;
  g_days_active : list string;
  g_total_matsuni : Z;
  g_activities : list ActivityRow
}.

(** An element of [final_results] before it is ranked. *)
Record MemberStats : Type := mkMemberStats {
  s_username : string;
  s_days_active : Z;
  s_total_matsuni : Z;
  s_avg_matsuni : average;
  s_join_date : string;
  s_status : string
}.

(** An element of [final_results] once [result['rank'] = i] has run. *)
Record MemberTotal : Type := mkMemberTotal {
  t_stats : MemberStats;
  t_rank : Z
}.

(** The dictionary [calculate_totals] returns. *)
Record Totals : Type := mkTotals {
  period : string;
  total_days : Z;
  total_members : Z;
  total_matsuni : Z;
  results : list MemberTotal
}.

(** ** bot/database/gsheets.py *)

Module GoogleSheetsDB.

Import PyStr.

Fixpoint get_exclusions_loop (data : list ExclusionRow) (post_name : string)
    (exclusions : list ExclusionRow) : list ExclusionRow :=
  match data with
  | [] => exclusions
  | row :: rest =>
      if negb (String.eqb (lower (e_active row)) "да") then
        get_exclusions_loop rest post_name exclusions
      else if truthy post_name && negb (String.eqb (e_post_name row) post_name) then
        get_exclusions_loop rest post_name exclusions
      else
        get_exclusions_loop rest post_name (exclusions ++ [row])
  end.

Definition get_exclusions (db : DB) (post_name : string) : list ExclusionRow :=
  get_exclusions_loop (exclusions_ws db) post_name [].

Definition add_exclusion (today : string) (db : DB)
    (username post_name reason : string) : DB :=
  mkDB (members_ws db) (posts_ws db) (activity_ws db)
       (exclusions_ws db ++ [mkExclusionRow username post_name reason today "да"])
       (totals_ws db).

Definition yes_no (b : bool) : string := if b then "да" else "нет".

(** [now] is [datetime.now().strftime('%Y-%m-%d %H:%M:%S')]. *)
Definition save_activity (now : string) (db : DB) (post_data : Post)
    (activities : list Result) : DB :=
  let rows :=
    map (fun activity =>
           mkActivityRow (post_id post_data) (r_username activity)
             (yes_no (r_has_like activity)) (yes_no (r_has_comment activity))
             (r_matsuni activity) now)
        activities in
  mkDB (members_ws db)
       (posts_ws db ++ [mkPostRow (post_id post_data) (post_name post_data)
                          (post_date post_data) "обычный" "обработан" ""])
       (activity_ws db ++ rows)
       (exclusions_ws db)
       (totals_ws db).

(** The first loop: the rows of [Активность] whose date is in the period. *)
Fixpoint period_loop (data : list ActivityRow) (start_date end_date : string)
    (activities : list ActivityRow) : option (list ActivityRow) :=
  match data with
  | [] => Some activities
  | row :: rest =>
      do activity_date <- split_first (a_checked_at row);
      if String.leb start_date activity_date && String.leb activity_date end_date
      then period_loop rest start_date end_date (activities ++ [row])
      else period_loop rest start_date end_date activities
  end.

(** [{row['Username']: row for row in members_ws.get_all_records()}] *)
Definition members_dict (rows : list MemberRow) : PyDict.dict MemberRow :=
  fold_left (fun d row => PyDict.set d (m_username row) row) rows [].

(** [set.add] *)
Definition set_add (x : string) (s : list string) : list string :=
  if mem x s then s else s ++ [x].

(** The grouping loop. *)
Fixpoint group_loop (members : PyDict.dict MemberRow)
    (activities : list ActivityRow) (results : PyDict.dict MemberGroup)
    : option (PyDict.dict MemberGroup) :=
  match activities with
  | [] => Some results
  | activity :: rest =>
      let username := a_username activity in
      match PyDict.get members username with
      | None => group_loop members rest results
      | Some _ =>
          let data :=
            match PyDict.get results username with
            | Some data => data
            | None => mkMemberGroup username [] 0 []
            end in
          do activity_date <- split_first (a_checked_at activity);
          group_loop members rest
            (PyDict.set results username
               (mkMemberGroup (g_username data)
                  (set_add activity_date (g_days_active data))
                  (g_total_matsuni data + a_matsuni activity)
                  (g_activities data ++ [activity])))
      end
  end.

(** The loop over [results.items()]. *)
Fixpoint final_loop (members : PyDict.dict MemberRow)
    (items : list (string * MemberGroup)) (final_results : list MemberStats)
    : option (list MemberStats) :=
  match items with
  | [] => Some final_results
  | (username, data) :: rest =>
      let days_active := List.length (g_days_active data) in
      let avg_matsuni :=
        if (0 <? days_active)%nat
        then AvgRound2 (g_total_matsuni data) days_active
        else AvgZero in
      do member <- PyDict.get members username;
      final_loop members rest
        (final_results ++
           [mkMemberStats username (Z.of_nat days_active) (g_total_matsuni data)
              avg_matsuni (m_join_date member) (m_status member)])
  end.

(** [for i, result in enumerate(final_results, 1): result['rank'] = i] *)
Fixpoint add_ranks (i : Z) (final_results : list MemberStats) : list MemberTotal :=
  match final_results with
  | [] => []
  | result :: rest => mkMemberTotal result i :: add_ranks (i + 1) rest
  end.

Definition cell_is (s : string) (c : cell) : bool :=
  match c with
  | CStr s' => String.eqb s' s
  | _ => false
  end.

(** [len(row) > 0 and row[0] != period_id] *)
Definition keep_row (period_id : string) (row : list cell) : bool :=
  match row with
  | [] => false
  | c :: _ => negb (cell_is period_id c)
  end.

Definition totals_row (period_id : string) (result : MemberTotal) : list cell :=
  let s := t_stats result in
  [CStr period_id; CStr (s_username s); CInt (s_days_active s);
   CInt (s_total_matsuni s); CAvg (s_avg_matsuni s); CInt (t_rank result)].

Definition calculate_totals (db : DB) (start_date end_date : string)
    : option (DB * Totals) :=
  let _ := validate_date start_date in
  let _ := validate_date end_date in
  do activities <- period_loop (activity_ws db) start_date end_date [];
  let members := members_dict (members_ws db) in
  do results <- group_loop members activities [];
  do final_results <- final_loop members results [];
  let final_results :=
    sort_desc (fun x y => s_total_matsuni x <? s_total_matsuni y) final_results in
  let final_results := add_ranks 1 final_results in
  let period_id := start_date ++ "_" ++ end_date in
  match totals_ws db with
  | [] => None
  | header :: existing =>
      let rows_to_keep := header :: filter (keep_row period_id) existing in
      let new_rows := map (totals_row period_id) final_results in
      let db' := mkDB (members_ws db) (posts_ws db) (activity_ws db)
                   (exclusions_ws db) (rows_to_keep ++ new_rows) in
      do end_day <- PyDate.strptime end_date;
      do start_day <- PyDate.strptime start_date;
      Some (db',
            mkTotals (start_date ++ " - " ++ end_date)
              (end_day - start_day + 1)
              (Z.of_nat (List.length final_results))
              (fold_left Z.add (map (fun r => s_total_matsuni (t_stats r)) final_results) 0)
              final_results)
  end.

(** The loop of [get_members]. *)
Fixpoint get_members_loop (data : list MemberRow) (active_only : bool)
    (members : list MemberRow) : list MemberRow :=
  match data with
  | [] => members
  | row :: rest =>
      if active_only && negb (String.eqb (lower (m_status row)) "активен") then
        get_members_loop rest active_only members
      else
        get_members_loop rest active_only
          (members ++ [mkMemberRow (m_username row) (m_join_date row)
                         (m_status row) (m_telegram_id row)])
  end.

Definition get_members (db : DB) (active_only : bool) : list MemberRow :=
  get_members_loop (members_ws db) active_only [].

(** [today] is [datetime.now().strftime('%Y-%m-%d')]; a [join_date] or a
    [telegram_id] that is not given is [None].  The results of the two
    validators are not looked at. *)
Definition add_member (today : string) (db : DB) (username : string)
    (join_date telegram_id : option string) : DB * bool :=
  let _ := validate_username username in
  let join_date :=
    match join_date with
    | Some d => if truthy d then (let _ := validate_date d in d) else today
    | None => today
    end in
  let telegram_id :=
    match telegram_id with
    | Some t => if truthy t then t else ""
    | None => ""
    end in
  (mkDB (members_ws db ++ [mkMemberRow username join_date "активен" telegram_id])
        (posts_ws db) (activity_ws db) (exclusions_ws db) (totals_ws db),
   true).

(** The loop of [update_member_status] over the data rows: the rows with the
    status of the first row of [username] replaced, [None] without such row. *)
Fixpoint update_status_loop (rows : list MemberRow) (username status : string)
    : option (list MemberRow) :=
  match rows with
  | [] => None
  | row :: rest =>
      if String.eqb (m_username row) username then
        Some (mkMemberRow (m_username row) (m_join_date row) status
                (m_telegram_id row) :: rest)
      else
        match update_status_loop rest username status with
        | Some rest' => Some (row :: rest')
        | None => None
        end
  end.

Definition update_member_status (db : DB) (username status : string) : DB * bool :=
  match update_status_loop (members_ws db) username status with
  | Some rows =>
      (mkDB rows (posts_ws db) (activity_ws db) (exclusions_ws db) (totals_ws db), true)
  | None => (db, false)
  end.

End GoogleSheetsDB.

(** ** bot/services/matsuni_calc.py *)

Module MatsuniCalculator.

Import PyStr.

Definition default_rules : Rules :=
  {| max_per_day := 2; like_only := 1; comment_only := 2; like_comment := 2 |}.

(** The loop of [_check_daily_limit] over the rows of [Активность]. *)
Fixpoint daily_total_loop (data : list ActivityRow) (username date : string)
    (daily_total : Z) : option Z :=
  match data with
  | [] => Some daily_total
  | row :: rest =>
      if String.eqb (a_username row) username then
        do activity_date <- split_first (a_checked_at row);
        if String.eqb activity_date date
        then daily_total_loop rest username date (daily_total + a_matsuni row)
        else daily_total_loop rest username date daily_total
      else daily_total_loop rest username date daily_total
  end.

Definition _check_daily_limit (db : DB) (rules : Rules)
    (username date : string) (new_matsuni : Z) : option Z :=
  do daily_total <- daily_total_loop (activity_ws db) username date 0;
  let remaining := max_per_day rules - daily_total in
  Some (Z.min new_matsuni (Z.max 0 remaining)).

Definition get_username (activity : Activity) : string :=
  match act_username activity with
  | Some u => u
  | None => ""
  end.

(** The loop of [calculate_for_post]; [results] is the list built so far. *)
Fixpoint calculate_loop (db : DB) (rules : Rules) (post_name post_date : string)
    (excluded_users : list string) (activities : list Activity)
    (results : list Result) : option (list Result) :=
  match activities with
  | [] => Some results
  | activity :: rest =>
      let username := get_username activity in
      if mem username excluded_users then
        calculate_loop db rules post_name post_date excluded_users rest results
      else
        let has_like := act_has_like activity in
        let has_comment := act_has_comment activity in
        let matsuni :=
          if has_comment then like_comment rules
          else if has_like then like_only rules
          else 0 in
        do daily_limit <- _check_daily_limit db rules username post_date matsuni;
        let matsuni := if daily_limit <? matsuni then daily_limit else matsuni in
        calculate_loop db rules post_name post_date excluded_users rest
          (results ++ [mkResult username has_like has_comment matsuni
                         post_name post_date])
  end.

Definition calculate_for_post (db : DB) (rules : Rules) (post_data : Post)
    (activities : list Activity) : option (list Result) :=
  let post_name := post_name post_data in
  let post_date := post_date post_data in
  let exclusions := GoogleSheetsDB.get_exclusions db post_name in
  let excluded_users := map e_username exclusions in
  calculate_loop db rules post_name post_date excluded_users activities [].

(** [confirm_post] followed at once by the [save_post_] callback of
    bot/main.py: the post is scored, then the batch is appended to the
    ledger at time [now]. *)
Definition score_and_save (now : string) (db : DB) (rules : Rules)
    (post_data : Post) (activities : list Activity) : option (DB * list Result) :=
  do results <- calculate_for_post db rules post_data activities;
  Some (GoogleSheetsDB.save_activity now db post_data results, results).

(** [generate_rankings], the entry [top_total]:
    [sorted(results, key=lambda x: x['total_matsuni'], reverse=True)[:10]]. *)
Definition top_total (results : list MemberTotal) : list MemberTotal :=
  firstn 10
    (sort_desc (fun x y => s_total_matsuni (t_stats x) <? s_total_matsuni (t_stats y))
               results).

(** [generate_rankings], the entry [top_days]:
    [sorted(results, key=lambda x: x['days_active'], reverse=True)[:10]]. *)
Definition top_days (results : list MemberTotal) : list MemberTotal :=
  firstn 10
    (sort_desc (fun x y => s_days_active (t_stats x) <? s_days_active (t_stats y))
               results).

End MatsuniCalculator.

(** ** bot/services/image_ocr.py *)

Module ImageProcessor.

Import PyStr.

(** The table [corrections], in the order of the dictionary. *)
Definition corrections : list (string * string) :=
  [("@5", "@s"); ("1", "l"); ("0", "o"); ("vv", "w"); ("rn", "m")].

Definition _clean_text (text : string) : string :=
  let text := String.concat " " (split text) in
  fold_left (fun text correction => replace (fst correction) (snd correction) text)
            corrections text.

Definition cost (c1 c2 : ascii) : nat := if Ascii.eqb c1 c2 then 0%nat else 1%nat.

(** The inner loop over [j] for one row [i] of the matrix.  [prev] is the
    part [matrix[i-1][j-1:]] of the row above and [left] is
    [matrix[i][j-1]]; the result is [matrix[i][j:]]. *)
Fixpoint fill_row (c1 : ascii) (str2 : list ascii) (prev : list nat) (left : nat)
    : list nat :=
  match str2, prev with
  | c2 :: str2', diag :: ((up :: _) as prev') =>
      let v := Nat.min (up + 1) (Nat.min (left + 1) (diag + cost c1 c2)) in
      v :: fill_row c1 str2' prev' v
  | _, _ => []
  end.

(** The outer loop over [i]: the rows [matrix[i:]], given row [i-1]. *)
Fixpoint fill_rows (str1 str2 : list ascii) (i : nat) (prev : list nat)
    : list (list nat) :=
  match str1 with
  | [] => []
  | c1 :: str1' =>
      let row := i :: fill_row c1 str2 prev i in
      row :: fill_rows str1' str2 (S i) row
  end.

(** The filled matrix: row 0 is [0..len(str2)], column 0 is [0..len(str1)]. *)
Definition matrix (str1 str2 : list ascii) : list (list nat) :=
  let row0 := seq 0 (S (List.length str2)) in
  row0 :: fill_rows str1 str2 1 row0.

(** [matrix[len(str1)][len(str2)]] *)
Definition levenshtein (str1 str2 : string) : nat :=
  last (last (matrix (list_ascii_of_string str1) (list_ascii_of_string str2)) []) 0%nat.

Definition _calculate_similarity (str1 str2 : string) : Q :=
  if String.eqb str1 str2 then 1%Q else
  let longer := if (String.length str2 <? String.length str1)%nat then str1 else str2 in
  let shorter := if (String.length str1 <=? String.length str2)%nat then str1 else str2 in
  if contains shorter longer then (9 # 10)%Q else
  let distance := levenshtein str1 str2 in
  let max_len := Nat.max (String.length str1) (String.length str2) in
  if (max_len =? 0)%nat then 1%Q
  else (1 - (Z.of_nat distance # Pos.of_nat max_len))%Q.

(** The loop over [members_list] for one extracted [username]. *)
Fixpoint members_loop (username : string) (members_list : list string)
    (min_confidence : Q) (found : list (string * Q)) : list (string * Q) :=
  match members_list with
  | [] => found
  | member :: rest =>
      let confidence := _calculate_similarity (lower username) (lower member) in
      if Qle_bool min_confidence confidence
      then members_loop username rest min_confidence (found ++ [(member, confidence)])
      else members_loop username rest min_confidence found
  end.

(** The loop over the matches; a match is the tuple of the four groups of
    the pattern and [''.join(match)] is the one that took part. *)
Fixpoint matches_loop (matches : list (list string)) (members_list : list string)
    (min_confidence : Q) (found : list (string * Q)) : list (string * Q) :=
  match matches with
  | [] => found
  | m :: rest =>
      let username := String.concat "" m in
      matches_loop rest members_list min_confidence
        (members_loop username members_list min_confidence found)
  end.

(** The loop that keeps, for each member, the largest confidence. *)
Fixpoint unique_loop (found : list (string * Q)) (unique_found : PyDict.dict Q)
    : PyDict.dict Q :=
  match found with
  | [] => unique_found
  | (username, confidence) :: rest =>
      match PyDict.get unique_found username with
      | None => unique_loop rest (PyDict.set unique_found username confidence)
      | Some old =>
          if negb (Qle_bool confidence old)
          then unique_loop rest (PyDict.set unique_found username confidence)
          else unique_loop rest unique_found
      end
  end.

Section FindUsernames.

(** [re.findall(all_patterns, text, re.IGNORECASE)], the regular expression
    engine applied to the four patterns of the source. *)
Variable findall : string -> list (list string).

Definition find_usernames (text : string) (members_list : list string)
    (min_confidence : Q) : list (string * Q) :=
  let matches := findall text in
  let found := matches_loop matches members_list min_confidence [] in
  let unique_found := unique_loop found [] in
  sort_desc (fun x y => negb (Qle_bool (snd y) (snd x))) unique_found.

End FindUsernames.

End ImageProcessor.

(** ** bot/main.py: the check of a post *)

Module MatsuniBot.

Import PyStr.










End MatsuniBot.

(** ** Vocabulary of the statements *)

Module Spec.

Import PyStr.

(** Every row of the ledger carries a time of check that is not blank, as
    the rows [save_activity] appends do. *)
Definition stamped (ledger : list ActivityRow) : bool :=
  forallb (fun row => match split_first (a_checked_at row) with
                      | Some _ => true
                      | None => false
                      end) ledger.

(** The row belongs to [username] and its time of check falls on [date]. *)
Definition on_day (username date : string) (row : ActivityRow) : bool :=
  String.eqb (a_username row) username &&
  match split_first (a_checked_at row) with
  | Some activity_date => String.eqb activity_date date
  | None => false
  end.

(** The points the ledger holds for [username] on [date]. *)
Definition prior_total (ledger : list ActivityRow) (username date : string) : Z :=
  fold_right Z.add 0 (map a_matsuni (filter (on_day username date) ledger)).

(** All the points the ledger holds for [username]. *)
Definition ledger_total (ledger : list ActivityRow) (username : string) : Z :=
  fold_right Z.add 0
    (map a_matsuni (filter (fun row => String.eqb (a_username row) username) ledger)).

(** The rule table with the default points. *)
Definition raw_points (has_like has_comment : bool) : Z :=
  if has_comment then 2 else if has_like then 1 else 0.

(** What [get_exclusions] does: [row] is an active exclusion that it reports
    for [post_name].  The post name of the row is [post_name]; a call with
    the empty name reports every active exclusion. *)
Definition applies_to (post_name : string) (row : ExclusionRow) : bool :=
  String.eqb (lower (e_active row)) "да" &&
  (negb (truthy post_name) || String.eqb (e_post_name row) post_name).

(** What [calculate_for_post] skips: [username] is one of the usernames that
    [get_exclusions] reports for [post_name]. *)
Definition excluded (db : DB) (post_name username : string) : bool :=
  existsb (fun row => applies_to post_name row && String.eqb (e_username row) username)
          (exclusions_ws db).








(** The points of the rule table under [rules]. *)
Definition rule_points (rules : Rules) (activity : Activity) : Z :=
  if act_has_comment activity then like_comment rules
  else if act_has_like activity then like_only rules
  else 0.

(** The row expected for a record that is not skipped: the points of the
    rule table, cut down to what is left of the daily allowance. *)
Definition scored (db : DB) (rules : Rules) (post_data : Post) (activity : Activity)
    : Result :=
  let username := MatsuniCalculator.get_username activity in
  mkResult username (act_has_like activity) (act_has_comment activity)
    (Z.min (rule_points rules activity)
       (Z.max 0 (max_per_day rules
                 - prior_total (activity_ws db) username (post_date post_data))))
    (post_name post_data) (post_date post_data).

(** The row is dated within the period, both ends included. *)
Definition in_period (start_date end_date : string) (row : ActivityRow) : bool :=
  match split_first (a_checked_at row) with
  | Some activity_date =>
      String.leb start_date activity_date && String.leb activity_date end_date
  | None => false
  end.

(** [username] is on the roster. *)
Definition is_member (db : DB) (username : string) : bool :=
  existsb (fun row => String.eqb (m_username row) username) (members_ws db).

(** [x] joins the elements seen so far, at the end, unless it is one of them. *)
Definition see (seen : list string) (x : string) : list string :=
  if mem x seen then seen else (seen ++ [x])%list.

(** The distinct elements of a list, in the order of their first occurrence. *)
Definition first_seen (l : list string) : list string := fold_left see l [].

(** [k in d] *)
Definition has_key {V : Type} (d : PyDict.dict V) (k : string) : bool :=
  match PyDict.get d k with
  | Some _ => true
  | None => false
  end.

(** The number [f] reads in the entry of [u], 0 without entry. *)
Definition held {V : Type} (f : V -> Z) (d : PyDict.dict V) (u : string) : Z :=
  match PyDict.get d u with
  | Some g => f g
  | None => 0
  end.

(** The points of [username] over a list of ledger rows. *)
Definition points_of (username : string) (activities : list ActivityRow) : Z :=
  fold_right Z.add 0
    (map a_matsuni
       (filter (fun row => String.eqb (a_username row) username) activities)).

(** The members with at least one entry in the period, in the order the
    grouping meets them. *)
Definition ranked_members (db : DB) (start_date end_date : string) : list string :=
  first_seen
    (filter (is_member db)
       (map a_username (filter (in_period start_date end_date) (activity_ws db)))).

(** The points of [username] over the entries of the period. *)
Definition period_total (db : DB) (start_date end_date username : string) : Z :=
  points_of username (filter (in_period start_date end_date) (activity_ws db)).

(** The ranks [first], [first + 1], ... of [n] rows. *)
Fixpoint ranks_from (first : Z) (n : nat) : list Z :=
  match n with
  | O => []
  | S n' => first :: ranks_from (first + 1) n'
  end.

Definition username_of (r : MemberTotal) : string := s_username (t_stats r).
Definition total_of (r : MemberTotal) : Z := s_total_matsuni (t_stats r).

(** The edit distance by its recurrence, on strings read from their last
    character backwards: [lev (rev p1) (rev p2)] is the entry of the matrix
    for the prefixes [p1] of [str1] and [p2] of [str2]. *)
Fixpoint lev (r1 : list ascii) : list ascii -> nat :=
  fix lev_r1 (r2 : list ascii) : nat :=
    match r1, r2 with
    | [], _ => List.length r2
    | _, [] => List.length r1
    | a :: r1', b :: r2' =>
        Nat.min (lev r1' r2 + 1)
          (Nat.min (lev_r1 r2' + 1) (lev r1' r2' + ImageProcessor.cost a b))
    end.

(** The prefixes of [done ++ todo] that extend [done], each reversed; [rd] is
    [done] reversed. *)
Fixpoint prefixes_from (rd todo : list ascii) : list (list ascii) :=
  rd :: match todo with
        | [] => []
        | c :: todo' => prefixes_from (c :: rd) todo'
        end.

(** The tokens [find_usernames] compares with the roster. *)
Definition tokens (matches : list (list string)) : list string :=
  map (String.concat "") matches.

(** The similarity [find_usernames] computes for a token and a member. *)
Definition confidence_of (token member : string) : Q :=
  ImageProcessor._calculate_similarity (lower token) (lower member).

(** The pairs one token contributes to [found]: the members it resembles
    with a confidence of at least [min_confidence], in roster order. *)
Definition hits (members_list : list string) (min_confidence : Q) (token : string)
    : list (string * Q) :=
  map (fun member => (member, confidence_of token member))
      (filter (fun member => Qle_bool min_confidence (confidence_of token member))
              members_list).

(** The order of the sort of [find_usernames]: [x] lies strictly below [y]. *)
Definition less_confident (x y : string * Q) : bool :=
  negb (Qle_bool (snd y) (snd x)).

(** The points a batch of results gives to [username]. *)
Definition batch_points (username : string) (out : list Result) : Z :=
  fold_right Z.add 0
    (map r_matsuni (filter (fun r => String.eqb (r_username r) username) out)).

(** The dates of the rows of [username], in the order of the rows. *)
Fixpoint dates_of (username : string) (rows : list ActivityRow) : list string :=
  match rows with
  | [] => []
  | row :: rest =>
      if String.eqb (a_username row) username then
        match split_first (a_checked_at row) with
        | Some d => d :: dates_of username rest
        | None => dates_of username rest
        end
      else dates_of username rest
  end.

(** The distinct dates on which [username] has an entry in the period. *)
Definition active_days (db : DB) (start_date end_date username : string) : list string :=
  first_seen
    (dates_of username (filter (in_period start_date end_date) (activity_ws db))).

(** The set of dates a dictionary of groups holds for [u], empty without
    entry. *)
Definition days_held (d : PyDict.dict MemberGroup) (u : string) : list string :=
  match PyDict.get d u with
  | Some g => g_days_active g
  | None => []
  end.

(** The sum of the totals of a dictionary of groups. *)
Definition groups_sum (d : PyDict.dict MemberGroup) : Z :=
  fold_right Z.add 0 (map (fun item => g_total_matsuni (snd item)) d).

(** The points of the rows whose username is a key of [members]. *)
Definition listed_points (members : PyDict.dict MemberRow) (rows : list ActivityRow) : Z :=
  fold_right Z.add 0
    (map a_matsuni (filter (fun row => has_key members (a_username row)) rows)).

(** The points of the period that belong to members of the roster. *)
Definition roster_points (db : DB) (start_date end_date : string) : Z :=
  fold_right Z.add 0
    (map a_matsuni
       (filter (fun row => is_member db (a_username row))
          (filter (in_period start_date end_date) (activity_ws db)))).

(** The row counts as active for [get_members]. *)
Definition is_active (row : MemberRow) : bool :=
  String.eqb (lower (m_status row)) "активен".

(** The row with another status. *)
Definition with_status (status : string) (row : MemberRow) : MemberRow :=
  mkMemberRow (m_username row) (m_join_date row) status (m_telegram_id row).

(** Every character of the string is of the class of usernames. *)
Fixpoint all_username_chars (s : string) : bool :=
  match s with
  | EmptyString => true
  | String c s' => username_char c && all_username_chars s'
  end.

(** The string of the one character LF. *)
Definition newline : string := String "010"%char EmptyString.

(** The string is written in UTF-8 with ASCII characters and the small
    Russian letters only.  [str.lower] folds in such a string what [lower]
    folds, its ASCII capitals. *)
Fixpoint plain_text (s : string) : bool :=
  match s with
  | EmptyString => true
  | String c s' =>
      let n := nat_of_ascii c in
      if (n <? 128)%nat then plain_text s'
      else
        match s' with
        | String c' s'' =>
            let n' := nat_of_ascii c' in
            (((n =? 208)%nat && (176 <=? n')%nat && (n' <=? 191)%nat) ||
             ((n =? 209)%nat &&
              (((128 <=? n')%nat && (n' <=? 143)%nat) || (n' =? 145)%nat))) &&
            plain_text s''
        | EmptyString => false
        end
  end.



(** How often the character occurs in the string. *)
Fixpoint count (c : ascii) (s : string) : nat :=
  match s with
  | EmptyString => 0%nat
  | String c' s' => ((if Ascii.eqb c' c then 1 else 0) + count c s')%nat
  end.

(** The character occurs in the string. *)
Fixpoint occurs (c : ascii) (s : string) : bool :=
  match s with
  | EmptyString => false
  | String c' s' => Ascii.eqb c' c || occurs c s'
  end.

(** The date has the ten characters of [strftime('%Y-%m-%d')], none of
    them a blank: month and day are written with two digits. *)
Definition zero_padded (date : string) : bool :=
  (String.length date =? 10)%nat && negb (occurs " " date).

(** The day on which the row was checked, as an ordinal, when its date is
    zero-padded and names a day of the calendar. *)
Definition day_of (row : ActivityRow) : option Z :=
  do activity_date <- split_first (a_checked_at row);
  if zero_padded activity_date then PyDate.strptime activity_date else None.

Definition dated (row : ActivityRow) : bool :=
  match day_of row with
  | Some _ => true
  | None => false
  end.

(** The row was checked on a day from [start_day] to [end_day]. *)
Definition within_days (start_day end_day : Z) (row : ActivityRow) : bool :=
  match day_of row with
  | Some day => (start_day <=? day) && (day <=? end_day)
  | None => false
  end.

End Spec.

(** ** Sample data *)

Module Sample.

Definition empty_db : DB := mkDB [] [] [] [] [].

Definition vibro : Post := mkPost "vibro_2024-01-01_100000" "vibro" "2024-01-01".
Definition art_day : Post := mkPost "art_day_2024-01-01_100500" "art_day" "2024-01-01".

Definition alice_commented : Activity := mkActivity (Some "alice") false true.
Definition carol_liked : Activity := mkActivity (Some "carol") true false.
Definition bob_idle : Activity := mkActivity (Some "bob") false false.

(** The exclusions as the dialogue of the bot stores them: [alice] for the
    post name [all], which the dialogue offers for every post, [bob] for
    [vibro]. *)
Definition db_exclusions : DB :=
  GoogleSheetsDB.add_exclusion "2023-12-31"
    (GoogleSheetsDB.add_exclusion "2023-12-31" empty_db "alice" "all" "")
    "bob" "vibro" "".

(** [dan] already holds two points checked on 2024-01-01. *)
Definition db_dan : DB :=
  mkDB [] []
       [mkActivityRow "quiz_2024-01-01_090000" "dan" "нет" "да" 2 "2024-01-01 09:00:00"]
       [mkExclusionRow "bob" "vibro" "" "2023-12-31" "да"] [].

Definition dan_liked : Activity := mkActivity (Some "dan") true false.

Definition roster_row (username : string) : MemberRow :=
  mkMemberRow username "2023-12-01" "активен" "".

Definition ledger_row (username : string) (matsuni : Z) (checked_at : string)
    : ActivityRow :=
  mkActivityRow "post" username "да" "нет" matsuni checked_at.

(** The ledger of the scenario of the specification, with one more member
    [u3] who ties with [u2], and an entry of a stranger. *)
Definition db_period : DB :=
  mkDB [roster_row "u1"; roster_row "u2"; roster_row "u3"] []
       [ledger_row "u2" 1 "2024-01-01 09:00:00";
        ledger_row "u1" 3 "2024-01-01 09:05:00";
        ledger_row "u3" 1 "2024-01-01 09:10:00";
        ledger_row "u1" 2 "2024-01-02 10:00:00";
        ledger_row "stranger" 7 "2024-01-02 10:05:00";
        ledger_row "u2" 2 "2024-01-03 08:00:00"]
       []
       [[CStr "Период"; CStr "Username"; CStr "Дней активности";
         CStr "Всего матсуни"; CStr "Среднее"; CStr "Рейтинг"];
        [CStr "2024-01-01_2024-01-02"; CStr "u1"; CInt 1; CInt 3;
         CAvg (AvgRound2 3 1); CInt 1];
        [CStr "2023-12-01_2023-12-31"; CStr "u2"; CInt 1; CInt 1;
         CAvg (AvgRound2 1 1); CInt 1]].

(** What [calculate_totals] leaves and returns on [db_period] for the first
    two days of January: the rows of the period are rewritten at the end of
    [Итоги], the row of December stays. *)
Definition db_period_after : DB :=
  mkDB (members_ws db_period) [] (activity_ws db_period) []
       [[CStr "Период"; CStr "Username"; CStr "Дней активности";
         CStr "Всего матсуни"; CStr "Среднее"; CStr "Рейтинг"];
        [CStr "2023-12-01_2023-12-31"; CStr "u2"; CInt 1; CInt 1;
         CAvg (AvgRound2 1 1); CInt 1];
        [CStr "2024-01-01_2024-01-02"; CStr "u1"; CInt 2; CInt 5;
         CAvg (AvgRound2 5 2); CInt 1];
        [CStr "2024-01-01_2024-01-02"; CStr "u2"; CInt 1; CInt 1;
         CAvg (AvgRound2 1 1); CInt 2];
        [CStr "2024-01-01_2024-01-02"; CStr "u3"; CInt 1; CInt 1;
         CAvg (AvgRound2 1 1); CInt 3]].

Definition totals_period : Totals :=
  mkTotals "2024-01-01 - 2024-01-02" 2 3 7
    [mkMemberTotal
       (mkMemberStats "u1" 2 5 (AvgRound2 5 2) "2023-12-01" "активен") 1;
     mkMemberTotal
       (mkMemberStats "u2" 1 1 (AvgRound2 1 1) "2023-12-01" "активен") 2;
     mkMemberTotal
       (mkMemberStats "u3" 1 1 (AvgRound2 1 1) "2023-12-01" "активен") 3].






(** A post dated in December, checked and saved on 2 January: one point
    for [u3]. *)
Definition old_post : Post := mkPost "old_post_2023-12-24_120000" "old_post" "2023-12-24".
Definition old_post_batch : list Result :=
  [mkResult "u3" true false 1 "old_post" "2023-12-24"].
Definition db_period_saved : DB :=
  GoogleSheetsDB.save_activity "2024-01-02 12:00:00" db_period old_post old_post_batch.

(** The state and the report of [calculate_totals] on [db_period_saved] for
    the first two days of January. *)
Definition db_period_saved_after : DB :=
  Eval vm_compute in
    match GoogleSheetsDB.calculate_totals db_period_saved "2024-01-01" "2024-01-02" with
    | Some (db', _) => db'
    | None => db_period_saved
    end.
Definition totals_period_saved : Totals :=
  mkTotals "2024-01-01 - 2024-01-02" 2 3 8
    [mkMemberTotal
       (mkMemberStats "u1" 2 5 (AvgRound2 5 2) "2023-12-01" "активен") 1;
     mkMemberTotal
       (mkMemberStats "u3" 2 2 (AvgRound2 2 2) "2023-12-01" "активен") 2;
     mkMemberTotal
       (mkMemberStats "u2" 1 1 (AvgRound2 1 1) "2023-12-01" "активен") 3].

(** A roster of three, [bob] not active. *)
Definition db_roster : DB :=
  mkDB [mkMemberRow "alice" "2023-11-01" "активен" "";
        mkMemberRow "bob" "2023-11-02" "неактивен" "";
        mkMemberRow "carol" "2023-11-03" "активен" "77"]
       [] [] [] [].

End Sample.

(** * Proofs *)

(** ** The scoring engine *)

Section Scoring.

Import PyStr MatsuniCalculator GoogleSheetsDB Spec.

Lemma get_exclusions_loop_filter (data : list ExclusionRow) (post_name : string)
    (acc : list ExclusionRow) :
  get_exclusions_loop data post_name acc = (acc ++ filter (applies_to post_name) data)%list.
Proof.
  revert acc; induction data as [|row rest IH]; intros acc; simpl.
  - now rewrite app_nil_r.
  - unfold applies_to at 1.
    destruct (String.eqb (lower (e_active row)) "да"); simpl.
    + destruct (truthy post_name); simpl.
      * destruct (String.eqb (e_post_name row) post_name); simpl.
        -- rewrite IH, <- app_assoc. reflexivity.
        -- apply IH.
      * rewrite IH, <- app_assoc. reflexivity.
    + apply IH.
Qed.

Lemma get_exclusions_filter (db : DB) (post_name : string) :
  get_exclusions db post_name = filter (applies_to post_name) (exclusions_ws db).
Proof. unfold get_exclusions. now rewrite get_exclusions_loop_filter. Qed.

Lemma excluded_users_mem (db : DB) (post_name username : string) :
  mem username (map e_username (get_exclusions db post_name))
  = excluded db post_name username.
Proof.
  rewrite get_exclusions_filter. unfold mem, excluded.
  induction (exclusions_ws db) as [|row rest IH]; simpl; [reflexivity|].
  destruct (applies_to post_name row); simpl.
  - rewrite IH, (String.eqb_sym username). reflexivity.
  - exact IH.
Qed.

Lemma daily_total_loop_sum (data : list ActivityRow) (username date : string) (acc : Z) :
  stamped data = true ->
  daily_total_loop data username date acc = Some (acc + prior_total data username date).
Proof.
  revert acc; induction data as [|row rest IH]; intros acc Hst; simpl in *.
  - unfold prior_total; simpl. f_equal; lia.
  - apply andb_true_iff in Hst as [Hrow Hrest].
    unfold prior_total, on_day; simpl.
    destruct (String.eqb (a_username row) username); simpl.
    + destruct (split_first (a_checked_at row)) as [d|]; [|discriminate]; simpl.
      destruct (String.eqb d date); simpl.
      * rewrite IH by assumption. unfold prior_total, on_day. f_equal; lia.
      * now apply IH.
    + now apply IH.
Qed.

Lemma check_daily_limit_min (db : DB) (rules : Rules) (username date : string) (n : Z) :
  stamped (activity_ws db) = true ->
  _check_daily_limit db rules username date n
  = Some (Z.min n (Z.max 0 (max_per_day rules - prior_total (activity_ws db) username date))).
Proof.
  intros Hst. unfold _check_daily_limit.
  rewrite daily_total_loop_sum by assumption. reflexivity.
Qed.

Lemma calculate_loop_map (db : DB) (rules : Rules) (post_data : Post)
    (excluded_users : list string) (activities : list Activity) (acc : list Result) :
  stamped (activity_ws db) = true ->
  calculate_loop db rules (post_name post_data) (post_date post_data)
    excluded_users activities acc
  = Some (acc ++ map (scored db rules post_data)
                     (filter (fun a => negb (mem (get_username a) excluded_users))
                             activities))%list.
Proof.
  intros Hst. revert acc.
  induction activities as [|a rest IH]; intros acc; simpl.
  - now rewrite app_nil_r.
  - destruct (mem (get_username a) excluded_users); simpl.
    + apply IH.
    + rewrite check_daily_limit_min by assumption. simpl.
      rewrite IH, <- app_assoc. simpl. do 3 f_equal.
      unfold scored, rule_points. f_equal.
      destruct (Z.ltb_spec
        (Z.min (if act_has_comment a then like_comment rules
                else if act_has_like a then like_only rules else 0)
           (Z.max 0 (max_per_day rules
                     - prior_total (activity_ws db) (get_username a) (post_date post_data))))
        (if act_has_comment a then like_comment rules
         else if act_has_like a then like_only rules else 0)); lia.
Qed.

(** On a ledger whose rows are stamped, [calculate_for_post] returns one
    scored row per record it does not skip, in the order of the records. *)
Lemma calculate_for_post_map (db : DB) (rules : Rules) (post_data : Post)
    (activities : list Activity) :
  stamped (activity_ws db) = true ->
  calculate_for_post db rules post_data activities
  = Some (map (scored db rules post_data)
              (filter (fun a => negb (excluded db (post_name post_data) (get_username a)))
                      activities)).
Proof.
  intros Hst. unfold calculate_for_post.
  rewrite calculate_loop_map by assumption. simpl. do 2 f_equal.
  apply filter_ext. intros a. now rewrite excluded_users_mem.
Qed.

Lemma prior_total_cons (row : ActivityRow) (rest : list ActivityRow)
    (username date : string) :
  prior_total (row :: rest) username date
  = (if on_day username date row then a_matsuni row else 0)
    + prior_total rest username date.
Proof.
  unfold prior_total. simpl. destruct (on_day username date row); reflexivity.
Qed.

Lemma daily_total_loop_some (data : list ActivityRow) (username date : string)
    (acc total : Z) :
  daily_total_loop data username date acc = Some total ->
  total = acc + prior_total data username date.
Proof.
  revert acc; induction data as [|row rest IH]; intros acc H.
  - inversion H. unfold prior_total; simpl. lia.
  - rewrite prior_total_cons. unfold on_day. cbn [daily_total_loop] in H.
    destruct (String.eqb (a_username row) username); simpl in *; [|now apply IH].
    destruct (split_first (a_checked_at row)) as [d|]; simpl in *; [|discriminate].
    destruct (String.eqb d date); apply IH in H; lia.
Qed.

(** Whenever [calculate_for_post] returns, on any ledger, it returns one
    scored row per record it does not skip, in the order of the records. *)
Lemma calculate_loop_some (db : DB) (rules : Rules) (post_data : Post)
    (excluded_users : list string) (activities : list Activity) (acc out : list Result) :
  calculate_loop db rules (post_name post_data) (post_date post_data)
    excluded_users activities acc = Some out ->
  out = (acc ++ map (scored db rules post_data)
                    (filter (fun a => negb (mem (get_username a) excluded_users))
                            activities))%list.
Proof.
  revert acc. induction activities as [|a rest IH]; intros acc H; simpl in *.
  - inversion H. now rewrite app_nil_r.
  - destruct (mem (get_username a) excluded_users); simpl; [now apply IH|].
    unfold _check_daily_limit in H.
    destruct (daily_total_loop (activity_ws db) (get_username a) (post_date post_data) 0)
      as [total|] eqn:E; simpl in H; [|discriminate].
    apply daily_total_loop_some in E. rewrite Z.add_0_l in E.
    apply IH in H. subst out total.
    rewrite <- app_assoc. simpl. do 2 f_equal.
    unfold scored, rule_points. f_equal.
    match goal with
    | |- context [Z.ltb ?x ?y] => destruct (Z.ltb_spec x y); lia
    end.
Qed.

Lemma calculate_for_post_some (db : DB) (rules : Rules) (post_data : Post)
    (activities : list Activity) (out : list Result) :
  calculate_for_post db rules post_data activities = Some out ->
  out = map (scored db rules post_data)
            (filter (fun a => negb (excluded db (post_name post_data) (get_username a)))
                    activities).
Proof.
  unfold calculate_for_post. intros H. apply calculate_loop_some in H. simpl in H.
  subst out. f_equal. apply filter_ext. intros a. now rewrite excluded_users_mem.
Qed.

End Scoring.

Section ScoringProperties.

Import PyStr MatsuniCalculator GoogleSheetsDB Spec Sample.

(** With a post name that is not empty, [get_exclusions] reports the rows of
    that very post name and no other: no row stands for every post. *)
Lemma get_exclusions_exact_name (db : DB) (post_name : string) (row : ExclusionRow) :
  post_name <> "" ->
  In row (get_exclusions db post_name) ->
  e_post_name row = post_name.
Proof.
  intros Hne Hin. rewrite get_exclusions_filter in Hin.
  apply filter_In in Hin as [_ Happ]. unfold applies_to in Happ.
  apply andb_true_iff in Happ as [_ Hname].
  destruct post_name as [|c rest]; [congruence|]. simpl in Hname.
  now apply String.eqb_eq.
Qed.

Lemma prior_total_app (l1 l2 : list ActivityRow) (username date : string) :
  prior_total (l1 ++ l2) username date
  = prior_total l1 username date + prior_total l2 username date.
Proof.
  unfold prior_total. rewrite filter_app, map_app.
  induction (map a_matsuni (filter (on_day username date) l1)) as [|z l IH]; simpl; lia.
Qed.

Lemma saved_rows_total (now date username : string) (post_data : Post)
    (out : list Result) :
  split_first now = Some date ->
  prior_total
    (map (fun activity =>
            mkActivityRow (post_id post_data) (r_username activity)
              (yes_no (r_has_like activity)) (yes_no (r_has_comment activity))
              (r_matsuni activity) now) out)
    username date
  = batch_points username out.
Proof.
  intros Hnow. unfold prior_total, batch_points, on_day.
  induction out as [|r out IH]; simpl; [reflexivity|].
  rewrite Hnow, String.eqb_refl, andb_true_r.
  destruct (String.eqb (r_username r) username); simpl; now rewrite IH.
Qed.

Lemma batch_points_absent (db : DB) (post_data : Post) (p : Activity -> bool)
    (activities : list Activity) (username : string) :
  ~ In username (map get_username activities) ->
  batch_points username (map (scored db default_rules post_data) (filter p activities)) = 0.
Proof.
  unfold batch_points. induction activities as [|a rest IH]; simpl; intros Hnot;
    [reflexivity|].
  assert (Hne : String.eqb (get_username a) username = false).
  { apply String.eqb_neq. tauto. }
  destruct (p a); simpl; [rewrite Hne|]; apply IH; tauto.
Qed.

Lemma batch_points_bound (db : DB) (post_data : Post) (p : Activity -> bool)
    (activities : list Activity) (username : string) :
  NoDup (map get_username activities) ->
  batch_points username (map (scored db default_rules post_data) (filter p activities))
  <= Z.max 0 (2 - prior_total (activity_ws db) username (post_date post_data)).
Proof.
  induction activities as [|a rest IH]; simpl; intros Hnd.
  - unfold batch_points. simpl. lia.
  - inversion Hnd as [|? ? Hnot Hnd']; subst.
    destruct (p a); [|now apply IH].
    unfold batch_points. simpl.
    destruct (String.eqb_spec (get_username a) username) as [<-|Hne].
    + simpl. fold (batch_points (get_username a)
                     (map (scored db default_rules post_data) (filter p rest))).
      rewrite batch_points_absent by assumption. lia.
    + now apply IH.
Qed.

(** What [_check_daily_limit] does keep: when the batch is saved on the
    very date of the post and no username comes twice in the batch, a member
    within the cap for that date stays within it. *)
Lemma cap_kept_when_checked_on_post_date (now : string) (db db' : DB) (post_data : Post)
    (activities : list Activity) (out : list Result) (username : string) :
  stamped (activity_ws db) = true ->
  split_first now = Some (post_date post_data) ->
  NoDup (map get_username activities) ->
  score_and_save now db default_rules post_data activities = Some (db', out) ->
  prior_total (activity_ws db) username (post_date post_data) <= 2 ->
  prior_total (activity_ws db') username (post_date post_data) <= 2.
Proof.
  intros Hst Hnow Hnd Hrun Hcap. unfold score_and_save in Hrun.
  rewrite calculate_for_post_map in Hrun by assumption. simpl in Hrun.
  inversion Hrun; subst; clear Hrun. unfold save_activity. cbn [activity_ws].
  rewrite prior_total_app, (saved_rows_total _ _ _ _ _ Hnow).
  pose proof (batch_points_bound db post_data
                (fun a => negb (excluded db (post_name post_data) (get_username a)))
                activities username Hnd).
  lia.
Qed.


(** C1 (defect of the code). Two posts dated 2024-01-01 are scored and saved
    on 2024-01-05, one after the other, from an empty ledger; [alice]
    commented on both.  [_check_daily_limit] looks for rows whose time of
    check is the post date, [save_activity] stamps the rows with the time of
    the check, so the second post finds nothing to count: each post awards 2
    and the ledger ends with 4 points for [alice], above the cap of 2 under
    whichever date the rows are counted. *)
Theorem C1_daily_cap_exceeded_when_checked_later :
  exists db1 out1 db2 out2,
    score_and_save "2024-01-05 10:00:00" empty_db default_rules vibro [alice_commented]
      = Some (db1, out1) /\
    score_and_save "2024-01-05 10:05:00" db1 default_rules art_day [alice_commented]
      = Some (db2, out2) /\
    post_date vibro = post_date art_day /\
    map r_matsuni out1 = [2] /\
    map r_matsuni out2 = [2] /\
    prior_total (activity_ws db2) "alice" "2024-01-01" = 0 /\
    prior_total (activity_ws db2) "alice" "2024-01-05" = 4 /\
    ledger_total (activity_ws db2) "alice" = 4 /\
    max_per_day default_rules = 2.
Proof.
  do 4 eexists. split; [reflexivity|]. split; [reflexivity|].
  repeat split; reflexivity.
Qed.

(** C2 (defect of the code). [alice] holds an active exclusion whose post
    name is the wildcard [all]; the post [vibro] is scored.  [get_exclusions]
    reports the exclusion of [bob] only, and [alice] receives a row with 2
    points. *)
Theorem C2_wildcard_exclusion_not_applied :
  In (mkExclusionRow "alice" "all" "" "2023-12-31" "да") (exclusions_ws db_exclusions) /\
  map e_username (get_exclusions db_exclusions "vibro") = ["bob"] /\
  calculate_for_post db_exclusions default_rules vibro [alice_commented; bob_idle]
  = Some [mkResult "alice" false true 2 "vibro" "2024-01-01"].
Proof.
  split; [left; reflexivity|]. split; reflexivity.
Qed.

Lemma default_rule_points (a : Activity) :
  rule_points default_rules a = raw_points (act_has_like a) (act_has_comment a).
Proof.
  unfold rule_points, raw_points.
  destruct (act_has_comment a), (act_has_like a); reflexivity.
Qed.

(** C3. Scoring with the default rules returns on every ledger whose rows
    are stamped, and whenever it returns, on any ledger, it returns for every
    record that is not excluded, in the order of the records, a row for the
    username of the record whose matsuni is
    [min(raw, max(0, 2 - prior_total(u, d)))]: [raw] is 2 with a comment
    (whatever the like), 1 with a like only, 0 with neither, and
    [prior_total(u, d)] is what the ledger holds for the username on the
    date of the post. *)
Theorem C3_award_is_rule_points_clamped (db : DB) (post_data : Post)
    (activities : list Activity) :
  (stamped (activity_ws db) = true ->
   exists out, calculate_for_post db default_rules post_data activities = Some out) /\
  forall out,
    calculate_for_post db default_rules post_data activities = Some out ->
    Forall2
      (fun a r =>
         r_username r = get_username a /\
         r_matsuni r =
           Z.min (raw_points (act_has_like a) (act_has_comment a))
                 (Z.max 0 (2 - prior_total (activity_ws db) (get_username a)
                                           (post_date post_data))))
      (filter (fun a => negb (excluded db (post_name post_data) (get_username a)))
              activities)
      out.
Proof.
  split; [intros Hst; eexists; now apply calculate_for_post_map|].
  intros out Hout. apply calculate_for_post_some in Hout. subst out.
  induction (filter _ activities) as [|a rest IH]; simpl; constructor; [|exact IH].
  split; [reflexivity|]. unfold scored. cbn [r_matsuni].
  now rewrite default_rule_points.
Qed.

Lemma C3_award_is_rule_points_clamped_witness :
  calculate_for_post db_dan default_rules vibro [dan_liked; carol_liked; bob_idle]
  = Some [mkResult "dan" true false 0 "vibro" "2024-01-01";
          mkResult "carol" true false 1 "vibro" "2024-01-01"] /\
  Forall2
    (fun a r =>
       r_username r = get_username a /\
       r_matsuni r =
         Z.min (raw_points (act_has_like a) (act_has_comment a))
               (Z.max 0 (2 - prior_total (activity_ws db_dan) (get_username a)
                                         (post_date vibro))))
    (filter (fun a => negb (excluded db_dan (post_name vibro) (get_username a)))
            [dan_liked; carol_liked; bob_idle])
    [mkResult "dan" true false 0 "vibro" "2024-01-01";
     mkResult "carol" true false 1 "vibro" "2024-01-01"].
Proof.
  split; [reflexivity|].
  exact (proj2 (C3_award_is_rule_points_clamped db_dan vibro
                  [dan_liked; carol_liked; bob_idle]) _ eq_refl).
Defined.















End ScoringProperties.

(** ** The stable descending sort *)

Section SortFacts.

Context {A : Type} (below : A -> A -> bool).

Lemma insert_desc_perm (x : A) (l : list A) :
  Permutation (insert_desc below x l) (x :: l).
Proof.
  induction l as [|y l IH]; simpl; [reflexivity|].
  destruct (below x y); [|reflexivity].
  rewrite IH. apply perm_swap.
Qed.

Lemma sort_desc_perm (l : list A) : Permutation (sort_desc below l) l.
Proof.
  induction l as [|x l IH]; simpl; [reflexivity|].
  rewrite insert_desc_perm. now constructor.
Qed.

(** An element [x] of a class [p] of equal keys stays ahead of the members
    of the class it is inserted in front of. *)
Lemma insert_desc_filter (p : A -> bool) (x : A) (l : list A) :
  (forall y, p x = true -> below x y = true -> p y = false) ->
  filter p (insert_desc below x l) = filter p (x :: l).
Proof.
  intros Hp. induction l as [|y l IH]; simpl; [reflexivity|].
  destruct (below x y) eqn:Hxy; [|reflexivity].
  simpl in *. rewrite IH.
  destruct (p x) eqn:Hpx; [|reflexivity].
  now rewrite (Hp y eq_refl Hxy).
Qed.

Lemma sort_desc_filter (p : A -> bool) (l : list A) :
  (forall x y, p x = true -> below x y = true -> p y = false) ->
  filter p (sort_desc below l) = filter p l.
Proof.
  intros Hp. induction l as [|x l IH]; simpl; [reflexivity|].
  rewrite insert_desc_filter by (intros y; apply Hp).
  simpl. now rewrite IH.
Qed.

Hypothesis below_asym : forall x y, below x y = true -> below y x = false.
Hypothesis below_trans :
  forall x y z, below x y = false -> below y z = false -> below x z = false.

Lemma insert_desc_sorted (x : A) (l : list A) :
  StronglySorted (fun a b => below a b = false) l ->
  StronglySorted (fun a b => below a b = false) (insert_desc below x l).
Proof.
  induction 1 as [|y l Hs IH Hy]; simpl.
  - repeat constructor.
  - destruct (below x y) eqn:Hxy.
    + constructor; [exact IH|].
      apply Forall_forall. intros z Hz.
      apply (Permutation_in _ (insert_desc_perm x l)) in Hz.
      destruct Hz as [<-|Hz]; [now apply below_asym|].
      now apply (proj1 (Forall_forall _ _) Hy).
    + constructor; [now constructor|].
      constructor; [exact Hxy|].
      eapply Forall_impl; [|exact Hy]. intros z Hz. now apply (below_trans x y z).
Qed.

Lemma sort_desc_sorted (l : list A) :
  StronglySorted (fun a b => below a b = false) (sort_desc below l).
Proof.
  induction l as [|x l IH]; simpl; [constructor|now apply insert_desc_sorted].
Qed.

End SortFacts.

(** ** Dictionaries *)

Section DictFacts.

Import PyStr PyDict.

Context {V : Type}.

Lemma get_set_same (d : dict V) (k : string) (v : V) : get (set d k v) k = Some v.
Proof.
  induction d as [|[k' v'] d IH]; simpl.
  - now rewrite String.eqb_refl.
  - destruct (String.eqb k' k) eqn:E; simpl; rewrite E; [reflexivity|exact IH].
Qed.

Lemma get_set_other (d : dict V) (k k' : string) (v : V) :
  k <> k' -> get (set d k v) k' = get d k'.
Proof.
  intros Hne. induction d as [|[k0 v0] d IH]; simpl.
  - apply String.eqb_neq in Hne. now rewrite Hne.
  - destruct (String.eqb k0 k) eqn:E; simpl.
    + apply String.eqb_eq in E. subst k0.
      apply String.eqb_neq in Hne. now rewrite Hne.
    + destruct (String.eqb k0 k'); [reflexivity|exact IH].
Qed.

Lemma mem_keys_get (d : dict V) (k : string) :
  mem k (keys d) = match get d k with Some _ => true | None => false end.
Proof.
  unfold mem, keys. induction d as [|[k' v'] d IH]; simpl; [reflexivity|].
  rewrite (String.eqb_sym k k'). destruct (String.eqb k' k); simpl; [reflexivity|exact IH].
Qed.

Lemma keys_set (d : dict V) (k : string) (v : V) :
  keys (set d k v) = if mem k (keys d) then keys d else (keys d ++ [k])%list.
Proof.
  unfold mem, keys. induction d as [|[k' v'] d IH]; simpl; [reflexivity|].
  rewrite (String.eqb_sym k k'). destruct (String.eqb k' k); simpl; [reflexivity|].
  rewrite IH. now destruct (existsb (String.eqb k) (map fst d)).
Qed.

Lemma get_in_nodup (d : dict V) (k : string) (v : V) :
  NoDup (keys d) -> In (k, v) d -> get d k = Some v.
Proof.
  unfold keys. induction d as [|[k' v'] d IH]; simpl; intros Hnd Hin; [contradiction|].
  inversion Hnd as [|? ? Hnotin Hnd']; subst.
  destruct Hin as [Heq|Hin].
  - inversion Heq; subst. now rewrite String.eqb_refl.
  - destruct (String.eqb k' k) eqn:E.
    + apply String.eqb_eq in E. subst k'.
      exfalso. apply Hnotin. change k with (fst (k, v)). now apply in_map.
    + now apply IH.
Qed.

End DictFacts.

Lemma mem_In (x : string) (l : list string) : PyStr.mem x l = true <-> In x l.
Proof.
  unfold PyStr.mem. rewrite existsb_exists. split.
  - intros (y & Hy & E). apply String.eqb_eq in E. now subst.
  - intros H. exists x. split; [exact H|apply String.eqb_refl].
Qed.

Lemma set_add_nodup (x : string) (l : list string) :
  NoDup l -> NoDup (if PyStr.mem x l then l else (l ++ [x])%list).
Proof.
  intros Hnd. destruct (PyStr.mem x l) eqn:E; [exact Hnd|].
  apply NoDup_app; [exact Hnd|repeat constructor; simpl; tauto|].
  intros y Hy [<-|[]]. apply mem_In in Hy. congruence.
Qed.

(** ** Period totals *)

Section AggregatorFacts.

Import PyStr PyDict GoogleSheetsDB Spec.

Lemma period_loop_filter (data : list ActivityRow) (s e : string)
    (acc activities : list ActivityRow) :
  period_loop data s e acc = Some activities ->
  activities = (acc ++ filter (in_period s e) data)%list.
Proof.
  revert acc. induction data as [|row rest IH]; intros acc H; simpl in *.
  - inversion H. now rewrite app_nil_r.
  - unfold in_period at 1.
    destruct (split_first (a_checked_at row)) as [d|]; simpl in *; [|discriminate].
    destruct (String.leb s d && String.leb d e).
    + apply IH in H. now rewrite <- app_assoc in H.
    + now apply IH.
Qed.

Lemma members_fold_has_key (rows : list MemberRow) (d : dict MemberRow) (u : string) :
  has_key (fold_left (fun d row => set d (m_username row) row) rows d) u
  = has_key d u || existsb (fun row => String.eqb (m_username row) u) rows.
Proof.
  revert d. induction rows as [|row rest IH]; intros d; simpl.
  - now rewrite orb_false_r.
  - rewrite IH. unfold has_key at 1.
    destruct (String.eqb (m_username row) u) eqn:E.
    + apply String.eqb_eq in E. subst u. rewrite get_set_same.
      simpl. now rewrite orb_true_r.
    + apply String.eqb_neq in E. rewrite get_set_other by assumption.
      reflexivity.
Qed.

Lemma members_dict_has_key (db : DB) (u : string) :
  has_key (members_dict (members_ws db)) u = is_member db u.
Proof. unfold members_dict. now rewrite members_fold_has_key. Qed.

Lemma group_loop_keys (members : dict MemberRow) (activities : list ActivityRow)
    (acc res : dict MemberGroup) :
  group_loop members activities acc = Some res ->
  keys res
  = fold_left see (filter (has_key members) (map a_username activities)) (keys acc).
Proof.
  revert acc. induction activities as [|a rest IH]; intros acc H; simpl in *.
  - now inversion H.
  - unfold has_key at 1.
    destruct (get members (a_username a)); [|now apply IH].
    destruct (split_first (a_checked_at a)); simpl in H; [|discriminate].
    apply IH in H. rewrite H. simpl. now rewrite keys_set.
Qed.

Lemma group_loop_held (members : dict MemberRow) (activities : list ActivityRow)
    (acc res : dict MemberGroup) (u : string) :
  group_loop members activities acc = Some res ->
  has_key members u = true ->
  held g_total_matsuni res u = held g_total_matsuni acc u + points_of u activities.
Proof.
  intros H Hu. revert acc H.
  induction activities as [|a rest IH]; intros acc H; simpl in *.
  - inversion H. unfold points_of. simpl. lia.
  - unfold points_of. simpl.
    destruct (String.eqb (a_username a) u) eqn:E.
    + apply String.eqb_eq in E. subst u.
      unfold has_key in Hu.
      destruct (get members (a_username a)); [|discriminate].
      destruct (split_first (a_checked_at a)); simpl in H; [|discriminate].
      apply IH in H. rewrite H. unfold held at 1. rewrite get_set_same.
      unfold held, points_of. simpl.
      destruct (get acc (a_username a)); simpl; lia.
    + apply String.eqb_neq in E.
      destruct (get members (a_username a)); [|now apply IH].
      destruct (split_first (a_checked_at a)); simpl in H; [|discriminate].
      apply IH in H. rewrite H. unfold held at 1.
      rewrite get_set_other by assumption. reflexivity.
Qed.

Lemma final_loop_items (members : dict MemberRow) (items : list (string * MemberGroup))
    (acc fin : list MemberStats) :
  final_loop members items acc = Some fin ->
  exists rest,
    fin = (acc ++ rest)%list /\
    map s_username rest = map fst items /\
    map s_total_matsuni rest = map (fun item => g_total_matsuni (snd item)) items.
Proof.
  revert acc. induction items as [|[u g] items IH]; intros acc H; simpl in *.
  - inversion H. exists []. now rewrite app_nil_r.
  - destruct (get members u) as [m|]; simpl in H; [|discriminate].
    apply IH in H as (rest & -> & Hn & Ht).
    eexists (_ :: rest). rewrite <- app_assoc. simpl.
    split; [reflexivity|]. now rewrite Hn, Ht.
Qed.

Lemma add_ranks_stats (i : Z) (l : list MemberStats) : map t_stats (add_ranks i l) = l.
Proof. revert i. induction l as [|x l IH]; intros i; simpl; [|rewrite IH]; reflexivity. Qed.

Lemma add_ranks_ranks (i : Z) (l : list MemberStats) :
  map t_rank (add_ranks i l) = ranks_from i (List.length l).
Proof. revert i. induction l as [|x l IH]; intros i; simpl; [|rewrite IH]; reflexivity. Qed.

Lemma fold_see_nodup (l seen : list string) : NoDup seen -> NoDup (fold_left see l seen).
Proof.
  revert seen. induction l as [|x l IH]; intros seen H; simpl; [exact H|].
  apply IH. now apply set_add_nodup.
Qed.

Lemma fold_see_in (l seen : list string) (x : string) :
  In x (fold_left see l seen) -> In x seen \/ In x l.
Proof.
  revert seen. induction l as [|y l IH]; intros seen H; simpl in *; [now left|].
  apply IH in H as [H|H]; [|tauto].
  unfold see in H. destruct (mem y seen); [now left|].
  apply in_app_or in H as [H|[<-|[]]]; tauto.
Qed.

Lemma map_filter_comm {A B : Type} (f : A -> B) (q : B -> bool) (l : list A) :
  map f (filter (fun x => q (f x)) l) = filter q (map f l).
Proof.
  induction l as [|x l IH]; simpl; [reflexivity|].
  destruct (q (f x)); simpl; now rewrite IH.
Qed.

Lemma sorted_map {A B : Type} (f : A -> B) (R : B -> B -> Prop) (l : list A) :
  StronglySorted (fun a b => R (f a) (f b)) l -> StronglySorted R (map f l).
Proof.
  induction 1 as [|x l Hs IH Hx]; simpl; constructor; [exact IH|].
  now apply Forall_map.
Qed.

Lemma sorted_weaken {A : Type} (R R' : A -> A -> Prop) (l : list A) :
  (forall a b, R a b -> R' a b) -> StronglySorted R l -> StronglySorted R' l.
Proof.
  intros HR. induction 1 as [|x l Hs IH Hx]; constructor; [exact IH|].
  eapply Forall_impl; [|exact Hx]. intros b. apply HR.
Qed.

End AggregatorFacts.

Section AggregatorProperties.

Import PyStr PyDict GoogleSheetsDB Spec Sample.

Lemma calculate_totals_inv (db db' : DB) (s e : string) (out : Totals) :
  calculate_totals db s e = Some (db', out) ->
  exists activities groups fin header existing end_day start_day,
    period_loop (activity_ws db) s e [] = Some activities /\
    group_loop (members_dict (members_ws db)) activities [] = Some groups /\
    final_loop (members_dict (members_ws db)) groups [] = Some fin /\
    totals_ws db = header :: existing /\
    PyDate.strptime e = Some end_day /\
    PyDate.strptime s = Some start_day /\
    results out
    = add_ranks 1 (sort_desc (fun x y => s_total_matsuni x <? s_total_matsuni y) fin) /\
    total_members out = Z.of_nat (List.length (results out)) /\
    db' = mkDB (members_ws db) (posts_ws db) (activity_ws db) (exclusions_ws db)
            (header :: filter (keep_row (s ++ "_" ++ e)) existing
               ++ map (totals_row (s ++ "_" ++ e)) (results out))%list /\
    out = mkTotals (s ++ " - " ++ e) (end_day - start_day + 1)
            (Z.of_nat (List.length (results out)))
            (fold_left Z.add (map (fun r => s_total_matsuni (t_stats r)) (results out)) 0)
            (results out).
Proof.
  unfold calculate_totals. intros H.
  destruct (period_loop (activity_ws db) s e []) as [activities|] eqn:Hp;
    simpl in H; [|discriminate].
  destruct (group_loop _ activities []) as [groups|] eqn:Hg; simpl in H; [|discriminate].
  destruct (final_loop _ groups []) as [fin|] eqn:Hf; simpl in H; [|discriminate].
  destruct (totals_ws db) as [|header existing] eqn:Ht; [discriminate|].
  destruct (PyDate.strptime e) as [end_day|] eqn:He; simpl in H; [|discriminate].
  destruct (PyDate.strptime s) as [start_day|] eqn:Hs; simpl in H; [|discriminate].
  inversion H; subst; clear H.
  exists activities, groups, fin, header, existing, end_day, start_day.
  repeat split; try reflexivity; assumption.
Qed.

Lemma ranked_members_keys (db : DB) (s e : string)
    (activities : list ActivityRow) (groups : dict MemberGroup) :
  period_loop (activity_ws db) s e [] = Some activities ->
  group_loop (members_dict (members_ws db)) activities [] = Some groups ->
  keys groups = ranked_members db s e.
Proof.
  intros Hp Hg. apply period_loop_filter in Hp. simpl in Hp. subst activities.
  apply group_loop_keys in Hg. rewrite Hg. unfold ranked_members, first_seen. simpl.
  f_equal. apply filter_ext. intros u. apply members_dict_has_key.
Qed.

Lemma group_totals (db : DB) (s e : string)
    (activities : list ActivityRow) (groups : dict MemberGroup) :
  period_loop (activity_ws db) s e [] = Some activities ->
  group_loop (members_dict (members_ws db)) activities [] = Some groups ->
  forall u g, In (u, g) groups -> g_total_matsuni g = period_total db s e u.
Proof.
  intros Hp Hg u g Hin.
  assert (Hk := ranked_members_keys _ _ _ _ _ Hp Hg).
  assert (Hnd : NoDup (keys groups)).
  { rewrite Hk. unfold ranked_members, first_seen. apply fold_see_nodup. constructor. }
  assert (Hu : has_key (members_dict (members_ws db)) u = true).
  { assert (Hin' : In u (keys groups)).
    { change u with (fst (u, g)). now apply in_map. }
    rewrite Hk in Hin'. unfold ranked_members, first_seen in Hin'.
    apply fold_see_in in Hin' as [[]|Hin'].
    apply filter_In in Hin' as [_ Hm]. now rewrite members_dict_has_key. }
  pose proof (group_loop_held _ _ _ _ u Hg Hu) as Hheld.
  unfold held in Hheld. rewrite (get_in_nodup _ _ _ Hnd Hin) in Hheld. simpl in Hheld.
  apply period_loop_filter in Hp. simpl in Hp. subst activities.
  unfold period_total. lia.
Qed.

Lemma Forall_map_eq {A B : Type} (f g : A -> B) (l : list A) :
  Forall (fun x => f x = g x) l -> map f l = map g l.
Proof. induction 1; simpl; congruence. Qed.

Lemma final_totals (db : DB) (s e : string) (activities : list ActivityRow)
    (groups : dict MemberGroup) (fin : list MemberStats) :
  period_loop (activity_ws db) s e [] = Some activities ->
  group_loop (members_dict (members_ws db)) activities [] = Some groups ->
  final_loop (members_dict (members_ws db)) groups [] = Some fin ->
  map s_username fin = ranked_members db s e /\
  Forall (fun st => s_total_matsuni st = period_total db s e (s_username st)) fin.
Proof.
  intros Hp Hg Hf.
  apply final_loop_items in Hf as (rest & -> & Hn & Ht). simpl.
  split.
  - rewrite Hn. now apply (ranked_members_keys _ _ _ _ _ Hp Hg).
  - pose proof (group_totals _ _ _ _ _ Hp Hg) as Hgt.
    clear Hp Hg. revert rest Hn Ht.
    induction groups as [|[u g] groups IH]; intros [|st rest] Hn Ht;
      simpl in *; try discriminate; constructor.
    + inversion Hn. inversion Ht. subst. rewrite H2. now apply Hgt; left.
    + inversion Hn. inversion Ht. apply IH; auto.
Qed.

Lemma stamped_filter (p : ActivityRow -> bool) (l : list ActivityRow) :
  stamped l = true -> stamped (filter p l) = true.
Proof.
  unfold stamped. intros H. apply forallb_forall. intros row Hin.
  apply filter_In in Hin as [Hin _].
  exact (proj1 (forallb_forall _ _) H row Hin).
Qed.

Lemma period_loop_returns (data : list ActivityRow) (s e : string)
    (acc : list ActivityRow) :
  stamped data = true ->
  period_loop data s e acc = Some (acc ++ filter (in_period s e) data)%list.
Proof.
  revert acc. induction data as [|row rest IH]; intros acc H; simpl in *.
  - now rewrite app_nil_r.
  - apply andb_true_iff in H as [Hrow Hrest]. unfold in_period at 1.
    destruct (split_first (a_checked_at row)) as [d|]; [|discriminate]. simpl.
    destruct (String.leb s d && String.leb d e).
    + rewrite IH by assumption. now rewrite <- app_assoc.
    + now apply IH.
Qed.

Lemma group_loop_returns (members : dict MemberRow) (activities : list ActivityRow)
    (acc : dict MemberGroup) :
  stamped activities = true ->
  exists groups, group_loop members activities acc = Some groups.
Proof.
  revert acc. induction activities as [|a rest IH]; intros acc H; simpl in *.
  - now exists acc.
  - apply andb_true_iff in H as [Hrow Hrest].
    destruct (get members (a_username a)); [|now apply IH].
    destruct (split_first (a_checked_at a)); [|discriminate]. simpl. now apply IH.
Qed.

Lemma final_loop_returns (members : dict MemberRow)
    (items : list (string * MemberGroup)) (acc : list MemberStats) :
  Forall (fun u => has_key members u = true) (map fst items) ->
  exists fin, final_loop members items acc = Some fin.
Proof.
  revert acc. induction items as [|[u g] items IH]; intros acc H; simpl in *.
  - now exists acc.
  - inversion H as [|? ? Hu Hrest]; subst. unfold has_key in Hu.
    destruct (get members u); [|discriminate]. simpl. now apply IH.
Qed.

(** [calculate_totals] returns when the rows of the ledger are stamped,
    [Итоги] has its header row and the two dates are dates. *)
Lemma calculate_totals_returns (db : DB) (s e : string) :
  stamped (activity_ws db) = true ->
  totals_ws db <> [] ->
  validate_date s = true ->
  validate_date e = true ->
  exists db' out, calculate_totals db s e = Some (db', out).
Proof.
  intros Hst Hsheet Hs He. unfold calculate_totals.
  rewrite period_loop_returns by assumption. cbn [bind app].
  destruct (group_loop_returns (members_dict (members_ws db))
              (filter (in_period s e) (activity_ws db)) [])
    as [groups Hg]; [now apply stamped_filter|].
  rewrite Hg. cbn [bind].
  destruct (final_loop_returns (members_dict (members_ws db)) groups []) as [fin Hf].
  { apply group_loop_keys in Hg. unfold keys in Hg. rewrite Hg.
    apply Forall_forall. intros u Hu. apply fold_see_in in Hu as [[]|Hu].
    now apply filter_In in Hu as [_ Hu]. }
  rewrite Hf. cbn [bind].
  destruct (totals_ws db) as [|header existing]; [congruence|].
  unfold validate_date in Hs, He.
  destruct (PyDate.strptime e); [|discriminate].
  destruct (PyDate.strptime s); [|discriminate].
  cbn [bind]. eauto.
Qed.

(** C6. In the output of [calculate_totals], with [N] the number of roster
    members that have an entry in the period: the ranks are [1, 2, ..., N]
    in this order, one per member, and [total_members] is [N]; the rows are
    the members with an entry, each once, with the sum of its entries as
    total; the totals go down along the list; and the members of equal
    total follow one another in the order the grouping met them. *)
Theorem C6_ranks_dense_descending_stable (db db' : DB) (s e : string) (out : Totals) :
  calculate_totals db s e = Some (db', out) ->
  map t_rank (results out) = ranks_from 1 (List.length (ranked_members db s e)) /\
  total_members out = Z.of_nat (List.length (ranked_members db s e)) /\
  Permutation (map username_of (results out)) (ranked_members db s e) /\
  NoDup (map username_of (results out)) /\
  Forall (fun r => total_of r = period_total db s e (username_of r)) (results out) /\
  StronglySorted Z.ge (map total_of (results out)) /\
  forall t,
    map username_of (filter (fun r => total_of r =? t) (results out))
    = filter (fun u => period_total db s e u =? t) (ranked_members db s e).
Proof.
  intros H.
  apply calculate_totals_inv in H
    as (activities & groups & fin & header & existing & end_day & start_day
        & Hp & Hg & Hf & _ & _ & _ & Hres & Hlen & _ & _).
  destruct (final_totals _ _ _ _ _ _ Hp Hg Hf) as [Hnames Htot].
  set (below := fun x y : MemberStats => s_total_matsuni x <? s_total_matsuni y) in *.
  assert (Hperm : Permutation (sort_desc below fin) fin) by apply sort_desc_perm.
  assert (Hlen' : List.length (results out) = List.length (ranked_members db s e)).
  { rewrite Hres, <- Hnames, length_map, <- (length_map t_stats), add_ranks_stats.
    now apply Permutation_length. }
  assert (Hstats : map t_stats (results out) = sort_desc below fin).
  { rewrite Hres. apply add_ranks_stats. }
  assert (Hun : map username_of (results out) = map s_username (sort_desc below fin)).
  { rewrite <- Hstats, map_map. reflexivity. }
  assert (Hto : map total_of (results out) = map s_total_matsuni (sort_desc below fin)).
  { rewrite <- Hstats, map_map. reflexivity. }
  assert (Hnd : NoDup (ranked_members db s e)).
  { unfold ranked_members, first_seen. apply fold_see_nodup. constructor. }
  repeat split.
  - rewrite Hres, add_ranks_ranks, <- Hlen', Hres.
    now rewrite <- (length_map t_stats (add_ranks 1 _)), add_ranks_stats.
  - now rewrite Hlen, Hlen'.
  - rewrite Hun, <- Hnames. now apply Permutation_map.
  - rewrite Hun. apply (Permutation_NoDup (l := ranked_members db s e)); [|exact Hnd].
    rewrite <- Hnames. apply Permutation_map. now symmetry.
  - apply Forall_forall. intros r Hr.
    assert (Hin : In (t_stats r) fin).
    { apply (Permutation_in _ Hperm). rewrite <- Hstats. now apply in_map. }
    exact (proj1 (Forall_forall _ _) Htot _ Hin).
  - rewrite Hto. apply sorted_map.
    apply (sorted_weaken (fun a b => below a b = false)).
    + unfold below. intros a b Hab. lia.
    + apply (sort_desc_sorted below); unfold below; intros; lia.
  - intros t.
    transitivity (map s_username
                    (filter (fun st => s_total_matsuni st =? t) (sort_desc below fin))).
    { rewrite <- Hstats.
      rewrite <- (map_filter_comm t_stats (fun st => s_total_matsuni st =? t)).
      now rewrite map_map. }
    rewrite (sort_desc_filter below) by (unfold below; intros; lia).
    rewrite <- Hnames, <- map_filter_comm. f_equal.
    apply filter_ext_in. intros st Hst.
    now rewrite (proj1 (Forall_forall _ _) Htot _ Hst).
Qed.

Lemma C6_ranks_dense_descending_stable_witness :
  calculate_totals db_period "2024-01-01" "2024-01-02"
  = Some (db_period_after, totals_period) /\
  map t_rank (results totals_period)
  = ranks_from 1 (List.length (ranked_members db_period "2024-01-01" "2024-01-02")) /\
  map username_of (results totals_period) = ["u1"; "u2"; "u3"] /\
  map total_of (results totals_period) = [5; 1; 1].
Proof.
  split; [reflexivity|]. split; [|split; reflexivity].
  exact (proj1 (C6_ranks_dense_descending_stable db_period db_period_after
                  "2024-01-01" "2024-01-02" totals_period eq_refl)).
Defined.

Lemma keep_row_new_rows (period_id : string) (rs : list MemberTotal) :
  filter (keep_row period_id) (map (totals_row period_id) rs) = [].
Proof.
  induction rs as [|r rs IH]; simpl; [reflexivity|].
  now rewrite String.eqb_refl.
Qed.

Lemma filter_twice {A : Type} (p : A -> bool) (l : list A) :
  filter p (filter p l) = filter p l.
Proof.
  induction l as [|x l IH]; simpl; [reflexivity|].
  destruct (p x) eqn:E; simpl; [rewrite E, IH|]; auto.
Qed.

(** C8. When [calculate_totals] returns, a second run with the same dates
    on the state the first run left returns the same dictionary (period,
    total_days, total_members, total_matsuni and the list of results with
    its order, totals, days, averages and ranks) and leaves every sheet,
    [Итоги] included, as the first run left it; the ledger and the roster
    are those of the start. *)
Theorem C8_calculate_totals_idempotent (db db1 : DB) (s e : string) (out : Totals) :
  calculate_totals db s e = Some (db1, out) ->
  calculate_totals db1 s e = Some (db1, out) /\
  activity_ws db1 = activity_ws db /\
  members_ws db1 = members_ws db.
Proof.
  intros H.
  apply calculate_totals_inv in H
    as (activities & groups & fin & header & existing & end_day & start_day
        & Hp & Hg & Hf & _ & He & Hs & Hres & _ & Hdb & Hout).
  split; [|subst db1; split; reflexivity].
  rewrite Hdb at 1. unfold calculate_totals. cbn [activity_ws members_ws totals_ws
    posts_ws exclusions_ws].
  rewrite Hp. cbn [bind]. rewrite Hg. cbn [bind]. rewrite Hf. cbn [bind].
  rewrite <- Hres. cbn [app]. rewrite He, Hs. cbn [bind].
  rewrite filter_app, filter_twice, keep_row_new_rows, app_nil_r.
  rewrite <- Hout. now rewrite <- Hdb.
Qed.

Lemma C8_calculate_totals_idempotent_witness :
  calculate_totals db_period "2024-01-01" "2024-01-02"
  = Some (db_period_after, totals_period) /\
  calculate_totals db_period_after "2024-01-01" "2024-01-02"
  = Some (db_period_after, totals_period) /\
  activity_ws db_period_after = activity_ws db_period /\
  members_ws db_period_after = members_ws db_period.
Proof.
  split; [reflexivity|].
  exact (C8_calculate_totals_idempotent db_period db_period_after
           "2024-01-01" "2024-01-02" totals_period eq_refl).
Defined.

End AggregatorProperties.

(** ** The edit distance *)

Section Levenshtein.

Import PyStr ImageProcessor Spec.

Lemma lev_nil_l (r2 : list ascii) : lev [] r2 = List.length r2.
Proof. destruct r2; reflexivity. Qed.

Lemma lev_nil_r (r1 : list ascii) : lev r1 [] = List.length r1.
Proof. destruct r1; reflexivity. Qed.

Lemma lev_cons (a b : ascii) (r1 r2 : list ascii) :
  lev (a :: r1) (b :: r2)
  = Nat.min (lev r1 (b :: r2) + 1)
      (Nat.min (lev (a :: r1) r2 + 1) (lev r1 r2 + cost a b)).
Proof. reflexivity. Qed.

Lemma cost_sym (a b : ascii) : cost a b = cost b a.
Proof. unfold cost. now rewrite Ascii.eqb_sym. Qed.

Lemma cost_le (a b : ascii) : (cost a b <= 1)%nat.
Proof. unfold cost. destruct (Ascii.eqb a b); lia. Qed.

Lemma lev_sym (r1 r2 : list ascii) : lev r1 r2 = lev r2 r1.
Proof.
  revert r2. induction r1 as [|a r1 IH1]; intros r2.
  - now rewrite lev_nil_l, lev_nil_r.
  - induction r2 as [|b r2 IH2].
    + now rewrite lev_nil_l, lev_nil_r.
    + rewrite !lev_cons, IH2, (IH1 (b :: r2)), (IH1 r2), (cost_sym a b). lia.
Qed.

Lemma lev_bound (r1 r2 : list ascii) :
  (lev r1 r2 <= Nat.max (List.length r1) (List.length r2))%nat.
Proof.
  revert r2. induction r1 as [|a r1 IH1]; intros r2.
  - rewrite lev_nil_l. lia.
  - destruct r2 as [|b r2].
    + rewrite lev_nil_r. lia.
    + rewrite lev_cons. pose proof (IH1 r2). pose proof (cost_le a b). simpl. lia.
Qed.

Lemma fill_row_lev (c1 : ascii) (r1 rd todo : list ascii) :
  fill_row c1 todo (map (lev r1) (prefixes_from rd todo)) (lev (c1 :: r1) rd)
  = map (lev (c1 :: r1)) (tl (prefixes_from rd todo)).
Proof.
  revert rd. induction todo as [|c2 todo IH]; intros rd; [reflexivity|].
  change (prefixes_from rd (c2 :: todo)) with (rd :: prefixes_from (c2 :: rd) todo).
  cbn [tl map].
  assert (Hhead : exists rest,
            prefixes_from (c2 :: rd) todo = (c2 :: rd) :: rest /\
            tl (prefixes_from (c2 :: rd) todo) = rest).
  { destruct todo; eexists; split; reflexivity. }
  destruct Hhead as (rest & Hp & Htl).
  specialize (IH (c2 :: rd)). rewrite Hp in IH |- *. cbn [map tl] in IH |- *.
  cbn [fill_row]. rewrite <- lev_cons. f_equal. exact IH.
Qed.

Lemma row0_lev (rd todo : list ascii) :
  seq (List.length rd) (S (List.length todo)) = map (lev []) (prefixes_from rd todo).
Proof.
  revert rd. induction todo as [|c todo IH]; intros rd.
  - simpl. now rewrite lev_nil_l.
  - change (map (lev []) (prefixes_from rd (c :: todo)))
      with (lev [] rd :: map (lev []) (prefixes_from (c :: rd) todo)).
    rewrite <- IH, lev_nil_l. reflexivity.
Qed.

Lemma fill_rows_last (str1 str2 r1 : list ascii) :
  last (map (lev r1) (prefixes_from [] str2)
          :: fill_rows str1 str2 (S (List.length r1))
               (map (lev r1) (prefixes_from [] str2))) []
  = map (lev (rev str1 ++ r1)) (prefixes_from [] str2).
Proof.
  revert r1. induction str1 as [|c1 str1 IH]; intros r1; [reflexivity|].
  cbn [fill_rows].
  assert (Hrow : S (List.length r1)
                   :: fill_row c1 str2 (map (lev r1) (prefixes_from [] str2))
                        (S (List.length r1))
                 = map (lev (c1 :: r1)) (prefixes_from [] str2)).
  { change (S (List.length r1)) with (lev (c1 :: r1) []).
    rewrite fill_row_lev. destruct str2; reflexivity. }
  rewrite Hrow.
  transitivity (map (lev (rev str1 ++ c1 :: r1)) (prefixes_from [] str2)).
  - rewrite <- (IH (c1 :: r1)). reflexivity.
  - simpl. now rewrite <- app_assoc.
Qed.

Lemma prefixes_last {B : Type} (f : list ascii -> B) (rd todo : list ascii) (d : B) :
  last (map f (prefixes_from rd todo)) d = f (rev todo ++ rd)%list.
Proof.
  revert rd. induction todo as [|c todo IH]; intros rd; [reflexivity|].
  change (prefixes_from rd (c :: todo)) with (rd :: prefixes_from (c :: rd) todo).
  cbn [map]. destruct (prefixes_from (c :: rd) todo) eqn:E.
  - destruct todo; discriminate.
  - change (last (f rd :: map f (l :: l0)) d) with (last (map f (l :: l0)) d).
    rewrite <- E, IH. simpl. now rewrite <- app_assoc.
Qed.

(** The matrix computes the recurrence. *)
Lemma levenshtein_lev (str1 str2 : string) :
  levenshtein str1 str2
  = lev (rev (list_ascii_of_string str1)) (rev (list_ascii_of_string str2)).
Proof.
  unfold levenshtein, matrix.
  pose proof (row0_lev [] (list_ascii_of_string str2)) as Hrow0.
  change (List.length (@nil ascii)) with 0%nat in Hrow0. rewrite Hrow0.
  pose proof (fill_rows_last (list_ascii_of_string str1) (list_ascii_of_string str2) [])
    as Hlast.
  change (S (List.length (@nil ascii))) with 1%nat in Hlast. rewrite Hlast.
  rewrite prefixes_last. now rewrite !app_nil_r.
Qed.

Lemma levenshtein_sym (str1 str2 : string) : levenshtein str1 str2 = levenshtein str2 str1.
Proof. rewrite !levenshtein_lev. apply lev_sym. Qed.

Lemma length_list_ascii (s : string) :
  List.length (list_ascii_of_string s) = String.length s.
Proof. induction s; simpl; congruence. Qed.

Lemma levenshtein_bound (str1 str2 : string) :
  (levenshtein str1 str2 <= Nat.max (String.length str1) (String.length str2))%nat.
Proof.
  rewrite levenshtein_lev.
  pose proof (lev_bound (rev (list_ascii_of_string str1)) (rev (list_ascii_of_string str2))) as H.
  now rewrite !length_rev, !length_list_ascii in H.
Qed.

End Levenshtein.

(** ** The similarity score *)

Section Similarity.

Import PyStr ImageProcessor Spec.

Lemma prefix_length (a b : string) :
  prefix a b = true -> (String.length a <= String.length b)%nat.
Proof.
  revert b. induction a as [|x a IH]; intros b H; simpl; [lia|].
  destruct b as [|y b]; simpl in *; [discriminate|].
  destruct (ascii_dec x y); [|discriminate].
  apply IH in H. lia.
Qed.

Lemma prefix_same_length (a b : string) :
  prefix a b = true -> String.length a = String.length b -> a = b.
Proof.
  revert b. induction a as [|x a IH]; intros b H Hlen.
  - destruct b; [reflexivity|discriminate].
  - destruct b as [|y b]; simpl in *; [discriminate|].
    destruct (ascii_dec x y); [|discriminate].
    subst. f_equal. apply IH; [exact H|lia].
Qed.

Lemma contains_length (a b : string) :
  contains a b = true -> (String.length a <= String.length b)%nat.
Proof.
  induction b as [|y b IH]; cbn [contains]; intros H.
  - rewrite orb_false_r in H. now apply prefix_length in H.
  - apply orb_true_iff in H as [H|H].
    + now apply prefix_length in H.
    + apply IH in H. simpl. lia.
Qed.

Lemma contains_same_length (a b : string) :
  contains a b = true -> String.length a = String.length b -> a = b.
Proof.
  intros H Hlen. destruct b as [|y b]; cbn [contains] in H.
  - rewrite orb_false_r in H. now apply prefix_same_length.
  - apply orb_true_iff in H as [H|H].
    + now apply prefix_same_length.
    + apply contains_length in H. simpl in Hlen. lia.
Qed.

Lemma contains_empty (b : string) : contains "" b = true.
Proof. destruct b; reflexivity. Qed.

(** The pair (shorter, longer) does not depend on the order of the
    arguments, but for two strings of equal length, which are then not
    substrings of one another unless they are equal. *)
Lemma substring_tier_sym (a b : string) :
  a <> b ->
  contains (if (String.length a <=? String.length b)%nat then a else b)
           (if (String.length b <? String.length a)%nat then a else b)
  = contains (if (String.length b <=? String.length a)%nat then b else a)
             (if (String.length a <? String.length b)%nat then b else a).
Proof.
  intros Hne.
  destruct (Nat.leb_spec (String.length a) (String.length b)) as [Hab|Hab];
  destruct (Nat.ltb_spec (String.length b) (String.length a)) as [Hba|Hba];
  destruct (Nat.leb_spec (String.length b) (String.length a)) as [Hab'|Hab'];
  destruct (Nat.ltb_spec (String.length a) (String.length b)) as [Hba'|Hba'];
  try lia; try reflexivity.
  assert (Hlen : String.length a = String.length b) by lia.
  destruct (contains a b) eqn:E1.
  - exfalso. apply Hne. now apply contains_same_length.
  - destruct (contains b a) eqn:E2; [|reflexivity].
    exfalso. apply Hne. symmetry. now apply contains_same_length.
Qed.

(** C9. [_calculate_similarity] returns the same value for [(a, b)] and for
    [(b, a)]: equal strings give 1.0 both ways, the substring test is made
    on the same pair both ways, and the distance and the longer length do
    not depend on the order. *)
Theorem C9_similarity_symmetric (a b : string) :
  _calculate_similarity a b = _calculate_similarity b a.
Proof.
  unfold _calculate_similarity.
  rewrite (String.eqb_sym b a).
  destruct (String.eqb a b) eqn:E; [reflexivity|].
  apply String.eqb_neq in E.
  rewrite (substring_tier_sym a b E).
  destruct (contains _ _); [reflexivity|].
  now rewrite (levenshtein_sym b a), (Nat.max_comm (String.length b)).
Qed.

Lemma similarity_empty (m : string) :
  m <> "" -> _calculate_similarity "" m = (9 # 10)%Q.
Proof.
  intros Hne. unfold _calculate_similarity.
  destruct (String.eqb "" m) eqn:E.
  - apply String.eqb_eq in E. congruence.
  - simpl. now rewrite contains_empty.
Qed.

Lemma lower_empty (m : string) : lower m = "" -> m = "".
Proof. destruct m; [reflexivity|discriminate]. Qed.

(** The three values of the score lie between 0 and 1. *)
Lemma similarity_range (a b : string) :
  (0 <= _calculate_similarity a b)%Q /\ (_calculate_similarity a b <= 1)%Q.
Proof.
  unfold _calculate_similarity.
  destruct (String.eqb a b); [split; discriminate|].
  destruct (contains _ _); [split; discriminate|].
  destruct (Nat.eqb_spec (Nat.max (String.length a) (String.length b)) 0) as [|Hm];
    [split; discriminate|].
  pose proof (levenshtein_bound a b) as Hb.
  set (d := levenshtein a b) in *.
  set (m := Nat.max (String.length a) (String.length b)) in *.
  assert (Hpos : Z.pos (Pos.of_nat m) = Z.of_nat m).
  { destruct m as [|m']; [congruence|]. now rewrite <- Znat.positive_nat_Z, Nat2Pos.id. }
  split; unfold Qle, Qminus, Qplus, Qopp; cbn [Qnum Qden];
    rewrite ?Pos.mul_1_l, ?Hpos; lia.
Qed.

End Similarity.

(** ** The identity matcher *)

Section Matcher.

Import PyStr PyDict ImageProcessor Spec.

Lemma members_loop_hits (token : string) (members_list : list string) (min_confidence : Q)
    (found : list (string * Q)) :
  members_loop token members_list min_confidence found
  = (found ++ hits members_list min_confidence token)%list.
Proof.
  revert found. unfold hits, confidence_of.
  induction members_list as [|member rest IH]; intros found; simpl.
  - now rewrite app_nil_r.
  - destruct (Qle_bool min_confidence _); simpl.
    + rewrite IH, <- app_assoc. reflexivity.
    + apply IH.
Qed.

Lemma matches_loop_hits (matches : list (list string)) (members_list : list string)
    (min_confidence : Q) (found : list (string * Q)) :
  matches_loop matches members_list min_confidence found
  = (found ++ flat_map (hits members_list min_confidence) (tokens matches))%list.
Proof.
  revert found. induction matches as [|m rest IH]; intros found; simpl.
  - now rewrite app_nil_r.
  - rewrite IH, members_loop_hits, <- app_assoc. reflexivity.
Qed.

Lemma in_found (matches : list (list string)) (members_list : list string)
    (min_confidence : Q) (u : string) (c : Q) :
  In (u, c) (matches_loop matches members_list min_confidence []) <->
  exists token,
    In token (tokens matches) /\ In u members_list /\
    c = confidence_of token u /\ Qle_bool min_confidence c = true.
Proof.
  rewrite matches_loop_hits. simpl. rewrite in_flat_map. unfold hits. split.
  - intros (token & Htok & Hin). exists token.
    apply in_map_iff in Hin as (m & Heq & Hm). inversion Heq; subst.
    apply filter_In in Hm as [Hm Hc]. auto.
  - intros (token & Htok & Hu & -> & Hc). exists token. split; [exact Htok|].
    apply in_map_iff. exists u. split; [reflexivity|]. now apply filter_In.
Qed.

Lemma not_Qle_bool (x y : Q) : Qle_bool x y = false -> (y <= x)%Q.
Proof.
  intros H. apply Qlt_le_weak, Qnot_le_lt. intros Hle.
  apply Qle_bool_iff in Hle. congruence.
Qed.

Lemma unique_loop_nodup (found : list (string * Q)) (acc : dict Q) :
  NoDup (keys acc) -> NoDup (keys (unique_loop found acc)).
Proof.
  revert acc. induction found as [|[u c] rest IH]; intros acc Hnd; simpl; [exact Hnd|].
  assert (Hset : NoDup (keys (set acc u c))).
  { rewrite keys_set. now apply set_add_nodup. }
  destruct (get acc u) as [old|]; [|now apply IH].
  destruct (negb (Qle_bool c old)); now apply IH.
Qed.

Lemma unique_loop_has_key (found : list (string * Q)) (acc : dict Q) (u : string) :
  has_key acc u = true -> has_key (unique_loop found acc) u = true.
Proof.
  revert acc. induction found as [|[u1 c1] rest IH]; intros acc H; simpl; [exact H|].
  assert (Hset : has_key (set acc u1 c1) u = true).
  { unfold has_key. destruct (String.eqb_spec u1 u) as [->|Hne].
    - now rewrite get_set_same.
    - now rewrite get_set_other. }
  destruct (get acc u1) as [old|]; [|now apply IH].
  destruct (negb (Qle_bool c1 old)); now apply IH.
Qed.

Lemma unique_loop_complete (found : list (string * Q)) (acc : dict Q) (u : string) (c : Q) :
  In (u, c) found -> has_key (unique_loop found acc) u = true.
Proof.
  revert acc. induction found as [|[u1 c1] rest IH]; intros acc Hin; [contradiction|].
  destruct Hin as [Heq|Hin].
  - inversion Heq; subst. simpl.
    assert (Hset : has_key (set acc u c) u = true).
    { unfold has_key. now rewrite get_set_same. }
    destruct (get acc u) as [old|] eqn:E; [|now apply unique_loop_has_key].
    destruct (negb (Qle_bool c old)); apply unique_loop_has_key; [exact Hset|].
    unfold has_key. now rewrite E.
  - simpl. destruct (get acc u1) as [old|]; [|now apply IH].
    destruct (negb (Qle_bool c1 old)); now apply IH.
Qed.

(** What [unique_found] holds for a member at the end of the loop: a
    confidence that was there at the start or that [found] lists, not below
    the one of the start nor below any that [found] lists. *)
Lemma unique_loop_get (found : list (string * Q)) (acc : dict Q) (u : string) (c : Q) :
  get (unique_loop found acc) u = Some c ->
  (get acc u = Some c \/ In (u, c) found) /\
  (forall c0, get acc u = Some c0 -> (c0 <= c)%Q) /\
  (forall c', In (u, c') found -> (c' <= c)%Q).
Proof.
  revert acc. induction found as [|[u1 c1] rest IH]; intros acc H; simpl in H.
  - split; [now left|]. split; [|intros c' []].
    intros c0 H0. rewrite H in H0. inversion H0. apply Qle_refl.
  - assert (Hstore :
      get (unique_loop rest (set acc u1 c1)) u = Some c ->
      (forall old, get acc u1 = Some old -> (old <= c1)%Q) ->
      (get acc u = Some c \/ In (u, c) ((u1, c1) :: rest)) /\
      (forall c0, get acc u = Some c0 -> (c0 <= c)%Q) /\
      (forall c', In (u, c') ((u1, c1) :: rest) -> (c' <= c)%Q)).
    { intros Hget Hold. apply IH in Hget as (Hsrc & Hacc & Hrest).
      destruct (String.eqb_spec u1 u) as [->|Hne].
      - rewrite get_set_same in Hsrc, Hacc.
        assert (Hc1 : (c1 <= c)%Q) by now apply Hacc.
        split; [|split].
        + right. destruct Hsrc as [Hsrc|Hsrc]; [left; congruence|now right].
        + intros c0 H0. apply Qle_trans with c1; [now apply Hold|exact Hc1].
        + intros c' [Heq|Hin]; [inversion Heq; subst; exact Hc1|now apply Hrest].
      - rewrite get_set_other in Hsrc, Hacc by assumption.
        split; [|split].
        + destruct Hsrc as [Hsrc|Hsrc]; [now left|right; now right].
        + exact Hacc.
        + intros c' [Heq|Hin]; [inversion Heq; congruence|now apply Hrest]. }
    destruct (get acc u1) as [old|] eqn:E.
    + destruct (Qle_bool c1 old) eqn:Hle; simpl in H.
      * apply IH in H as (Hsrc & Hacc & Hrest).
        split; [|split].
        -- destruct Hsrc as [Hsrc|Hsrc]; [now left|right; now right].
        -- exact Hacc.
        -- intros c' [Heq|Hin]; [|now apply Hrest].
           inversion Heq; subst.
           apply Qle_trans with old; [now apply Qle_bool_iff|now apply Hacc].
      * apply Hstore; [exact H|].
        intros old' Hold'. inversion Hold'; subst. now apply not_Qle_bool.
    + apply Hstore; [exact H|]. intros old' Hold'. discriminate.
Qed.

Lemma less_confident_asym (x y : string * Q) :
  less_confident x y = true -> less_confident y x = false.
Proof.
  unfold less_confident. intros H. apply negb_true_iff in H.
  apply negb_false_iff, Qle_bool_iff. now apply not_Qle_bool.
Qed.

Lemma less_confident_trans (x y z : string * Q) :
  less_confident x y = false -> less_confident y z = false ->
  less_confident x z = false.
Proof.
  unfold less_confident. intros H1 H2.
  apply negb_false_iff, Qle_bool_iff in H1. apply negb_false_iff, Qle_bool_iff in H2.
  apply negb_false_iff, Qle_bool_iff. now apply Qle_trans with (snd y).
Qed.

End Matcher.

Section MatcherProperties.

Import PyStr PyDict ImageProcessor Spec.

Lemma get_in {V : Type} (d : dict V) (k : string) (v : V) :
  get d k = Some v -> In (k, v) d.
Proof.
  induction d as [|[k' v'] d IH]; simpl; [discriminate|].
  destruct (String.eqb_spec k' k) as [->|Hne].
  - intros H. inversion H. now left.
  - intros H. right. now apply IH.
Qed.

(** What [find_usernames] returns: the entries of [unique_found], sorted. *)
Lemma find_usernames_entries (findall : string -> list (list string)) (text : string)
    (members_list : list string) (min_confidence : Q) (u : string) (c : Q) :
  In (u, c) (find_usernames findall text members_list min_confidence) <->
  get (unique_loop (matches_loop (findall text) members_list min_confidence []) []) u
  = Some c.
Proof.
  set (d := unique_loop _ []).
  change (find_usernames findall text members_list min_confidence)
    with (sort_desc less_confident d).
  assert (Hnd : NoDup (keys d)) by (apply unique_loop_nodup; constructor).
  split.
  - intros Hin. apply get_in_nodup; [exact Hnd|].
    now apply (Permutation_in _ (sort_desc_perm less_confident d)).
  - intros Hget. apply get_in in Hget.
    now apply (Permutation_in _ (Permutation_sym (sort_desc_perm less_confident d))).
Qed.

(** C7. For every text, roster and threshold, whatever the tokens the
    patterns extract: every pair returned has a confidence that is at least
    [min_confidence] and lies in [0, 1]; no member is returned twice; the
    member of a pair is on the roster and its confidence is the similarity of
    one of the tokens and is not below the similarity of any token; and the
    confidences go down along the list. *)
Theorem C7_matches_bounded_unique_maximal_sorted
    (findall : string -> list (list string)) (text : string)
    (members_list : list string) (min_confidence : Q) :
  Forall (fun p => (min_confidence <= snd p)%Q /\ (0 <= snd p)%Q /\ (snd p <= 1)%Q)
         (find_usernames findall text members_list min_confidence) /\
  NoDup (map fst (find_usernames findall text members_list min_confidence)) /\
  Forall (fun p =>
            In (fst p) members_list /\
            (exists token,
               In token (tokens (findall text)) /\
               snd p = confidence_of token (fst p)) /\
            (forall token,
               In token (tokens (findall text)) ->
               (confidence_of token (fst p) <= snd p)%Q))
         (find_usernames findall text members_list min_confidence) /\
  StronglySorted (fun p q => (snd q <= snd p)%Q)
                 (find_usernames findall text members_list min_confidence).
Proof.
  assert (Hsrc : forall u c,
            In (u, c) (find_usernames findall text members_list min_confidence) ->
            (exists token,
               In token (tokens (findall text)) /\ In u members_list /\
               c = confidence_of token u /\ Qle_bool min_confidence c = true) /\
            (forall token,
               In token (tokens (findall text)) -> (confidence_of token u <= c)%Q)).
  { intros u c Hin. apply find_usernames_entries, unique_loop_get in Hin
      as ([Hacc|Hfound] & _ & Hmax); [discriminate|].
    pose proof (proj1 (in_found _ _ _ _ _) Hfound) as (token & Htok & Hu & Hc & Hmin).
    split; [now exists token|].
    intros token' Htok'.
    destruct (Qle_bool min_confidence (confidence_of token' u)) eqn:E.
    - apply Hmax, in_found. exists token'. auto.
    - apply Qle_trans with min_confidence;
        [now apply not_Qle_bool | now apply Qle_bool_iff]. }
  split; [|split; [|split]].
  - apply Forall_forall. intros [u c] Hin.
    destruct (Hsrc u c Hin) as ((token & _ & _ & Hc & Hmin) & _). simpl.
    split; [now apply Qle_bool_iff|]. subst c. apply similarity_range.
  - change (find_usernames findall text members_list min_confidence)
      with (sort_desc less_confident
              (unique_loop
                 (matches_loop (findall text) members_list min_confidence []) [])).
    apply (Permutation_NoDup
             (l := keys (unique_loop
                       (matches_loop (findall text) members_list min_confidence []) []))).
    + apply Permutation_map. symmetry. apply sort_desc_perm.
    + apply unique_loop_nodup. constructor.
  - apply Forall_forall. intros [u c] Hin.
    destruct (Hsrc u c Hin) as ((token & Htok & Hu & Hc & _) & Hmax). simpl.
    split; [exact Hu|]. split; [now exists token|exact Hmax].
  - change (find_usernames findall text members_list min_confidence)
      with (sort_desc less_confident
              (unique_loop
                 (matches_loop (findall text) members_list min_confidence []) [])).
    apply (sorted_weaken (fun a b => less_confident a b = false)).
    + unfold less_confident. intros a b Hab.
      now apply negb_false_iff, Qle_bool_iff in Hab.
    + apply (sort_desc_sorted less_confident).
      * apply less_confident_asym.
      * apply less_confident_trans.
Qed.

(** C10. The empty string against a string [m] that is not empty scores
    0.9, the substring tier, and the empty string against itself scores
    1.0.  So 0.9 passes the default threshold 0.8, and a match whose token
    is empty makes [find_usernames] return every member of the roster that
    is not the empty string, with a confidence of 0.9 at least. *)
Theorem C10_empty_token_scores_substring_tier (m : string) :
  m <> "" ->
  _calculate_similarity "" m = (9 # 10)%Q /\
  _calculate_similarity "" "" = 1%Q /\
  Qle_bool (8 # 10) (_calculate_similarity "" m) = true /\
  forall (findall : string -> list (list string)) (text : string)
         (members_list : list string),
    In m members_list ->
    In "" (tokens (findall text)) ->
    exists c,
      In (m, c) (find_usernames findall text members_list (8 # 10)) /\
      (9 # 10 <= c)%Q.
Proof.
  intros Hne.
  split; [now apply similarity_empty|]. split; [reflexivity|].
  split; [now rewrite similarity_empty|].
  intros findall text members_list Hm Htok.
  assert (Hconf : confidence_of "" m = (9 # 10)%Q).
  { unfold confidence_of. simpl. apply similarity_empty.
    intros H. now apply lower_empty in H. }
  assert (Hfound : In (m, (9 # 10)%Q)
                      (matches_loop (findall text) members_list (8 # 10) [])).
  { apply in_found. exists "". rewrite Hconf. auto. }
  pose proof (unique_loop_complete _ [] _ _ Hfound) as Hkey.
  unfold has_key in Hkey.
  destruct (get (unique_loop (matches_loop (findall text) members_list (8 # 10) []) []) m)
    as [c|] eqn:E; [|discriminate].
  exists c. split; [now apply find_usernames_entries|].
  apply unique_loop_get in E as (_ & _ & Hmax). now apply Hmax.
Qed.

Lemma C10_empty_token_scores_substring_tier_witness :
  "alice" <> "" /\
  _calculate_similarity "" "alice" = (9 # 10)%Q /\
  _calculate_similarity "" "" = 1%Q /\
  Qle_bool (8 # 10) (_calculate_similarity "" "alice") = true.
Proof.
  assert (H : "alice" <> "") by discriminate.
  split; [exact H|].
  destruct (C10_empty_token_scores_substring_tier "alice" H) as (H1 & H2 & H3 & _).
  auto.
Defined.

End MatcherProperties.

(** * Further properties of the code *)

(** ** Scoring and the ledger *)

Section ScoringMore.

Import PyStr MatsuniCalculator GoogleSheetsDB MatsuniBot Spec Sample.








(** X2. Whenever scoring with the default rules returns, every row carries
    the name and the date of the post and a matsuni between 0 and the points
    of the rule table for its flags, hence between 0 and 2. *)
Theorem emitted_matsuni_within_rule_points (db : DB) (post_data : Post)
    (activities : list Activity) (out : list Result) :
  calculate_for_post db default_rules post_data activities = Some out ->
  Forall (fun r =>
            0 <= r_matsuni r /\
            r_matsuni r <= raw_points (r_has_like r) (r_has_comment r) /\
            r_matsuni r <= 2 /\
            r_post_name r = post_name post_data /\
            r_post_date r = post_date post_data) out.
Proof.
  intros Hout. apply calculate_for_post_some in Hout. subst out.
  apply Forall_forall. intros r Hin. apply in_map_iff in Hin as (a & <- & _).
  unfold scored. cbn [r_matsuni r_has_like r_has_comment r_post_name r_post_date].
  rewrite default_rule_points. unfold raw_points.
  destruct (act_has_comment a), (act_has_like a); repeat split; lia.
Qed.

Lemma emitted_matsuni_within_rule_points_witness :
  Forall (fun r =>
            0 <= r_matsuni r /\
            r_matsuni r <= raw_points (r_has_like r) (r_has_comment r) /\
            r_matsuni r <= 2 /\
            r_post_name r = post_name vibro /\
            r_post_date r = post_date vibro)
         [mkResult "dan" true false 0 "vibro" "2024-01-01";
          mkResult "carol" true false 1 "vibro" "2024-01-01"].
Proof.
  exact (emitted_matsuni_within_rule_points db_dan vibro
           [dan_liked; carol_liked; bob_idle] _ eq_refl).
Defined.

Lemma calculate_loop_acc (db : DB) (rules : Rules) (pn pd : string)
    (excluded_users : list string) (activities : list Activity) (acc : list Result) :
  calculate_loop db rules pn pd excluded_users activities acc
  = do out <- calculate_loop db rules pn pd excluded_users activities [];
    Some (acc ++ out)%list.
Proof.
  revert acc. induction activities as [|a rest IH]; intros acc; simpl.
  - now rewrite app_nil_r.
  - destruct (mem (get_username a) excluded_users); [apply IH|].
    destruct (_check_daily_limit db rules (get_username a) pd _); simpl; [|reflexivity].
    rewrite IH. symmetry. rewrite IH.
    destruct (calculate_loop db rules pn pd excluded_users rest []); simpl;
      [|reflexivity].
    now rewrite <- app_assoc.
Qed.

Lemma calculate_loop_app (db : DB) (rules : Rules) (pn pd : string)
    (excluded_users : list string) (l1 l2 : list Activity) (acc : list Result) :
  calculate_loop db rules pn pd excluded_users (l1 ++ l2) acc
  = do out1 <- calculate_loop db rules pn pd excluded_users l1 acc;
    calculate_loop db rules pn pd excluded_users l2 out1.
Proof.
  revert acc. induction l1 as [|a rest IH]; intros acc; simpl; [reflexivity|].
  destruct (mem (get_username a) excluded_users); [apply IH|].
  destruct (_check_daily_limit db rules (get_username a) pd _); simpl; [apply IH|reflexivity].
Qed.

(** X3. Scoring goes record by record against the saved ledger: the result
    for two lists of records put end to end is the result for the first
    followed by the result for the second, and the call raises when one of
    the two raises.  A record is scored the same whatever stands before it
    in the batch. *)
Theorem calculate_for_post_app (db : DB) (rules : Rules) (post_data : Post)
    (l1 l2 : list Activity) :
  calculate_for_post db rules post_data (l1 ++ l2)
  = do out1 <- calculate_for_post db rules post_data l1;
    do out2 <- calculate_for_post db rules post_data l2;
    Some (out1 ++ out2)%list.
Proof.
  unfold calculate_for_post. rewrite calculate_loop_app.
  destruct (calculate_loop db rules _ _ _ l1 []) as [out1|]; simpl; [|reflexivity].
  apply calculate_loop_acc.
Qed.

(** X4. A record that comes twice in one batch is awarded twice: the batch
    of the record and its copy returns the row of the record twice, so one
    batch can give a member more than the daily cap. *)
Theorem repeated_record_awarded_twice (db : DB) (rules : Rules) (post_data : Post)
    (activity : Activity) (r : Result) :
  calculate_for_post db rules post_data [activity] = Some [r] ->
  calculate_for_post db rules post_data [activity; activity] = Some [r; r].
Proof.
  intros H. unfold calculate_for_post in *.
  change [activity; activity] with ([activity] ++ [activity])%list.
  rewrite calculate_loop_app, H. cbn [bind].
  rewrite calculate_loop_acc, H. reflexivity.
Qed.

Lemma repeated_record_awarded_twice_witness :
  calculate_for_post empty_db default_rules vibro [alice_commented]
  = Some [mkResult "alice" false true 2 "vibro" "2024-01-01"] /\
  calculate_for_post empty_db default_rules vibro [alice_commented; alice_commented]
  = Some [mkResult "alice" false true 2 "vibro" "2024-01-01";
          mkResult "alice" false true 2 "vibro" "2024-01-01"].
Proof.
  split; [reflexivity|].
  exact (repeated_record_awarded_twice empty_db default_rules vibro alice_commented
           _ eq_refl).
Defined.

Lemma daily_total_loop_same_ledger (db db' : DB) (rules : Rules)
    (username date : string) (n : Z) :
  activity_ws db' = activity_ws db ->
  _check_daily_limit db' rules username date n = _check_daily_limit db rules username date n.
Proof. intros H. unfold _check_daily_limit. now rewrite H. Qed.

Lemma calculate_loop_same_ledger (db db' : DB) (rules : Rules) (pn pd : string)
    (excluded_users : list string) (activities : list Activity) (acc : list Result) :
  activity_ws db' = activity_ws db ->
  calculate_loop db' rules pn pd excluded_users activities acc
  = calculate_loop db rules pn pd excluded_users activities acc.
Proof.
  intros H. revert acc. induction activities as [|a rest IH]; intros acc; simpl;
    [reflexivity|].
  destruct (mem (get_username a) excluded_users); [apply IH|].
  rewrite (daily_total_loop_same_ledger db db') by assumption.
  destruct (_check_daily_limit db rules (get_username a) pd _); simpl; [apply IH|reflexivity].
Qed.

(** X5. Once [add_exclusion] has stored an exclusion of [username] for the
    post name [post_name], scoring a post of that name returns no row for
    [username], whatever the records. *)
Theorem add_exclusion_then_scoring_skips (today : string) (db : DB)
    (username reason : string) (rules : Rules) (post_data : Post)
    (activities : list Activity) (out : list Result) :
  calculate_for_post
    (add_exclusion today db username (post_name post_data) reason)
    rules post_data activities = Some out ->
  ~ In username (map r_username out).
Proof.
  intros Hout Hin. apply calculate_for_post_some in Hout. subst out.
  rewrite map_map in Hin. apply in_map_iff in Hin as (a & Hu & Ha).
  apply filter_In in Ha as [_ Ha]. apply negb_true_iff in Ha.
  cbn [scored r_username] in Hu. rewrite Hu in Ha.
  unfold excluded, add_exclusion in Ha. cbn [exclusions_ws] in Ha.
  rewrite existsb_app in Ha. apply orb_false_iff in Ha as [_ Ha].
  cbn [existsb] in Ha. unfold applies_to in Ha.
  cbn [e_active e_post_name e_username] in Ha.
  rewrite !String.eqb_refl, orb_true_r in Ha. discriminate.
Qed.

Lemma add_exclusion_then_scoring_skips_witness :
  calculate_for_post (add_exclusion "2024-01-01" empty_db "carol" (post_name vibro) "")
    default_rules vibro [alice_commented; carol_liked]
  = Some [mkResult "alice" false true 2 "vibro" "2024-01-01"] /\
  ~ In "carol" (map r_username [mkResult "alice" false true 2 "vibro" "2024-01-01"]).
Proof.
  split; [reflexivity|].
  exact (add_exclusion_then_scoring_skips "2024-01-01" empty_db "carol" ""
           default_rules vibro [alice_commented; carol_liked] _ eq_refl).
Defined.

(** X6. An exclusion stored for one post name does not touch the scoring of
    a post of another name, as long as that name is not empty: the result
    is what it was before [add_exclusion]. *)
Theorem add_exclusion_leaves_other_posts (today : string) (db : DB)
    (username excluded_post reason : string) (rules : Rules) (post_data : Post)
    (activities : list Activity) :
  post_name post_data <> "" ->
  post_name post_data <> excluded_post ->
  calculate_for_post (add_exclusion today db username excluded_post reason)
    rules post_data activities
  = calculate_for_post db rules post_data activities.
Proof.
  intros Hne Hother. unfold calculate_for_post.
  rewrite (calculate_loop_same_ledger db) by reflexivity.
  f_equal. f_equal. rewrite !get_exclusions_filter.
  unfold add_exclusion. cbn [exclusions_ws]. rewrite filter_app.
  cbn [filter]. unfold applies_to at 2. cbn [e_active e_post_name].
  assert (Hname : String.eqb excluded_post (post_name post_data) = false).
  { apply String.eqb_neq. congruence. }
  assert (Htruthy : truthy (post_name post_data) = true).
  { destruct (post_name post_data); [congruence|reflexivity]. }
  rewrite Hname, Htruthy. cbn [negb orb andb]. rewrite andb_false_r.
  now rewrite app_nil_r.
Qed.

Lemma add_exclusion_leaves_other_posts_witness :
  post_name art_day <> "" /\
  post_name art_day <> "vibro" /\
  calculate_for_post (add_exclusion "2024-01-01" empty_db "carol" "vibro" "")
    default_rules art_day [alice_commented; carol_liked]
  = calculate_for_post empty_db default_rules art_day [alice_commented; carol_liked].
Proof.
  assert (H1 : post_name art_day <> "") by discriminate.
  assert (H2 : post_name art_day <> "vibro") by discriminate.
  split; [exact H1|]. split; [exact H2|].
  exact (add_exclusion_leaves_other_posts "2024-01-01" empty_db "carol" "vibro" ""
           default_rules art_day [alice_commented; carol_liked] H1 H2).
Defined.

End ScoringMore.

(** ** More on the period totals *)

Section AggregatorMore.

Import PyStr PyDict GoogleSheetsDB MatsuniCalculator Spec Sample.

Lemma keys_nil {V : Type} (d : dict V) : keys d = [] -> d = [].
Proof. destruct d; [reflexivity|discriminate]. Qed.

Lemma filter_map_filter_nil {A B : Type} (p : A -> bool) (f : A -> B) (q : B -> bool)
    (l : list A) :
  (forall x, In x l -> p x = true -> q (f x) = false) ->
  filter q (map f (filter p l)) = [].
Proof.
  induction l as [|x l IH]; intros H; simpl; [reflexivity|].
  destruct (p x) eqn:E; simpl.
  - rewrite (H x (or_introl eq_refl) E). apply IH. intros y Hy. apply H. now right.
  - apply IH. intros y Hy. apply H. now right.
Qed.

(** X7. When no row of the ledger dated within the period belongs to a
    member of the roster (an empty ledger, a period without checks), a call
    of [calculate_totals] that returns gives the empty report: no result,
    [total_members = 0], [total_matsuni = 0]; and [Итоги] is left with its
    header and the rows of the other periods. *)
Theorem calculate_totals_empty_report (db db' : DB) (s e : string) (out : Totals) :
  calculate_totals db s e = Some (db', out) ->
  (forall row, In row (activity_ws db) -> in_period s e row = true ->
               is_member db (a_username row) = false) ->
  results out = [] /\
  total_members out = 0 /\
  total_matsuni out = 0 /\
  tl (totals_ws db') = filter (keep_row (s ++ "_" ++ e)) (tl (totals_ws db)).
Proof.
  intros H Hnone.
  apply calculate_totals_inv in H
    as (activities & groups & fin & header & existing & end_day & start_day
        & Hp & Hg & Hf & Hsheet & _ & _ & Hres & _ & Hdb & Hout).
  assert (Hkeys : keys groups = []).
  { rewrite (ranked_members_keys _ _ _ _ _ Hp Hg). unfold ranked_members.
    now rewrite (filter_map_filter_nil _ _ _ _ Hnone). }
  apply keys_nil in Hkeys. subst groups. simpl in Hf. inversion Hf; subst fin.
  simpl in Hres.
  assert (Hempty : results out = []) by exact Hres.
  rewrite Hout, Hdb, Hempty, Hsheet. simpl. now rewrite app_nil_r.
Qed.

Lemma calculate_totals_empty_report_witness :
  calculate_totals db_period "2025-06-01" "2025-06-30"
  = Some (db_period, mkTotals "2025-06-01 - 2025-06-30" 30 0 0 []) /\
  (forall row, In row (activity_ws db_period) ->
               in_period "2025-06-01" "2025-06-30" row = true ->
               is_member db_period (a_username row) = false) /\
  tl (totals_ws db_period)
  = filter (keep_row ("2025-06-01" ++ "_" ++ "2025-06-30")) (tl (totals_ws db_period)).
Proof.
  assert (Hnone : forall row, In row (activity_ws db_period) ->
                    in_period "2025-06-01" "2025-06-30" row = true ->
                    is_member db_period (a_username row) = false).
  { intros row Hin Hper. simpl in Hin.
    repeat (destruct Hin as [<-|Hin]; [vm_compute in Hper; discriminate|]).
    contradiction. }
  split; [reflexivity|]. split; [exact Hnone|].
  exact (proj2 (proj2 (proj2
           (calculate_totals_empty_report db_period db_period
              "2025-06-01" "2025-06-30" _ eq_refl Hnone)))).
Defined.

Lemma group_loop_days (members : dict MemberRow) (activities : list ActivityRow)
    (acc res : dict MemberGroup) (u : string) :
  group_loop members activities acc = Some res ->
  has_key members u = true ->
  days_held res u = fold_left see (dates_of u activities) (days_held acc u).
Proof.
  intros H Hu. revert acc H.
  induction activities as [|a rest IH]; intros acc H; simpl in *.
  - now inversion H.
  - destruct (String.eqb (a_username a) u) eqn:E.
    + apply String.eqb_eq in E. subst u. unfold has_key in Hu.
      destruct (get members (a_username a)); [|discriminate].
      destruct (split_first (a_checked_at a)) as [d|]; simpl in H; [|discriminate].
      apply IH in H. rewrite H. simpl. f_equal.
      unfold days_held at 1. rewrite get_set_same. cbn [g_days_active].
      unfold days_held, set_add, see. now destruct (get acc (a_username a)).
    + apply String.eqb_neq in E.
      destruct (get members (a_username a)); [|now apply IH].
      destruct (split_first (a_checked_at a)); simpl in H; [|discriminate].
      apply IH in H. rewrite H. f_equal. unfold days_held.
      now rewrite get_set_other.
Qed.

Lemma fold_see_keeps (l seen : list string) (x : string) :
  In x seen -> In x (fold_left see l seen).
Proof.
  revert seen. induction l as [|y l IH]; intros seen H; simpl; [exact H|].
  apply IH. unfold see. destruct (mem y seen); [exact H|]. apply in_or_app. now left.
Qed.

Lemma fold_see_complete (l seen : list string) (x : string) :
  In x l -> In x (fold_left see l seen).
Proof.
  revert seen. induction l as [|y l IH]; intros seen H; simpl; [contradiction|].
  destruct H as [<-|H]; [|now apply IH].
  apply fold_see_keeps. unfold see. destruct (mem y seen) eqn:E.
  - now apply mem_In.
  - apply in_or_app. right. now left.
Qed.

Lemma fold_see_length (l seen : list string) :
  (List.length (fold_left see l seen) <= List.length seen + List.length l)%nat.
Proof.
  revert seen. induction l as [|y l IH]; intros seen; simpl; [lia|].
  specialize (IH (see seen y)). unfold see in *.
  destruct (mem y seen); [lia|]. rewrite length_app in IH. simpl in IH. lia.
Qed.

Lemma dates_of_in_group (members : dict MemberRow) (activities : list ActivityRow)
    (acc res : dict MemberGroup) (u : string) :
  group_loop members activities acc = Some res ->
  has_key members u = true ->
  In u (map a_username activities) ->
  dates_of u activities <> [].
Proof.
  intros H Hu Hin. revert acc H.
  induction activities as [|a rest IH]; intros acc H; simpl in *; [contradiction|].
  destruct (String.eqb (a_username a) u) eqn:E.
  - apply String.eqb_eq in E. subst u. unfold has_key in Hu.
    destruct (get members (a_username a)); [|discriminate].
    destruct (split_first (a_checked_at a)); simpl in H; [discriminate|discriminate].
  - apply String.eqb_neq in E. destruct Hin as [Heq|Hin]; [congruence|].
    destruct (get members (a_username a)); [|now apply (IH Hin acc)].
    destruct (split_first (a_checked_at a)); simpl in H; [|discriminate].
    now apply (IH Hin _ H).
Qed.

Lemma final_loop_rows (members : dict MemberRow) (items : list (string * MemberGroup))
    (acc fin : list MemberStats) :
  final_loop members items acc = Some fin ->
  exists rest,
    fin = (acc ++ rest)%list /\
    Forall2
      (fun item st =>
         s_username st = fst item /\
         s_total_matsuni st = g_total_matsuni (snd item) /\
         s_days_active st = Z.of_nat (List.length (g_days_active (snd item))) /\
         s_avg_matsuni st
         = if (0 <? List.length (g_days_active (snd item)))%nat
           then AvgRound2 (g_total_matsuni (snd item))
                          (List.length (g_days_active (snd item)))
           else AvgZero)
      items rest.
Proof.
  revert acc. induction items as [|[u g] items IH]; intros acc H; simpl in *.
  - inversion H. exists []. rewrite app_nil_r. split; [reflexivity|constructor].
  - destruct (get members u) as [m|]; simpl in H; [|discriminate].
    apply IH in H as (rest & -> & Hall).
    eexists (_ :: rest). rewrite <- app_assoc. simpl.
    split; [reflexivity|]. constructor; [|exact Hall]. simpl. auto.
Qed.

Lemma Forall2_Forall_r {A B : Type} (R : A -> B -> Prop) (P : B -> Prop)
    (l : list A) (l' : list B) :
  Forall2 R l l' ->
  (forall x y, In x l -> R x y -> P y) ->
  Forall P l'.
Proof.
  induction 1 as [|x y l l' Hxy _ IH]; intros H; constructor.
  - apply (H x y); [now left|exact Hxy].
  - apply IH. intros x' y' Hin. apply H. now right.
Qed.

(** X8. In the output of [calculate_totals], [days_active] of a member is
    the number of distinct dates of its entries in the period; it is at
    least 1 and at most the number of those entries, and the average is the
    rounded quotient of the total by it: the branch that gives 0 for a
    member without active day is never taken. *)
Theorem days_active_counts_distinct_dates (db db' : DB) (s e : string) (out : Totals) :
  calculate_totals db s e = Some (db', out) ->
  Forall (fun r =>
            let u := username_of r in
            let days := List.length (active_days db s e u) in
            s_days_active (t_stats r) = Z.of_nat days /\
            (1 <= days)%nat /\
            (days <= List.length
                       (dates_of u (filter (in_period s e) (activity_ws db))))%nat /\
            s_avg_matsuni (t_stats r) = AvgRound2 (total_of r) days)
         (results out).
Proof.
  intros H.
  apply calculate_totals_inv in H
    as (activities & groups & fin & header & existing & end_day & start_day
        & Hp & Hg & Hf & _ & _ & _ & Hres & _ & _ & _).
  pose proof (ranked_members_keys _ _ _ _ _ Hp Hg) as Hkeys.
  assert (Hnd : NoDup (keys groups)).
  { rewrite Hkeys. unfold ranked_members, first_seen. apply fold_see_nodup. constructor. }
  pose proof Hp as Hacts. apply period_loop_filter in Hacts. simpl in Hacts.
  apply final_loop_rows in Hf as (rest & -> & Hrows). simpl in Hres.
  assert (Hfin : Forall (fun st =>
            let days := List.length (active_days db s e (s_username st)) in
            s_days_active st = Z.of_nat days /\
            (1 <= days)%nat /\
            (days <= List.length
                       (dates_of (s_username st)
                          (filter (in_period s e) (activity_ws db))))%nat /\
            s_avg_matsuni st = AvgRound2 (s_total_matsuni st) days) rest).
  { assert (Hitems : forall item, In item groups ->
              has_key (members_dict (members_ws db)) (fst item) = true /\
              In (fst item) (map a_username activities) /\
              get groups (fst item) = Some (snd item)).
    { intros [u g] Hin. simpl.
      assert (Hu : In u (keys groups)) by (change u with (fst (u, g)); now apply in_map).
      pose proof Hg as Hk. apply group_loop_keys in Hk. rewrite Hk in Hu.
      apply fold_see_in in Hu as [[]|Hu]. apply filter_In in Hu as [Hu1 Hu2].
      split; [exact Hu2|]. split; [exact Hu1|]. now apply get_in_nodup. }
    apply (Forall2_Forall_r _ _ _ _ Hrows).
    intros item st Hitem (Hn & Ht & Hd & Ha).
    - destruct (Hitems item Hitem) as (Hu & Hin & Hget).
      pose proof (group_loop_days _ _ _ _ _ Hg Hu) as Hdays.
      unfold days_held in Hdays. rewrite Hget in Hdays. simpl in Hdays.
      pose proof (dates_of_in_group _ _ _ _ _ Hg Hu Hin) as Hne.
      cbv zeta. rewrite Hn. unfold active_days, first_seen. rewrite <- Hacts, <- Hdays.
      assert (Hpos : (1 <= List.length (g_days_active (snd item)))%nat).
      { rewrite Hdays. destruct (dates_of (fst item) activities) as [|d ds] eqn:E;
          [congruence|].
        assert (Hd1 : In d (fold_left see (d :: ds) [])).
        { apply fold_see_complete. now left. }
        destruct (fold_left see (d :: ds) []); [contradiction|simpl; lia]. }
      split; [exact Hd|]. split; [exact Hpos|]. split.
      + rewrite Hdays. pose proof (fold_see_length (dates_of (fst item) activities) []).
        simpl in *. lia.
      + rewrite Ha, Ht.
        destruct (Nat.ltb_spec 0 (List.length (g_days_active (snd item)))); [reflexivity|lia]. }
  set (below := fun x y : MemberStats => s_total_matsuni x <? s_total_matsuni y) in *.
  rewrite Hres. apply Forall_forall. intros r Hr.
  assert (Hin : In (t_stats r) rest).
  { apply (Permutation_in _ (sort_desc_perm below rest)).
    rewrite <- (add_ranks_stats 1 (sort_desc below rest)). now apply in_map. }
  exact (proj1 (Forall_forall _ _) Hfin _ Hin).
Qed.

Lemma days_active_counts_distinct_dates_witness :
  calculate_totals db_period "2024-01-01" "2024-01-02"
  = Some (db_period_after, totals_period) /\
  Forall (fun r =>
            let u := username_of r in
            let days := List.length (active_days db_period "2024-01-01" "2024-01-02" u) in
            s_days_active (t_stats r) = Z.of_nat days /\
            (1 <= days)%nat /\
            (days <= List.length
                       (dates_of u (filter (in_period "2024-01-01" "2024-01-02")
                                           (activity_ws db_period))))%nat /\
            s_avg_matsuni (t_stats r) = AvgRound2 (total_of r) days)
         (results totals_period).
Proof.
  split; [reflexivity|].
  exact (days_active_counts_distinct_dates db_period db_period_after
           "2024-01-01" "2024-01-02" totals_period eq_refl).
Defined.

Lemma groups_sum_set (d : dict MemberGroup) (k : string) (g : MemberGroup) :
  groups_sum (set d k g) = groups_sum d - held g_total_matsuni d k + g_total_matsuni g.
Proof.
  unfold groups_sum, held. induction d as [|[k' g'] d IH]; simpl; [lia|].
  destruct (String.eqb k' k); simpl; [lia|]. rewrite IH. lia.
Qed.

Lemma group_loop_sum (members : dict MemberRow) (activities : list ActivityRow)
    (acc res : dict MemberGroup) :
  group_loop members activities acc = Some res ->
  groups_sum res = groups_sum acc + listed_points members activities.
Proof.
  revert acc. induction activities as [|a rest IH]; intros acc H; simpl in *.
  - inversion H. unfold listed_points. simpl. lia.
  - unfold listed_points, has_key in *. simpl.
    destruct (get members (a_username a)); simpl; [|now apply IH].
    destruct (split_first (a_checked_at a)); simpl in H; [|discriminate].
    apply IH in H. rewrite H, groups_sum_set. unfold held. cbn [g_total_matsuni].
    destruct (get acc (a_username a)); simpl; lia.
Qed.

Lemma fold_left_add (l : list Z) (a : Z) :
  fold_left Z.add l a = a + fold_right Z.add 0 l.
Proof.
  revert a. induction l as [|x l IH]; intros a; simpl; [lia|]. rewrite IH. lia.
Qed.

Lemma sum_perm (l l' : list Z) :
  Permutation l l' -> fold_right Z.add 0 l = fold_right Z.add 0 l'.
Proof. induction 1; simpl; lia. Qed.

(** X9. In the output of [calculate_totals], [total_matsuni] is the sum of
    the points of the ledger rows dated within the period whose username is
    on the roster: the rows of strangers are not counted. *)
Theorem total_matsuni_sums_roster_entries (db db' : DB) (s e : string) (out : Totals) :
  calculate_totals db s e = Some (db', out) ->
  total_matsuni out = roster_points db s e.
Proof.
  intros H.
  apply calculate_totals_inv in H
    as (activities & groups & fin & header & existing & end_day & start_day
        & Hp & Hg & Hf & _ & _ & _ & Hres & _ & _ & Hout).
  set (below := fun x y : MemberStats => s_total_matsuni x <? s_total_matsuni y) in *.
  rewrite Hout. cbn [total_matsuni]. rewrite fold_left_add, Z.add_0_l.
  rewrite <- (map_map t_stats s_total_matsuni), Hres, add_ranks_stats.
  rewrite (sum_perm _ _ (Permutation_map s_total_matsuni (sort_desc_perm below fin))).
  apply final_loop_items in Hf as (rest & -> & _ & Ht). simpl. rewrite Ht.
  change (fold_right Z.add 0 (map (fun item => g_total_matsuni (snd item)) groups))
    with (groups_sum groups).
  rewrite (group_loop_sum _ _ _ _ Hg). unfold groups_sum. simpl.
  apply period_loop_filter in Hp. simpl in Hp. subst activities.
  unfold listed_points, roster_points. do 2 f_equal.
  apply filter_ext. intros row. apply members_dict_has_key.
Qed.

Lemma total_matsuni_sums_roster_entries_witness :
  calculate_totals db_period "2024-01-01" "2024-01-02"
  = Some (db_period_after, totals_period) /\
  total_matsuni totals_period = roster_points db_period "2024-01-01" "2024-01-02".
Proof.
  split; [reflexivity|].
  exact (total_matsuni_sums_roster_entries db_period db_period_after
           "2024-01-01" "2024-01-02" totals_period eq_refl).
Defined.

Lemma in_period_saved (s e now day : string) (post_data : Post) (r : Result) :
  split_first now = Some day ->
  in_period s e
    (mkActivityRow (post_id post_data) (r_username r) (yes_no (r_has_like r))
       (yes_no (r_has_comment r)) (r_matsuni r) now)
  = String.leb s day && String.leb day e.
Proof. intros Hnow. unfold in_period. cbn [a_checked_at]. now rewrite Hnow. Qed.

Lemma points_of_app (u : string) (l1 l2 : list ActivityRow) :
  points_of u (l1 ++ l2) = points_of u l1 + points_of u l2.
Proof.
  unfold points_of. rewrite filter_app, map_app.
  induction (map a_matsuni (filter _ l1)) as [|z l IH]; simpl; lia.
Qed.

Lemma period_total_saved (now day s e u : string) (db : DB) (post_data : Post)
    (batch : list Result) :
  split_first now = Some day ->
  period_total (save_activity now db post_data batch) s e u
  = period_total db s e u
    + (if String.leb s day && String.leb day e then batch_points u batch else 0).
Proof.
  intros Hnow. unfold period_total, save_activity. cbn [activity_ws].
  rewrite filter_app, points_of_app. f_equal.
  unfold points_of, batch_points.
  induction batch as [|r batch IH]; simpl.
  - now destruct (String.leb s day && String.leb day e).
  - rewrite (in_period_saved _ _ _ _ _ _ Hnow).
    destruct (String.leb s day && String.leb day e) eqn:E; simpl.
    + destruct (String.eqb (r_username r) u); simpl; rewrite IH; reflexivity.
    + exact IH.
Qed.

(** X10. The points of a saved batch count in the periods that contain the
    day of the save, whatever the date of the post: in the output of
    [calculate_totals] on the state [save_activity] leaves, the total of a
    member is its total over the ledger of before, plus its points in the
    batch when the day of [now] lies within the period. *)
Theorem saved_batch_counts_on_day_of_save (now day s e : string) (db db' : DB)
    (post_data : Post) (batch : list Result) (out : Totals) :
  split_first now = Some day ->
  calculate_totals (save_activity now db post_data batch) s e = Some (db', out) ->
  Forall (fun r =>
            total_of r
            = period_total db s e (username_of r)
              + (if String.leb s day && String.leb day e
                 then batch_points (username_of r) batch else 0))
         (results out).
Proof.
  intros Hnow H.
  apply calculate_totals_inv in H
    as (activities & groups & fin & header & existing & end_day & start_day
        & Hp & Hg & Hf & _ & _ & _ & Hres & _ & _ & _).
  destruct (final_totals _ _ _ _ _ _ Hp Hg Hf) as [_ Htot].
  set (below := fun x y : MemberStats => s_total_matsuni x <? s_total_matsuni y) in *.
  apply Forall_forall. intros r Hr.
  assert (Hin : In (t_stats r) fin).
  { apply (Permutation_in _ (sort_desc_perm below fin)).
    rewrite <- (add_ranks_stats 1 (sort_desc below fin)), <- Hres. now apply in_map. }
  pose proof (proj1 (Forall_forall _ _) Htot _ Hin) as Hr'.
  unfold total_of, username_of. rewrite Hr'. now apply period_total_saved.
Qed.

Lemma saved_batch_counts_on_day_of_save_witness :
  split_first "2024-01-02 12:00:00" = Some "2024-01-02" /\
  calculate_totals db_period_saved "2024-01-01" "2024-01-02"
  = Some (db_period_saved_after, totals_period_saved) /\
  Forall (fun r =>
            total_of r
            = period_total db_period "2024-01-01" "2024-01-02" (username_of r)
              + (if String.leb "2024-01-01" "2024-01-02"
                    && String.leb "2024-01-02" "2024-01-02"
                 then batch_points (username_of r) old_post_batch
                 else 0))
         (results totals_period_saved).
Proof.
  split; [reflexivity|]. split; [reflexivity|].
  exact (saved_batch_counts_on_day_of_save "2024-01-02 12:00:00" "2024-01-02"
           "2024-01-01" "2024-01-02" db_period db_period_saved_after
           old_post old_post_batch totals_period_saved eq_refl eq_refl).
Defined.

End AggregatorMore.

(** ** The roster *)

Section Roster.

Import PyStr GoogleSheetsDB Spec Sample.

Lemma member_row_eta (row : MemberRow) :
  mkMemberRow (m_username row) (m_join_date row) (m_status row) (m_telegram_id row) = row.
Proof. now destruct row. Qed.

Lemma get_members_loop_filter (data : list MemberRow) (active_only : bool)
    (acc : list MemberRow) :
  get_members_loop data active_only acc
  = (acc ++ filter (fun row => negb active_only || is_active row) data)%list.
Proof.
  revert acc. induction data as [|row rest IH]; intros acc; simpl.
  - now rewrite app_nil_r.
  - unfold is_active at 1. destruct active_only; simpl.
    + destruct (String.eqb (lower (m_status row)) "активен"); simpl.
      * rewrite IH, member_row_eta, <- app_assoc. reflexivity.
      * apply IH.
    + rewrite IH, member_row_eta, <- app_assoc. reflexivity.
Qed.

Lemma get_members_filter (db : DB) (active_only : bool) :
  get_members db active_only
  = filter (fun row => negb active_only || is_active row) (members_ws db).
Proof. unfold get_members. now rewrite get_members_loop_filter. Qed.

(** X11. [add_member] never refuses: for any username, also one that
    [validate_username] rejects or that is on the roster already, it
    returns [True] and appends one row with the status [активен]; the
    join date is the one given, or today's without one.  [get_members]
    then returns what it returned before followed by the new member, with
    and without [active_only], and the other sheets are as before. *)
Theorem add_member_then_listed (today : string) (db : DB) (username : string)
    (join_date telegram_id : option string) :
  let db' := fst (add_member today db username join_date telegram_id) in
  let row := mkMemberRow username
               (match join_date with
                | Some d => if truthy d then d else today
                | None => today
                end)
               "активен"
               (match telegram_id with Some t => t | None => "" end) in
  snd (add_member today db username join_date telegram_id) = true /\
  get_members db' true = (get_members db true ++ [row])%list /\
  get_members db' false = (get_members db false ++ [row])%list /\
  is_member db' username = true /\
  activity_ws db' = activity_ws db /\
  exclusions_ws db' = exclusions_ws db /\
  totals_ws db' = totals_ws db.
Proof.
  cbv zeta. unfold add_member. cbv zeta. cbn [fst snd].
  assert (Htid : match telegram_id with
                 | Some t => if truthy t then t else ""
                 | None => ""
                 end
                 = match telegram_id with Some t => t | None => "" end).
  { destruct telegram_id as [[|c t]|]; reflexivity. }
  rewrite Htid. rewrite !get_members_filter. cbn [members_ws].
  rewrite !filter_app. repeat split.
  unfold is_member. cbn [members_ws]. rewrite existsb_app. simpl.
  now rewrite String.eqb_refl, !orb_true_r.
Qed.

Lemma update_status_loop_spec (rows : list MemberRow) (username status : string) :
  match update_status_loop rows username status with
  | Some rows' =>
      exists before row after,
        rows = (before ++ row :: after)%list /\
        ~ In username (map m_username before) /\
        m_username row = username /\
        rows' = (before ++ with_status status row :: after)%list
  | None => ~ In username (map m_username rows)
  end.
Proof.
  induction rows as [|row rest IH]; simpl; [tauto|].
  destruct (String.eqb_spec (m_username row) username) as [Heq|Hne].
  - exists [], row, rest. simpl. auto.
  - destruct (update_status_loop rest username status) as [rest'|].
    + destruct IH as (before & r & after & -> & Hnot & Hr & ->).
      exists (row :: before), r, after. simpl. repeat split; auto.
      intros [H|H]; [congruence|contradiction].
    + intros [H|H]; [congruence|contradiction].
Qed.

(** X12. [update_member_status] returns [True] exactly when the username is
    on the roster.  It then replaces the status of the first row of that
    username and of no other row, also when the username is there twice;
    the usernames of the roster and their order stay.  When it returns
    [False], nothing is changed. *)
Theorem update_member_status_first_row (db : DB) (username status : string) :
  snd (update_member_status db username status) = is_member db username /\
  map m_username (members_ws (fst (update_member_status db username status)))
  = map m_username (members_ws db) /\
  (snd (update_member_status db username status) = false ->
   fst (update_member_status db username status) = db) /\
  (snd (update_member_status db username status) = true ->
   exists before row after,
     members_ws db = (before ++ row :: after)%list /\
     ~ In username (map m_username before) /\
     m_username row = username /\
     members_ws (fst (update_member_status db username status))
     = (before ++ with_status status row :: after)%list).
Proof.
  unfold update_member_status.
  pose proof (update_status_loop_spec (members_ws db) username status) as Hspec.
  destruct (update_status_loop (members_ws db) username status) as [rows'|];
    cbn [fst snd members_ws].
  - destruct Hspec as (before & row & after & Hrows & Hnot & Hrow & ->).
    split; [|split; [|split]].
    + symmetry. unfold is_member. apply existsb_exists. exists row.
      split; [rewrite Hrows; apply in_or_app; right; now left|].
      now apply String.eqb_eq.
    + rewrite Hrows, !map_app. reflexivity.
    + discriminate.
    + intros _. exists before, row, after. auto.
  - split; [|split; [|split]]; try reflexivity; try discriminate.
    symmetry. unfold is_member. destruct (existsb _ (members_ws db)) eqn:E; [|reflexivity].
    apply existsb_exists in E as (row & Hin & Heq). apply String.eqb_eq in Heq.
    exfalso. apply Hspec. rewrite <- Heq. now apply in_map.
Qed.

Lemma filter_not_in {A : Type} (p : A -> bool) (f : A -> string) (u : string)
    (l : list A) :
  ~ In u (map f l) ->
  filter (fun x => p x && negb (String.eqb (f x) u)) l = filter p l.
Proof.
  intros Hnot. apply filter_ext_in. intros x Hx.
  assert (Hne : String.eqb (f x) u = false).
  { apply String.eqb_neq. intros Heq. apply Hnot. rewrite <- Heq. now apply in_map. }
  now rewrite Hne, andb_true_r.
Qed.

Lemma filter_filter_and {A : Type} (p q : A -> bool) (l : list A) :
  filter p (filter q l) = filter (fun x => q x && p x) l.
Proof.
  induction l as [|x l IH]; simpl; [reflexivity|].
  destruct (q x); simpl; [destruct (p x); now rewrite IH|exact IH].
Qed.

(** X13. On a roster without a username twice, setting the status of a
    member to a plain text that is not [активен], whatever the case of its
    ASCII letters, removes that member, and no other, from what
    [get_members] returns with [active_only]. *)
Theorem deactivated_member_not_listed (db : DB) (username status : string) :
  NoDup (map m_username (members_ws db)) ->
  plain_text status = true ->
  lower status <> "активен" ->
  get_members (fst (update_member_status db username status)) true
  = filter (fun row => negb (String.eqb (m_username row) username))
           (get_members db true).
Proof.
  intros Hnd _ Hst. rewrite !get_members_filter. cbn [negb orb].
  rewrite filter_filter_and.
  unfold update_member_status.
  pose proof (update_status_loop_spec (members_ws db) username status) as Hspec.
  destruct (update_status_loop (members_ws db) username status) as [rows'|];
    cbn [fst members_ws].
  - destruct Hspec as (before & row & after & Hrows & Hnot & Hrow & ->).
    rewrite Hrows in *. rewrite map_app in Hnd. simpl in Hnd.
    apply NoDup_remove_2 in Hnd.
    assert (Hafter : ~ In username (map m_username after)).
    { intros H. apply Hnd. apply in_or_app. right. now rewrite Hrow. }
    assert (Hoff : is_active (with_status status row) = false).
    { unfold is_active, with_status. cbn [m_status]. now apply String.eqb_neq. }
    rewrite !filter_app. cbn [filter]. rewrite Hoff, Hrow, String.eqb_refl.
    cbn [negb]. rewrite andb_false_r.
    now rewrite !(filter_not_in is_active m_username username) by assumption.
  - now rewrite (filter_not_in is_active m_username username) by assumption.
Qed.

Lemma deactivated_member_not_listed_witness :
  NoDup (map m_username (members_ws db_roster)) /\
  plain_text "пауза" = true /\
  lower "пауза" <> "активен" /\
  get_members (fst (update_member_status db_roster "carol" "пауза")) true
  = filter (fun row => negb (String.eqb (m_username row) "carol"))
           (get_members db_roster true).
Proof.
  assert (H1 : NoDup (map m_username (members_ws db_roster))).
  { simpl. repeat constructor; simpl; intuition discriminate. }
  assert (H2 : lower "пауза" <> "активен") by discriminate.
  split; [exact H1|]. split; [reflexivity|]. split; [exact H2|].
  exact (deactivated_member_not_listed db_roster "carol" "пауза" H1 eq_refl H2).
Defined.

End Roster.

(** ** The validator of usernames *)

Section Validators.

Import PyStr Spec.

Lemma username_tail_body (t : string) :
  username_tail t = true ->
  exists body, all_username_chars body = true /\ (t = body \/ t = body ++ newline).
Proof.
  induction t as [|c t IH]; simpl; intros H.
  - exists "". auto.
  - destruct (username_char c) eqn:E.
    + destruct (IH H) as (body & Hall & Hb). exists (String c body). simpl.
      rewrite E, Hall. split; [reflexivity|]. destruct Hb as [->| ->]; auto.
    + apply andb_true_iff in H as [Hc Ht]. apply Ascii.eqb_eq in Hc. subst c.
      destruct t; [|discriminate]. exists "". auto.
Qed.

Lemma body_username_tail (body : string) :
  all_username_chars body = true ->
  username_tail body = true /\ username_tail (body ++ newline) = true.
Proof.
  induction body as [|c body IH]; simpl; intros H; [auto|].
  apply andb_true_iff in H as [Hc Hb]. rewrite Hc. now apply IH.
Qed.

(** X14. [validate_username] accepts the strings made of one or more ASCII
    letters, digits, underscores and dots, and the same followed by one
    line feed, which [$] lets pass; it accepts nothing else. *)
Theorem validate_username_language (s : string) :
  validate_username s = true <->
  exists body,
    body <> "" /\ all_username_chars body = true /\ (s = body \/ s = body ++ newline).
Proof.
  split.
  - destruct s as [|c t]; simpl; [discriminate|]. intros H.
    apply andb_true_iff in H as [Hc Ht].
    destruct (username_tail_body t Ht) as (body & Hall & Hb).
    exists (String c body). simpl. rewrite Hc, Hall.
    split; [discriminate|]. split; [reflexivity|]. destruct Hb as [->| ->]; auto.
  - intros (body & Hne & Hall & Hs).
    destruct body as [|c body]; [congruence|]. simpl in Hall.
    apply andb_true_iff in Hall as [Hc Hb].
    destruct (body_username_tail body Hb) as [H1 H2].
    destruct Hs as [->| ->]; simpl; now rewrite Hc.
Qed.

End Validators.

(** ** More on the similarity and the matcher *)

Section MatcherMore.

Import PyStr PyDict ImageProcessor Spec.

Lemma lev_zero (r1 r2 : list ascii) : lev r1 r2 = 0%nat -> r1 = r2.
Proof.
  revert r2. induction r1 as [|a r1 IH]; intros r2 H.
  - rewrite lev_nil_l in H. now destruct r2.
  - destruct r2 as [|b r2]; [rewrite lev_nil_r in H; discriminate|].
    rewrite lev_cons in H.
    assert (H0 : lev r1 r2 = 0%nat /\ cost a b = 0%nat) by lia.
    destruct H0 as [Hl Hc]. unfold cost in Hc.
    destruct (Ascii.eqb_spec a b); [|discriminate]. subst. f_equal. now apply IH.
Qed.

Lemma lev_refl (r : list ascii) : lev r r = 0%nat.
Proof.
  induction r as [|a r IH]; [reflexivity|].
  rewrite lev_cons, IH. unfold cost. rewrite Ascii.eqb_refl. lia.
Qed.

Lemma lev_lower (r1 r2 : list ascii) :
  (List.length r1 <= lev r1 r2 + List.length r2)%nat.
Proof.
  revert r2. induction r1 as [|a r1 IH1]; intros r2; [simpl; lia|].
  induction r2 as [|b r2 IH2].
  - rewrite lev_nil_r. lia.
  - rewrite lev_cons. pose proof (IH1 (b :: r2)). pose proof (IH1 r2). simpl in *. lia.
Qed.

Lemma list_ascii_inj (s1 s2 : string) :
  list_ascii_of_string s1 = list_ascii_of_string s2 -> s1 = s2.
Proof.
  intros H. rewrite <- (string_of_list_ascii_of_string s1),
    <- (string_of_list_ascii_of_string s2). now rewrite H.
Qed.

Lemma levenshtein_zero (s1 s2 : string) : levenshtein s1 s2 = 0%nat -> s1 = s2.
Proof.
  rewrite levenshtein_lev. intros H. apply lev_zero in H.
  apply list_ascii_inj. rewrite <- (rev_involutive (list_ascii_of_string s1)),
    <- (rev_involutive (list_ascii_of_string s2)). now rewrite H.
Qed.

(** X15. The distance the matrix computes is 0 exactly for equal strings,
    is at least the difference of the two lengths and at most the longer
    length. *)
Theorem levenshtein_bounds (str1 str2 : string) :
  (levenshtein str1 str2 = 0%nat <-> str1 = str2) /\
  (String.length str1 - String.length str2 <= levenshtein str1 str2)%nat /\
  (String.length str2 - String.length str1 <= levenshtein str1 str2)%nat /\
  (levenshtein str1 str2 <= Nat.max (String.length str1) (String.length str2))%nat.
Proof.
  split; [split|].
  - apply levenshtein_zero.
  - intros ->. rewrite levenshtein_lev. apply lev_refl.
  - pose proof (levenshtein_bound str1 str2) as Hup.
    rewrite levenshtein_lev in *.
    pose proof (lev_lower (rev (list_ascii_of_string str1)) (rev (list_ascii_of_string str2)))
      as H1.
    pose proof (lev_lower (rev (list_ascii_of_string str2)) (rev (list_ascii_of_string str1)))
      as H2.
    rewrite (lev_sym (rev (list_ascii_of_string str2))) in H2.
    rewrite !length_rev, !length_list_ascii in H1, H2. lia.
Qed.

Lemma similarity_Qeq_one (a b : string) :
  (_calculate_similarity a b == 1)%Q -> a = b.
Proof.
  unfold _calculate_similarity.
  destruct (String.eqb_spec a b) as [|Hne]; [auto|].
  destruct (contains _ _); [intros H; discriminate H|].
  destruct (Nat.eqb_spec (Nat.max (String.length a) (String.length b)) 0) as [Hm|Hm].
  - intros _. destruct a, b; simpl in Hm; try lia. reflexivity.
  - intros H. exfalso. apply Hne. apply levenshtein_zero.
    set (d := levenshtein a b) in *.
    set (m := Nat.max (String.length a) (String.length b)) in *.
    unfold Qeq, Qminus, Qplus, Qopp in H. cbn [Qnum Qden] in H.
    rewrite ?Pos.mul_1_l in H. lia.
Qed.

(** X16. The similarity is 1 exactly for equal strings: [x] against [x]
    scores 1.0 for every [x], and two different strings score strictly
    less than 1. *)
Theorem similarity_one_iff_equal (a b : string) :
  ((_calculate_similarity a b == 1)%Q <-> a = b) /\
  _calculate_similarity a a = 1%Q /\
  (a <> b -> (_calculate_similarity a b < 1)%Q).
Proof.
  assert (Hrefl : forall x, _calculate_similarity x x = 1%Q).
  { intros x. unfold _calculate_similarity. now rewrite String.eqb_refl. }
  split; [split|split].
  - apply similarity_Qeq_one.
  - intros ->. now rewrite Hrefl.
  - apply Hrefl.
  - intros Hne.
    destruct (proj1 (Qle_lteq _ _) (proj2 (similarity_range a b))) as [Hlt|Heq];
      [exact Hlt|].
    exfalso. apply Hne. now apply similarity_Qeq_one.
Qed.

Lemma has_key_get {V : Type} (d : dict V) (k : string) :
  has_key d k = true -> exists v, get d k = Some v.
Proof. unfold has_key. destruct (get d k) as [v|]; [now exists v|discriminate]. Qed.

(** X17. [find_usernames] returns a member exactly when it is on the roster
    and the similarity of some extracted token with it reaches
    [min_confidence]; so a text without match, or an empty roster, gives the
    empty list. *)
Theorem find_usernames_returns_iff (findall : string -> list (list string))
    (text : string) (members_list : list string) (min_confidence : Q) (u : string) :
  (In u (map fst (find_usernames findall text members_list min_confidence)) <->
   In u members_list /\
   exists token,
     In token (tokens (findall text)) /\
     Qle_bool min_confidence (confidence_of token u) = true) /\
  (findall text = [] ->
   find_usernames findall text members_list min_confidence = []) /\
  (members_list = [] ->
   find_usernames findall text members_list min_confidence = []).
Proof.
  split; [split|split].
  - intros Hin. apply in_map_iff in Hin as ([u' c] & Hu & Hin). simpl in Hu. subst u'.
    apply find_usernames_entries, unique_loop_get in Hin as ([Hacc|Hfound] & _ & _);
      [discriminate|].
    apply in_found in Hfound as (token & Htok & Hu & Hc & Hmin).
    split; [exact Hu|]. exists token. split; [exact Htok|]. now rewrite <- Hc.
  - intros (Hu & token & Htok & Hmin).
    assert (Hfound : In (u, confidence_of token u)
                        (matches_loop (findall text) members_list min_confidence [])).
    { apply in_found. exists token. auto. }
    pose proof (unique_loop_complete _ [] _ _ Hfound) as Hkey.
    apply has_key_get in Hkey as (c & Hget).
    apply find_usernames_entries in Hget.
    apply in_map_iff. now exists (u, c).
  - intros H. unfold find_usernames. now rewrite H.
  - intros ->. unfold find_usernames.
    assert (Hnone : forall matches found,
              matches_loop matches [] min_confidence found = found).
    { induction matches as [|m rest IH]; intros found; simpl; [reflexivity|apply IH]. }
    now rewrite Hnone.
Qed.

(** X18. A token equal to a member of the roster up to the case of its
    letters makes [find_usernames] return that member with the confidence
    1.0, for every threshold that is not above 1. *)
Theorem exact_token_gives_full_confidence (findall : string -> list (list string))
    (text : string) (members_list : list string) (min_confidence : Q)
    (token u : string) :
  In u members_list ->
  In token (tokens (findall text)) ->
  lower token = lower u ->
  (min_confidence <= 1)%Q ->
  In (u, 1%Q) (find_usernames findall text members_list min_confidence).
Proof.
  intros Hu Htok Hlow Hmin.
  assert (Hconf : confidence_of token u = 1%Q).
  { unfold confidence_of, _calculate_similarity. now rewrite Hlow, String.eqb_refl. }
  assert (Hfound : In (u, 1%Q)
                      (matches_loop (findall text) members_list min_confidence [])).
  { apply in_found. exists token. rewrite Hconf.
    repeat split; auto. now apply Qle_bool_iff. }
  pose proof (unique_loop_complete _ [] _ _ Hfound) as Hkey.
  apply has_key_get in Hkey as (c & Hget).
  pose proof Hget as Hc. apply unique_loop_get in Hc as ([Hacc|Hsrc] & _ & Hmax);
    [discriminate|].
  apply in_found in Hsrc as (token' & _ & _ & Hc' & _).
  assert (Hone : (c == 1)%Q).
  { apply Qle_antisym; [subst c; apply similarity_range|now apply Hmax]. }
  assert (Heq : lower token' = lower u).
  { apply similarity_Qeq_one. unfold confidence_of in Hc'. now rewrite <- Hc'. }
  assert (Hc1 : c = 1%Q).
  { rewrite Hc'. unfold confidence_of, _calculate_similarity.
    now rewrite Heq, String.eqb_refl. }
  apply find_usernames_entries. now rewrite <- Hc1.
Qed.

Lemma exact_token_gives_full_confidence_witness :
  In "alice" ["alice"; "bob"] /\
  In ("alice", 1%Q)
     (find_usernames (fun _ => [["Alice"; ""; ""; ""]]) "@Alice likes this"
        ["alice"; "bob"] (8 # 10)).
Proof.
  assert (H1 : In "alice" ["alice"; "bob"]) by (now left).
  split; [exact H1|].
  apply (exact_token_gives_full_confidence (fun _ => [["Alice"; ""; ""; ""]])
           "@Alice likes this" ["alice"; "bob"] (8 # 10) "Alice" "alice" H1).
  - now left.
  - reflexivity.
  - discriminate.
Defined.

End MatcherMore.


(** ** The cleaning of the recognised text *)

Section CleanText.

Import PyStr ImageProcessor Spec.

Lemma occurs_append (c : ascii) (a b : string) :
  occurs c (a ++ b) = occurs c a || occurs c b.
Proof. induction a as [|x a IH]; simpl; [reflexivity|]. now rewrite IH, orb_assoc. Qed.

Lemma occurs_replace_loop (c : ascii) (old new s : string) (skip : nat) :
  occurs c (replace_loop old new s skip) = true ->
  occurs c s = true \/ occurs c new = true.
Proof.
  revert skip. induction s as [|x s IH]; intros skip H; [discriminate|].
  assert (Hs : forall k, occurs c (replace_loop old new s k) = true ->
                         occurs c (String x s) = true \/ occurs c new = true).
  { intros k Hk. apply IH in Hk as [Hk|Hk]; [left|now right].
    cbn [occurs]. now rewrite Hk, orb_true_r. }
  destruct skip as [|k]; cbn [replace_loop] in H; [|now apply (Hs k)].
  destruct (prefix old (String x s)).
  - rewrite occurs_append in H. apply orb_true_iff in H as [H|H]; [now right|].
    now apply (Hs _ H).
  - cbn [occurs] in H. apply orb_true_iff in H as [H|H]; [|now apply (Hs _ H)].
    left. cbn [occurs]. now rewrite H.
Qed.

Lemma replace_keeps_absent (c : ascii) (old new s : string) :
  occurs c s = false -> occurs c new = false -> occurs c (replace old new s) = false.
Proof.
  intros Hs Hn. unfold replace.
  destruct (occurs c (replace_loop old new s 0)) eqn:E; [|reflexivity].
  apply occurs_replace_loop in E as [E|E]; congruence.
Qed.

Lemma replace_char_gone (c : ascii) (new s : string) :
  occurs c new = false ->
  occurs c (replace (String c EmptyString) new s) = false.
Proof.
  intros Hn. unfold replace. induction s as [|x s IH]; [reflexivity|].
  cbn [replace_loop]. change (String.length (String c EmptyString) - 1)%nat with 0%nat.
  destruct (prefix (String c EmptyString) (String x s)) eqn:E.
  - rewrite occurs_append, Hn. exact IH.
  - cbn [occurs]. rewrite IH, orb_false_r. apply Ascii.eqb_neq. intros ->.
    cbn [prefix] in E. destruct (ascii_dec c c) as [_|N]; [|now apply N].
    destruct s; discriminate.
Qed.

Lemma split_loop_blank (s : string) : lstrip s = "" -> split_loop s None = [].
Proof.
  induction s as [|c s IH]; simpl; [reflexivity|].
  destruct (isspace c); [exact IH|discriminate].
Qed.

Lemma count_append (c : ascii) (a b : string) :
  count c (a ++ b) = (count c a + count c b)%nat.
Proof. induction a as [|x a IH]; simpl; [reflexivity|]. rewrite IH. lia. Qed.

(** [' '.join(text.split())] keeps the characters that are not blank. *)
Lemma count_split_loop (c : ascii) (s : string) :
  isspace c = false ->
  (forall w, count c (String.concat " " (split_loop s (Some w)))
             = (count c w + count c s)%nat) /\
  count c (String.concat " " (split_loop s None)) = count c s.
Proof.
  intros Hc. induction s as [|x s [IHw IHn]]; [split; [intros w; simpl; lia|reflexivity]|].
  assert (Hx : isspace x = true -> Ascii.eqb x c = false).
  { intros Hsp. apply Ascii.eqb_neq. intros ->. congruence. }
  split.
  - intros w. cbn [split_loop count]. destruct (isspace x) eqn:Hsp.
    + rewrite (Hx eq_refl). cbn [String.concat].
      destruct (split_loop s None) as [|w' rest] eqn:E.
      * cbn [String.concat count] in IHn. cbn [count]. lia.
      * rewrite !count_append, IHn.
        replace (count c " ") with 0%nat; [lia|].
        cbn [count]. destruct (Ascii.eqb_spec " "%char c) as [<-|]; [discriminate Hc|reflexivity].
    + rewrite IHw, count_append. cbn [count]. lia.
  - cbn [split_loop count]. destruct (isspace x) eqn:Hsp.
    + rewrite (Hx eq_refl). exact IHn.
    + rewrite IHw. cbn [count]. lia.
Qed.

Lemma prefix_split (p s : string) :
  prefix p s = true -> exists rest, s = p ++ rest.
Proof.
  revert s. induction p as [|a p IH]; intros s H.
  - now exists s.
  - destruct s as [|b s]; cbn [prefix] in H; [discriminate H|].
    destruct (ascii_dec a b) as [<-|]; [|discriminate H].
    destruct (IH s H) as (rest & ->). now exists rest.
Qed.

Lemma prefix_append (p rest : string) : prefix p (p ++ rest) = true.
Proof.
  induction p as [|a p IH]; simpl; [now destruct rest|].
  destruct (ascii_dec a a); [exact IH|congruence].
Qed.

Lemma replace_loop_skip (old new p rest : string) :
  replace_loop old new (p ++ rest) (String.length p) = replace_loop old new rest 0.
Proof.
  induction p as [|x p IH]; simpl; [|exact IH].
  destruct rest; reflexivity.
Qed.

(** A match is replaced and the search goes on after it. *)
Lemma replace_match (a : ascii) (old' new rest : string) :
  replace (String a old') new (String a old' ++ rest)
  = new ++ replace (String a old') new rest.
Proof.
  unfold replace. change (String a old' ++ rest) with (String a (old' ++ rest)).
  cbn [replace_loop].
  change (String a (old' ++ rest)) with (String a old' ++ rest).
  rewrite prefix_append.
  replace (String.length (String a old') - 1)%nat with (String.length old')
    by (simpl; lia).
  now rewrite replace_loop_skip.
Qed.

Lemma replace_no_match (old new : string) (x : ascii) (s : string) :
  prefix old (String x s) = false ->
  replace old new (String x s) = String x (replace old new s).
Proof. unfold replace. cbn [replace_loop]. now intros ->. Qed.

Lemma length_append (a b : string) :
  String.length (a ++ b) = (String.length a + String.length b)%nat.
Proof. induction a as [|x a IH]; simpl; [reflexivity|now rewrite IH]. Qed.

(** A replacement that brings as many [c] as it takes away keeps their
    number. *)
Lemma count_replace_neutral (c a : ascii) (old' new s : string) :
  count c (String a old') = count c new ->
  count c (replace (String a old') new s) = count c s.
Proof.
  intros Hsame. remember (String.length s) as n eqn:Hn.
  assert (Hle : (String.length s <= n)%nat) by lia. clear Hn.
  revert s Hle. induction n as [|n IH]; intros s Hle.
  - destruct s; [reflexivity|simpl in Hle; lia].
  - destruct s as [|x s]; [reflexivity|].
    destruct (prefix (String a old') (String x s)) eqn:E.
    + apply prefix_split in E as (rest & E). rewrite E, replace_match, !count_append.
      rewrite IH, Hsame; [reflexivity|].
      apply (f_equal String.length) in E. rewrite length_append in E.
      simpl in E, Hle. lia.
    + rewrite replace_no_match by assumption. simpl. rewrite IH; [reflexivity|].
      simpl in Hle. lia.
Qed.

(** Replacing the character [a] by the character [b] turns every [a] into
    a [b]. *)
Lemma count_replace_char (a b : ascii) (s : string) :
  a <> b ->
  count b (replace (String a EmptyString) (String b EmptyString) s)
  = (count b s + count a s)%nat.
Proof.
  intros Hab. induction s as [|x s IH]; [reflexivity|].
  destruct (prefix (String a EmptyString) (String x s)) eqn:E.
  - apply prefix_split in E as (rest & E). simpl in E. injection E as -> ->.
    change (String a rest) with (String a EmptyString ++ rest).
    rewrite replace_match. change (String a EmptyString ++ rest) with (String a rest).
    cbn [append count]. rewrite IH, !Ascii.eqb_refl.
    destruct (Ascii.eqb_spec a b); [congruence|]. lia.
  - rewrite replace_no_match by assumption. cbn [count]. rewrite IH.
    destruct (Ascii.eqb_spec x a) as [->|Hne]; [|lia].
    cbn [prefix] in E. destruct (ascii_dec a a); [|congruence].
    destruct s; discriminate.
Qed.

(** X19. [_clean_text] turns every digit 0 into an [o] and every digit 1
    into an [l], also inside a username: the text it returns holds neither
    0 nor 1, and holds as many [o] as the text given held [o] and 0
    together, as many [l] as it held [l] and 1 together.  An empty or blank
    text gives the empty text. *)
Theorem clean_text_rewrites_zero_and_one (text : string) :
  occurs "0"%char (_clean_text text) = false /\
  occurs "1"%char (_clean_text text) = false /\
  count "o"%char (_clean_text text)
  = (count "o"%char text + count "0"%char text)%nat /\
  count "l"%char (_clean_text text)
  = (count "l"%char text + count "1"%char text)%nat /\
  (lstrip text = "" -> _clean_text text = "").
Proof.
  unfold _clean_text, corrections. cbn [fold_left fst snd].
  assert (Hjoin : forall c, isspace c = false ->
            count c (String.concat " " (split text)) = count c text).
  { intros c Hc. apply (count_split_loop c text Hc). }
  set (t0 := String.concat " " (split text)) in *.
  split; [|split; [|split; [|split]]].
  - apply replace_keeps_absent; [|reflexivity].
    apply replace_keeps_absent; [|reflexivity].
    apply (replace_char_gone "0"%char "o"). reflexivity.
  - apply replace_keeps_absent; [|reflexivity].
    apply replace_keeps_absent; [|reflexivity].
    apply replace_keeps_absent; [|reflexivity].
    apply (replace_char_gone "1"%char "l"). reflexivity.
  - rewrite !count_replace_neutral by reflexivity.
    rewrite (count_replace_char "0"%char "o"%char) by discriminate.
    rewrite !count_replace_neutral by reflexivity.
    now rewrite !Hjoin by reflexivity.
  - rewrite !count_replace_neutral by reflexivity.
    rewrite (count_replace_char "1"%char "l"%char) by discriminate.
    rewrite !count_replace_neutral by reflexivity.
    now rewrite !Hjoin by reflexivity.
  - intros Hblank. unfold t0, split. now rewrite split_loop_blank.
Qed.

Lemma clean_text_rewrites_zero_and_one_witness :
  _clean_text "  @5am   user10  " = "@sam userlo" /\
  count "o"%char (_clean_text "  @5am   user10  ")
  = (count "o"%char "  @5am   user10  " + count "0"%char "  @5am   user10  ")%nat /\
  count "l"%char (_clean_text "  @5am   user10  ")
  = (count "l"%char "  @5am   user10  " + count "1"%char "  @5am   user10  ")%nat.
Proof.
  split; [reflexivity|].
  exact (conj (proj1 (proj2 (proj2 (clean_text_rewrites_zero_and_one "  @5am   user10  "))))
              (proj1 (proj2 (proj2 (proj2
                 (clean_text_rewrites_zero_and_one "  @5am   user10  ")))))).
Defined.

End CleanText.

(** ** The rankings *)

Section Rankings.

Import PyStr PyDict GoogleSheetsDB MatsuniCalculator Spec Sample.

Lemma sort_desc_of_sorted {A : Type} (below : A -> A -> bool) (l : list A) :
  StronglySorted (fun a b => below a b = false) l -> sort_desc below l = l.
Proof.
  induction 1 as [|x l Hs IH Hx]; simpl; [reflexivity|].
  rewrite IH. destruct l as [|y l]; [reflexivity|]. simpl.
  inversion Hx as [|? ? Hxy _]; subst. now rewrite Hxy.
Qed.

Lemma sorted_of_map {A B : Type} (f : A -> B) (R : B -> B -> Prop) (l : list A) :
  StronglySorted R (map f l) -> StronglySorted (fun a b => R (f a) (f b)) l.
Proof.
  induction l as [|x l IH]; simpl; intros H; [constructor|].
  apply StronglySorted_inv in H as [Hs Hx]. constructor; [now apply IH|].
  now apply Forall_forall; intros b Hb; eapply Forall_forall in Hx; [exact Hx|apply in_map, Hb].
Qed.

Lemma firstn_add_ranks (n : nat) (i : Z) (l : list MemberStats) :
  map t_rank (firstn n (add_ranks i l)) = ranks_from i (Nat.min n (List.length l)).
Proof.
  revert i l. induction n as [|n IH]; intros i l; [reflexivity|].
  destruct l as [|x l]; simpl; [reflexivity|]. now rewrite IH.
Qed.

(** X20. On the results of [calculate_totals], the entry [top_total] of
    [generate_rankings] is the first ten rows of the report as they stand:
    sorting them again by total changes nothing, and their ranks are 1 to
    10, or 1 to the number of rows when there are fewer. *)
Theorem top_total_is_head_of_report (db db' : DB) (s e : string) (out : Totals) :
  calculate_totals db s e = Some (db', out) ->
  top_total (results out) = firstn 10 (results out) /\
  map t_rank (top_total (results out))
  = ranks_from 1 (Nat.min 10 (List.length (results out))).
Proof.
  intros H.
  apply calculate_totals_inv in H
    as (activities & groups & fin & header & existing & end_day & start_day
        & _ & _ & _ & _ & _ & _ & Hres & _ & _ & _).
  set (below := fun x y : MemberStats => s_total_matsuni x <? s_total_matsuni y) in *.
  assert (Htop : top_total (results out) = firstn 10 (results out)).
  { unfold top_total. f_equal.
    apply (sort_desc_of_sorted (fun x y => below (t_stats x) (t_stats y))).
    apply (sorted_of_map t_stats (fun a b => below a b = false)).
    rewrite Hres, add_ranks_stats.
    apply (sort_desc_sorted below); unfold below; intros; lia. }
  split; [exact Htop|].
  rewrite Htop, Hres, firstn_add_ranks. f_equal. f_equal.
  now rewrite <- (length_map t_stats (add_ranks 1 _)), add_ranks_stats.
Qed.

Lemma top_total_is_head_of_report_witness :
  calculate_totals db_period "2024-01-01" "2024-01-02"
  = Some (db_period_after, totals_period) /\
  top_total (results totals_period) = firstn 10 (results totals_period) /\
  map t_rank (top_total (results totals_period))
  = ranks_from 1 (Nat.min 10 (List.length (results totals_period))).
Proof.
  split; [reflexivity|].
  exact (top_total_is_head_of_report db_period db_period_after
           "2024-01-01" "2024-01-02" totals_period eq_refl).
Defined.

Lemma sorted_firstn_skipn {A : Type} (R : A -> A -> Prop) (n : nat) (l : list A) :
  StronglySorted R l ->
  StronglySorted R (firstn n l) /\
  Forall (fun t => Forall (R t) (skipn n l)) (firstn n l).
Proof.
  intros H. revert n. induction H as [|x l Hs IH Hx]; intros [|n]; simpl;
    try (split; constructor).
  - apply IH.
  - eapply incl_Forall; [|exact Hx]. intros y Hy.
    rewrite <- (firstn_skipn n l). apply in_or_app. now left.
  - eapply incl_Forall; [|exact Hx]. intros y Hy.
    rewrite <- (firstn_skipn n l). apply in_or_app. now right.
  - apply IH.
Qed.

(** X21. The entry [top_days] of [generate_rankings] holds ten of the rows
    it is given, or all of them when there are fewer, by days of activity
    from the most to the least; no row it leaves out has more days of
    activity than a row it holds. *)
Theorem top_days_holds_most_active (results : list MemberTotal) :
  exists rest,
    Permutation results (top_days results ++ rest) /\
    List.length (top_days results) = Nat.min 10 (List.length results) /\
    StronglySorted
      (fun a b => s_days_active (t_stats b) <= s_days_active (t_stats a))
      (top_days results) /\
    Forall (fun t => Forall (fun r => s_days_active (t_stats r)
                                      <= s_days_active (t_stats t)) rest)
           (top_days results).
Proof.
  unfold top_days.
  set (below := fun x y : MemberTotal =>
                  s_days_active (t_stats x) <? s_days_active (t_stats y)).
  pose proof (sort_desc_perm below results) as Hperm.
  assert (Hsorted : StronglySorted
            (fun a b => s_days_active (t_stats b) <= s_days_active (t_stats a))
            (sort_desc below results)).
  { eapply sorted_weaken; [|apply (sort_desc_sorted below); unfold below; intros; lia].
    unfold below. intros a b Hab. lia. }
  destruct (sorted_firstn_skipn _ 10 _ Hsorted) as [Htop Hrest].
  exists (skipn 10 (sort_desc below results)). repeat split.
  - rewrite firstn_skipn. now symmetry.
  - rewrite length_firstn. now rewrite (Permutation_length Hperm).
  - exact Htop.
  - exact Hrest.
Qed.

End Rankings.

(** ** The dates of the period *)

Section Dates.

Import PyStr PyDate GoogleSheetsDB Spec Sample.

Lemma digit_range (c : ascii) (x : Z) : digit c = Some x -> 0 <= x <= 9.
Proof.
  unfold digit. intros H.
  destruct ((48 <=? nat_of_ascii c)%nat && (nat_of_ascii c <=? 57)%nat) eqn:E; [|discriminate].
  injection H as <-. apply andb_true_iff in E as [E1 E2].
  apply Nat.leb_le in E1, E2. lia.
Qed.

Lemma ascii_compare_digits (a b : ascii) (x y : Z) :
  digit a = Some x -> digit b = Some y -> Ascii.compare a b = (x ?= y)%Z.
Proof.
  unfold digit, Ascii.compare, nat_of_ascii. intros Ha Hb.
  destruct ((48 <=? _)%nat && _) in Ha; [|discriminate].
  destruct ((48 <=? _)%nat && _) in Hb; [|discriminate].
  injection Ha as <-. injection Hb as <-.
  destruct (N.compare_spec (N_of_ascii a) (N_of_ascii b)) as [E|E|E]; symmetry.
  - apply Z.compare_eq_iff. now rewrite E.
  - apply Z.compare_lt_iff. lia.
  - apply Z.compare_gt_iff. lia.
Qed.

Lemma zero_padded_shape (s : string) (o : Z) :
  zero_padded s = true -> strptime s = Some o ->
  exists c0 c1 c2 c3 c5 c6 c8 c9 x0 x1 x2 x3 x5 x6 x8 x9,
    s = String c0 (String c1 (String c2 (String c3 (String "-"
          (String c5 (String c6 (String "-" (String c8 (String c9 "")))))))))%char /\
    (digit c0 = Some x0 /\ digit c1 = Some x1 /\ digit c2 = Some x2 /\ digit c3 = Some x3) /\
    (digit c5 = Some x5 /\ digit c6 = Some x6 /\ digit c8 = Some x8 /\ digit c9 = Some x9) /\
    1 <= 10 * x5 + x6 <= 12 /\
    ordinal (1000 * x0 + 100 * x1 + 10 * x2 + x3) (10 * x5 + x6) (10 * x8 + x9) = Some o.
Proof.
  unfold zero_padded. intros Hp Hs. apply andb_true_iff in Hp as [Hlen Hsp].
  apply Nat.eqb_eq in Hlen. apply negb_true_iff in Hsp.
  destruct s as [|c0 [|c1 [|c2 [|c3 [|c4 [|c5 [|c6 [|c7 [|c8 [|c9 [|c10 s]]]]]]]]]]];
    try discriminate Hlen.
  cbn [occurs] in Hsp. repeat (apply orb_false_iff in Hsp as [? Hsp]).
  cbn [strptime] in Hs.
  destruct (digit c0) as [x0|] eqn:D0; [|discriminate].
  destruct (digit c1) as [x1|] eqn:D1; [|discriminate].
  destruct (digit c2) as [x2|] eqn:D2; [|discriminate].
  destruct (digit c3) as [x3|] eqn:D3; [|discriminate].
  cbn [bind] in Hs.
  destruct (is_dash c4) eqn:E4; [|discriminate]. cbn [negb] in Hs.
  apply Ascii.eqb_eq in E4. subst c4.
  destruct (is_dash c6) eqn:E6.
  { destruct (month_field _); [|discriminate]. discriminate. }
  destruct (is_dash c7) eqn:E7; [|discriminate].
  apply Ascii.eqb_eq in E7. subst c7.
  cbn [month_field] in Hs.
  destruct (digit c5) as [x5|] eqn:D5; [|discriminate].
  destruct (digit c6) as [x6|] eqn:D6; [|discriminate].
  cbn [bind] in Hs.
  pose proof (digit_range _ _ D5). pose proof (digit_range _ _ D6).
  assert (exists month, 1 <= month <= 12 /\ month = 10 * x5 + x6 /\
            (do day <- day_field (String c8 (String c9 "")); ordinal (1000 * x0 + 100 * x1 + 10 * x2 + x3) month day) = Some o)
    as (month & Hm & -> & Hs').
  { destruct (Z.eqb_spec x5 1), (Z.leb_spec x6 2); cbn [andb] in Hs.
    1: exists (10 + x6); cbn [bind] in Hs; repeat split; try lia; exact Hs.
    all: destruct (Z.eqb_spec x5 0), (Z.leb_spec 1 x6); cbn [andb] in Hs; try discriminate.
    all: exists x6; cbn [bind] in Hs; repeat split; try lia; exact Hs. }
  clear Hs. cbn [day_field] in Hs'.
  destruct (digit c9) as [x9|] eqn:D9; [|discriminate]. cbn [bind] in Hs'.
  match goal with H : Ascii.eqb c8 _ = false |- _ => rewrite H in Hs' end.
  destruct (digit c8) as [x8|] eqn:D8; [|discriminate]. cbn [bind] in Hs'.
  pose proof (digit_range _ _ D8). pose proof (digit_range _ _ D9).
  exists c0, c1, c2, c3, c5, c6, c8, c9, x0, x1, x2, x3, x5, x6, x8, x9.
  split; [reflexivity|]. split; [auto|]. split; [auto|]. split; [exact Hm|].
  destruct (Z.eqb_spec x8 3), (Z.leb_spec x9 1); cbn [andb] in Hs'.
  1: replace (10 * x8 + x9) with (30 + x9) by lia; exact Hs'.
  all: destruct (Z.leb_spec 1 x8), (Z.leb_spec x8 2); cbn [andb] in Hs'; try exact Hs'.
  all: destruct (Z.eqb_spec x8 0), (Z.leb_spec 1 x9); cbn [andb] in Hs'; try discriminate.
  all: try lia.
  all: replace (10 * x8 + x9) with x9 by lia; exact Hs'.
Qed.
Ltac month_cases m :=
  let Hc := fresh "Hc" in
  assert (m = 1 \/ m = 2 \/ m = 3 \/ m = 4 \/ m = 5 \/ m = 6 \/ m = 7 \/ m = 8 \/
          m = 9 \/ m = 10 \/ m = 11 \/ m = 12) as Hc by lia;
  repeat (destruct Hc as [Hc|Hc]); subst m.

Lemma day_of_year_range y m d : 1 <= m <= 12 -> 1 <= d <= days_in_month y m ->
  1 <= days_before_month y (Z.to_nat m) + d <= 365 + (if is_leap y then 1 else 0).
Proof.
  intros Hm Hd. month_cases m.
  all: cbv - [is_leap Z.add Z.le Z.lt] in Hd |- *; destruct (is_leap y); lia.
Qed.

Lemma day_of_year_order y m d m' d' :
  1 <= m <= 12 -> 1 <= d <= days_in_month y m ->
  1 <= m' <= 12 -> 1 <= d' <= days_in_month y m' ->
  (m * 100 + d <= m' * 100 + d' <->
   days_before_month y (Z.to_nat m) + d <= days_before_month y (Z.to_nat m') + d').
Proof.
  intros Hm Hd Hm' Hd'. month_cases m; month_cases m'.
  all: cbv - [is_leap Z.add Z.le Z.lt iff] in Hd, Hd' |- *; destruct (is_leap y); lia.
Qed.

Lemma days_before_year_succ y :
  days_before_year (y + 1) = days_before_year y + 365 + (if is_leap y then 1 else 0).
Proof.
  unfold days_before_year, is_leap. replace (y + 1 - 1) with y by lia.
  destruct (Z.eqb_spec (y mod 4) 0), (Z.eqb_spec (y mod 100) 0), (Z.eqb_spec (y mod 400) 0);
    cbn [andb orb negb]; Z.div_mod_to_equations; lia.
Qed.

Lemma days_before_year_le y y' : y <= y' -> days_before_year y <= days_before_year y'.
Proof.
  intros H. replace y' with (y + (y' - y)) by lia.
  assert (0 <= y' - y) as Hk by lia. revert Hk. generalize (y' - y). clear.
  intros k Hk. pattern k. apply natlike_ind; [| |exact Hk].
  - rewrite Z.add_0_r. lia.
  - intros x Hx IH. replace (y + Z.succ x) with (y + x + 1) by lia.
    rewrite days_before_year_succ. destruct (is_leap (y + x)); lia.
Qed.

Lemma ordinal_order y m d o y' m' d' o' :
  1 <= m <= 12 -> 1 <= m' <= 12 ->
  ordinal y m d = Some o -> ordinal y' m' d' = Some o' ->
  ((y * 10000 + m * 100 + d <=? y' * 10000 + m' * 100 + d') = (o <=? o'))%Z.
Proof.
  intros Hm Hm' Ho Ho'. unfold ordinal in Ho, Ho'.
  destruct ((1 <=? y) && (1 <=? d) && (d <=? days_in_month y m)) eqn:E; [|discriminate].
  destruct ((1 <=? y') && (1 <=? d') && (d' <=? days_in_month y' m')) eqn:E'; [|discriminate].
  injection Ho as <-. injection Ho' as <-.
  apply andb_true_iff in E as [E Hd2]. apply andb_true_iff in E as [Hy Hd1].
  apply andb_true_iff in E' as [E' Hd2']. apply andb_true_iff in E' as [Hy' Hd1'].
  apply Z.leb_le in Hy, Hd1, Hd2, Hy', Hd1', Hd2'.
  assert (Hdim : forall yy mm, days_in_month yy mm <= 31).
  { intros yy mm. unfold days_in_month.
    destruct (mm =? 2); [destruct (is_leap yy); lia|].
    destruct ((mm =? 4) || (mm =? 6) || (mm =? 9) || (mm =? 11)); lia. }
  pose proof (Hdim y m). pose proof (Hdim y' m').
  pose proof (day_of_year_range y m d Hm (conj Hd1 Hd2)) as R.
  pose proof (day_of_year_range y' m' d' Hm' (conj Hd1' Hd2')) as R'.
  apply Bool.eq_iff_eq_true. rewrite !Z.leb_le.
  destruct (Z.lt_trichotomy y y') as [Hlt|[->|Hgt]].
  - pose proof (days_before_year_succ y). 
    pose proof (days_before_year_le (y + 1) y' ltac:(lia)). lia.
  - pose proof (day_of_year_order y' m d m' d' Hm (conj Hd1 Hd2) Hm' (conj Hd1' Hd2')). lia.
  - pose proof (days_before_year_succ y'). 
    pose proof (days_before_year_le (y' + 1) y ltac:(lia)). lia.
Qed.

Ltac lex_step :=
  match goal with
  | |- context [(?a ?= ?b)%Z] =>
      destruct (Z.compare_spec a b);
      [subst | solve [symmetry; apply Z.leb_le; lia] | solve [symmetry; apply Z.leb_gt; lia]]
  end.

Lemma zero_padded_order (s1 s2 : string) (o1 o2 : Z) :
  zero_padded s1 = true -> zero_padded s2 = true ->
  strptime s1 = Some o1 -> strptime s2 = Some o2 ->
  String.leb s1 s2 = (o1 <=? o2)%Z.
Proof.
  intros P1 P2 H1 H2.
  destruct (zero_padded_shape s1 o1 P1 H1)
    as (a0 & a1 & a2 & a3 & a5 & a6 & a8 & a9 & x0 & x1 & x2 & x3 & x5 & x6 & x8 & x9
        & -> & (A0 & A1 & A2 & A3) & (A5 & A6 & A8 & A9) & Hm1 & O1).
  destruct (zero_padded_shape s2 o2 P2 H2)
    as (b0 & b1 & b2 & b3 & b5 & b6 & b8 & b9 & y0 & y1 & y2 & y3 & y5 & y6 & y8 & y9
        & -> & (B0 & B1 & B2 & B3) & (B5 & B6 & B8 & B9) & Hm2 & O2).
  rewrite <- (ordinal_order _ _ _ _ _ _ _ _ Hm1 Hm2 O1 O2).
  clear O1 O2 P1 P2 H1 H2.
  unfold String.leb. cbn [String.compare].
  change (Ascii.compare "-" "-") with Eq.
  rewrite (ascii_compare_digits _ _ _ _ A0 B0), (ascii_compare_digits _ _ _ _ A1 B1),
    (ascii_compare_digits _ _ _ _ A2 B2), (ascii_compare_digits _ _ _ _ A3 B3),
    (ascii_compare_digits _ _ _ _ A5 B5), (ascii_compare_digits _ _ _ _ A6 B6),
    (ascii_compare_digits _ _ _ _ A8 B8), (ascii_compare_digits _ _ _ _ A9 B9).
  apply digit_range in A0, A1, A2, A3, A5, A6, A8, A9, B0, B1, B2, B3, B5, B6, B8, B9.
  do 8 lex_step. symmetry. apply Z.leb_le. lia.
Qed.

Lemma within_days_in_period (start_date end_date : string) (start_day end_day : Z)
    (row : ActivityRow) :
  zero_padded start_date = true -> zero_padded end_date = true ->
  strptime start_date = Some start_day -> strptime end_date = Some end_day ->
  dated row = true ->
  in_period start_date end_date row = within_days start_day end_day row.
Proof.
  intros Ps Pe Hs He Hrow. unfold dated, within_days, in_period, day_of in *.
  destruct (split_first (a_checked_at row)) as [d|]; [|discriminate]. cbn [bind] in *.
  destruct (zero_padded d) eqn:Pd; [|discriminate].
  destruct (strptime d) as [o|] eqn:Hd; [|discriminate].
  now rewrite (zero_padded_order _ _ _ _ Ps Pd Hs Hd), (zero_padded_order _ _ _ _ Pd Pe Hd He).
Qed.

(** X22. When the two ends of the period and the dates of the ledger are
    zero-padded dates of the calendar, the rows [calculate_totals] takes
    into the report are the rows checked on a day from the first day of
    the period to the last, in the order of the ledger: on such dates the
    comparison of the strings is the comparison of the days. *)
Theorem period_of_padded_dates_is_chronological (data : list ActivityRow)
    (start_date end_date : string) (start_day end_day : Z) :
  zero_padded start_date = true -> zero_padded end_date = true ->
  strptime start_date = Some start_day -> strptime end_date = Some end_day ->
  forallb dated data = true ->
  period_loop data start_date end_date []
  = Some (filter (within_days start_day end_day) data).
Proof.
  intros Ps Pe Hs He Hdata.
  rewrite period_loop_returns.
  - cbn [app]. f_equal. apply filter_ext_in. intros row Hrow.
    apply (within_days_in_period _ _ _ _ _ Ps Pe Hs He).
    rewrite forallb_forall in Hdata. now apply Hdata.
  - unfold stamped. rewrite forallb_forall in *. intros row Hrow.
    specialize (Hdata row Hrow). unfold dated, day_of in Hdata.
    destruct (split_first (a_checked_at row)); [reflexivity|discriminate].
Qed.

Lemma period_of_padded_dates_is_chronological_witness :
  period_loop (activity_ws db_period) "2024-01-02" "2024-01-03" []
  = Some (filter (within_days 738887 738888) (activity_ws db_period)).
Proof.
  exact (period_of_padded_dates_is_chronological (activity_ws db_period)
           "2024-01-02" "2024-01-03" 738887 738888
           eq_refl eq_refl eq_refl eq_refl eq_refl).
Defined.

End Dates.
